(** * Data Quality Review Hub: the change-reconciliation engine

    A shallow embedding of [models/shop_orders.py] (column tagger, schema
    validator, merge, pending log), of [init_state.py], of
    [controllers/filters.py] and of the handlers of [app.py], together with
    the properties the specification states about them and further
    properties of the code.

    Conventions of the embedding.
    - Python [str] is [string]; the model covers ASCII text (case mapping,
      white space and digits are the ASCII ones).
    - A cell of a frame is a [value]; binary floating point cells are not
      covered.
    - pandas objects live in a heap and are passed by reference, so that
      in-place updates ([df[col] = ...], [df.columns = ...]) and aliasing
      are visible.
    - Effects (heap, the module-level [column_tags] dict, the Snowflake
      session, [st.session_state], the page output) are threaded through a
      state-and-exception monad [M].
    - The filter entries of [st.session_state] are kept in a record of
      their own, [FilterState], which the functions of the page take and
      hand back. *)

From Stdlib Require Import ZArith Ascii String.
From stdpp Require Import gmap strings pretty list fin_maps.

Local Open Scope Z_scope.

(* ===================================================================== *)
(** ** Python strings *)
(* ===================================================================== *)

Module Py.

Definition is_ascii_lower (c : ascii) : bool :=
  let n := nat_of_ascii c in (97 <=? n)%nat && (n <=? 122)%nat.

Definition is_ascii_upper (c : ascii) : bool :=
  let n := nat_of_ascii c in (65 <=? n)%nat && (n <=? 90)%nat.

Definition is_digit (c : ascii) : bool :=
  let n := nat_of_ascii c in (48 <=? n)%nat && (n <=? 57)%nat.

(** [str.isspace] on the ASCII range: TAB..CR, FS..US and the blank. *)
Definition is_space (c : ascii) : bool :=
  let n := nat_of_ascii c in
  ((9 <=? n)%nat && (n <=? 13)%nat) || ((28 <=? n)%nat && (n <=? 32)%nat).

Definition upper_char (c : ascii) : ascii :=
  if is_ascii_lower c then ascii_of_nat (nat_of_ascii c - 32) else c.

Definition lower_char (c : ascii) : ascii :=
  if is_ascii_upper c then ascii_of_nat (nat_of_ascii c + 32) else c.

Fixpoint map_chars (f : ascii → ascii) (s : string) : string :=
  match s with
  | EmptyString => EmptyString
  | String c r => String (f c) (map_chars f r)
  end.

(** [s.upper()] and [s.lower()] *)
Definition upper (s : string) : string := map_chars upper_char s.
Definition lower (s : string) : string := map_chars lower_char s.

(** [s.replace(old, new)] for one-character [old] and [new] *)
Definition replace_char (old new : ascii) (s : string) : string :=
  map_chars (λ c, if Ascii.eqb c old then new else c) s.

(** [s.replace(old, "")] for a one-character [old] *)
Fixpoint remove_char (old : ascii) (s : string) : string :=
  match s with
  | EmptyString => EmptyString
  | String c r =>
      if Ascii.eqb c old then remove_char old r
      else String c (remove_char old r)
  end.

(** [needle in hay] *)
Fixpoint contains (needle hay : string) : bool :=
  String.prefix needle hay
  || match hay with
     | EmptyString => false
     | String _ r => contains needle r
     end.

Fixpoint lstrip (s : string) : string :=
  match s with
  | String c r => if is_space c then lstrip r else s
  | EmptyString => EmptyString
  end.

Fixpoint rstrip (s : string) : string :=
  match s with
  | EmptyString => EmptyString
  | String c r =>
      match rstrip r with
      | EmptyString => if is_space c then EmptyString else String c EmptyString
      | r' => String c r'
      end
  end.

(** [s.strip()] *)
Definition strip (s : string) : string := rstrip (lstrip s).

(** [sep.join(parts)] *)
Fixpoint join (sep : string) (parts : list string) : string :=
  match parts with
  | [] => ""
  | [p] => p
  | p :: rest => p +:+ sep +:+ join sep rest
  end.

(** [s.split(sep)] for a one-character separator: never returns the
    empty list. *)
Fixpoint split (sep : ascii) (s : string) : list string :=
  match s with
  | EmptyString => [""]
  | String c r =>
      if Ascii.eqb c sep then "" :: split sep r
      else match split sep r with
           | w :: ws => String c w :: ws
           | [] => [String c ""]
           end
  end.

(** [s.capitalize()] *)
Definition capitalize (s : string) : string :=
  match s with
  | EmptyString => EmptyString
  | String c r => String (upper_char c) (lower r)
  end.

(** [str(n)] for an [int] *)
Definition str_of_int (n : Z) : string := pretty n.

(** Zero-padded decimal, as [%02d] and [%04d] print it. *)
Fixpoint zeros (n : nat) : string :=
  match n with O => "" | S k => String "0" (zeros k) end.

Definition zfill (width : nat) (n : Z) : string :=
  let s := str_of_int n in
  zeros (width - String.length s) +:+ s.

End Py.

(* ===================================================================== *)
(** ** [decimal.Decimal]: construction from a string, [copy_abs],
       [as_tuple] *)
(* ===================================================================== *)

Module Decimal.

(** The exponent of [as_tuple()]: an [int] for a finite number, and the
    strings ['F'], ['n'], ['N'] for infinities and (signalling) NaNs. *)
Inductive exponent_t :=
| ExpInt (e : Z)
| ExpF
| Expn
| ExpN.

Record t := mk {
  sign : bool;              (* [true] is negative *)
  digits : list nat;        (* coefficient digits, most significant first *)
  exponent : exponent_t
}.

Definition copy_abs (d : t) : t :=
  {| sign := false; digits := digits d; exponent := exponent d |}.

Definition copy_negate (d : t) : t :=
  {| sign := negb (sign d); digits := digits d; exponent := exponent d |}.

Definition is_finite (d : t) : bool :=
  match exponent d with ExpInt _ => true | _ => false end.

(** Longest prefix of decimal digits, and the rest. *)
Fixpoint span_digits (s : string) : list nat * string :=
  match s with
  | String c r =>
      if Py.is_digit c then
        let '(ds, rest) := span_digits r in
        ((nat_of_ascii c - 48)%nat :: ds, rest)
      else ([], s)
  | EmptyString => ([], EmptyString)
  end.

Fixpoint drop_leading_zeros (ds : list nat) : list nat :=
  match ds with
  | O :: r => drop_leading_zeros r
  | _ => ds
  end.

(** Digits of [int(intpart + fracpart)]. *)
Definition coefficient (ds : list nat) : list nat :=
  match drop_leading_zeros ds with
  | [] => [O]
  | ds' => ds'
  end.

Definition int_of_digits (ds : list nat) : Z :=
  fold_left (λ acc d, 10 * acc + Z.of_nat d) ds 0.

(** An optional sign. *)
Definition take_sign (s : string) : bool * string :=
  match s with
  | String "-" r => (true, r)
  | String "+" r => (false, r)
  | _ => (false, s)
  end.

(** The optional exponent part, up to the end of the text ([E], an
    optional sign, one or more digits): its value, or [None] when the
    rest of the string is not of that form. *)
Definition parse_exp (s : string) : option Z :=
  match s with
  | EmptyString => Some 0
  | String c r =>
      if Ascii.eqb (Py.lower_char c) "e" then
        let '(neg, r1) := take_sign r in
        match span_digits r1 with
        | ([], _) => None
        | (ds, EmptyString) =>
            Some (if neg then - int_of_digits ds else int_of_digits ds)
        | (_, String _ _) => None
        end
      else None
  end.

(** A finite number: integer digits, an optional point with fractional
    digits, an optional exponent; at least one digit in the integer or
    fractional part. *)
Definition parse_number (neg : bool) (s : string) : option t :=
  let '(ip, r1) := span_digits s in
  let '(fp, r2) :=
    match r1 with
    | String "." r => span_digits r
    | _ => ([], r1)
    end in
  match ip ++ fp with
  | [] => None
  | ds =>
      match parse_exp r2 with
      | None => None
      | Some e =>
          Some {| sign := neg;
                  digits := coefficient ds;
                  exponent := ExpInt (e - Z.of_nat (length fp)) |}
      end
  end.

(** [Inf], [Infinity], or [NaN] / [sNaN] followed by diagnostic digits,
    in any letter case. *)
Definition parse_special (neg : bool) (s : string) : option t :=
  let l := Py.lower s in
  if String.eqb l "inf" || String.eqb l "infinity" then
    Some {| sign := neg; digits := [O]; exponent := ExpF |}
  else
    let '(signal, r) :=
      match l with
      | String "s" r => (true, r)
      | _ => (false, l)
      end in
    match r with
    | String "n" (String "a" (String "n" diag)) =>
        match span_digits diag with
        | (ds, EmptyString) =>
            Some {| sign := neg;
                    digits := drop_leading_zeros ds;
                    exponent := if signal then ExpN else Expn |}
        | _ => None
        end
    | _ => None
    end.

(** [Decimal(s)]: [None] stands for [InvalidOperation]. White space
    around the text and underscores are discarded first. *)
Definition of_string (s : string) : option t :=
  let '(neg, r) := take_sign (Py.remove_char "_" (Py.strip s)) in
  match parse_number neg r with
  | Some d => Some d
  | None => parse_special neg r
  end.

End Decimal.

(* ===================================================================== *)
(** ** Cell values and pandas frames *)
(* ===================================================================== *)

(** [datetime.date] *)
Record Date := mkDate { d_year : Z; d_month : Z; d_day : Z }.

(** [pd.Timestamp]: wall-clock fields and, for a time-zone aware stamp,
    the UTC offset in seconds. *)
Record Timestamp := mkTimestamp {
  ts_date : Date;
  ts_hour : Z;
  ts_minute : Z;
  ts_second : Z;
  ts_utcoffset : option Z
}.

Inductive value :=
| VNull                       (* None / NaN / pd.NA / NaT *)
| VInt (n : Z)
| VBool (b : bool)
| VText (s : string)
| VTime (t : Timestamp)
| VDate (d : Date).

Global Instance Date_eq_dec : EqDecision Date.
Proof. solve_decision. Defined.
Global Instance Timestamp_eq_dec : EqDecision Timestamp.
Proof. solve_decision. Defined.
Global Instance value_eq_dec : EqDecision value.
Proof. solve_decision. Defined.

Definition str_of_date (d : Date) : string :=
  Py.zfill 4 (d_year d) +:+ "-" +:+ Py.zfill 2 (d_month d) +:+ "-"
  +:+ Py.zfill 2 (d_day d).

Definition str_of_utcoffset (o : Z) : string :=
  let a := Z.abs o in
  (if o <? 0 then "-" else "+")
  +:+ Py.zfill 2 (a / 3600) +:+ ":" +:+ Py.zfill 2 ((a mod 3600) / 60).

Definition str_of_timestamp (t : Timestamp) : string :=
  str_of_date (ts_date t) +:+ " " +:+ Py.zfill 2 (ts_hour t) +:+ ":"
  +:+ Py.zfill 2 (ts_minute t) +:+ ":" +:+ Py.zfill 2 (ts_second t)
  +:+ match ts_utcoffset t with
      | Some o => str_of_utcoffset o
      | None => ""
      end.

(** [str(value)] *)
Definition py_str (v : value) : string :=
  match v with
  | VNull => "<NA>"
  | VInt n => Py.str_of_int n
  | VBool true => "True"
  | VBool false => "False"
  | VText s => s
  | VTime t => str_of_timestamp t
  | VDate d => str_of_date d
  end.

(** [pd.notna(value)] *)
Definition notna (v : value) : bool :=
  match v with VNull => false | _ => true end.

(** Days from 1970-01-01 to a civil date (proleptic Gregorian). *)
Definition days_from_civil (d : Date) : Z :=
  let y := if d_month d <=? 2 then d_year d - 1 else d_year d in
  let era := y / 400 in
  let yoe := y - era * 400 in
  let mp := (d_month d + 9) mod 12 in
  let doy := (153 * mp + 2) / 5 + d_day d - 1 in
  let doe := yoe * 365 + yoe / 4 - yoe / 100 + doy in
  era * 146097 + doe - 719468.

(** The instant a stamp denotes, in seconds since the epoch. *)
Definition instant (t : Timestamp) : Z :=
  days_from_civil (ts_date t) * 86400
  + ts_hour t * 3600 + ts_minute t * 60 + ts_second t
  - default 0 (ts_utcoffset t).

(** [t.time() == midnight] *)
Definition is_midnight (t : Timestamp) : bool :=
  (ts_hour t =? 0) && (ts_minute t =? 0) && (ts_second t =? 0).

Definition midnight_of (d : Date) : Timestamp :=
  {| ts_date := d; ts_hour := 0; ts_minute := 0; ts_second := 0;
     ts_utcoffset := None |}.

Inductive dtype :=
| DObject
| DInt64
| DFloat64
| DBool
| DString
| DDatetime.

(** [pd.api.types.is_numeric_dtype]: integers, floats and booleans. *)
Definition is_numeric_dtype (t : dtype) : bool :=
  match t with
  | DInt64 | DFloat64 | DBool => true
  | _ => false
  end.

(** A labelled column; a frame is its index length and its columns, each
    column holding one cell per index entry. Column labels are meant to be
    distinct: [getitem] reads the first column carrying a label. *)
Record Column := mkColumn {
  col_name : string;
  col_dtype : dtype;
  col_values : list value
}.

Record DataFrame := mkFrame {
  df_len : nat;
  df_cols : list Column
}.

Module Frame.

(** [df.columns] *)
Definition columns (df : DataFrame) : list string :=
  map col_name (df_cols df).

(** [df.empty]: some axis has length zero. *)
Definition empty (df : DataFrame) : bool :=
  (df_len df =? 0)%nat || (length (df_cols df) =? 0)%nat.

(** [df[name]] *)
Definition getitem (df : DataFrame) (name : string) : option Column :=
  find (λ c, String.eqb (col_name c) name) (df_cols df).

(** [df[name] = values] on an existing label, in place; a new label is
    appended. *)
Fixpoint set_values (cols : list Column) (name : string) (t : dtype)
    (vs : list value) : list Column :=
  match cols with
  | [] => [mkColumn name t vs]
  | c :: rest =>
      if String.eqb (col_name c) name then mkColumn name t vs :: rest
      else c :: set_values rest name t vs
  end.

Definition setitem (df : DataFrame) (name : string) (t : dtype)
    (vs : list value) : DataFrame :=
  {| df_len := df_len df; df_cols := set_values (df_cols df) name t vs |}.

(** [df.columns = names]: positional relabelling; [None] stands for the
    [ValueError] of a length mismatch. *)
Definition set_columns (df : DataFrame) (names : list string)
    : option DataFrame :=
  if (length names =? length (df_cols df))%nat then
    Some {| df_len := df_len df;
            df_cols := zip_with (λ n c, mkColumn n (col_dtype c) (col_values c))
                                names (df_cols df) |}
  else None.

(** [series.dropna()] *)
Definition dropna (vs : list value) : list value := filter (λ v, notna v = true) vs.

(** dtype inference of [convert_dtypes] for an [object] column: the
    common kind of the non-null cells, if there is one. *)
Definition kind_of (v : value) : dtype :=
  match v with
  | VInt _ => DInt64
  | VBool _ => DBool
  | VText _ => DString
  | VTime _ => DDatetime
  | VNull | VDate _ => DObject
  end.

Definition dtype_eqb (a b : dtype) : bool :=
  match a, b with
  | DObject, DObject | DInt64, DInt64 | DFloat64, DFloat64
  | DBool, DBool | DString, DString | DDatetime, DDatetime => true
  | _, _ => false
  end.

Definition infer_dtype (vs : list value) : dtype :=
  match dropna vs with
  | [] => DObject
  | v :: rest =>
      if forallb (λ w, dtype_eqb (kind_of w) (kind_of v)) rest
      then kind_of v else DObject
  end.

Definition convert_column (c : Column) : Column :=
  match col_dtype c with
  | DObject => mkColumn (col_name c) (infer_dtype (col_values c)) (col_values c)
  | _ => c
  end.

(** [df.convert_dtypes()]: a new frame with the same labels, index and
    cells, each column at its nullable dtype. *)
Definition convert_dtypes (df : DataFrame) : DataFrame :=
  {| df_len := df_len df; df_cols := map convert_column (df_cols df) |}.

End Frame.

(* ===================================================================== *)
(** ** The store (Snowflake session), the process state and the monad *)
(* ===================================================================== *)

(** One row of [information_schema.columns], as the schema query selects
    it. *)
Record MetaRow := mkMeta {
  COLUMN_NAME : string;
  DATA_TYPE : string;
  CHARACTER_MAXIMUM_LENGTH : option Z;
  NUMERIC_PRECISION : option Z;
  NUMERIC_SCALE : option Z
}.

Record Table := mkTable {
  tbl_cols : list (string * dtype);
  tbl_rows : list (gmap string value)
}.

(** What the session is asked to do. *)
Inductive StoreCall :=
| CallSql (text : string)
| CallWritePandas (table_name : string) (df : DataFrame).

Record Session := mkSession {
  sess_tables : gmap string Table;          (* by qualified name *)
  sess_catalog : string → list MetaRow;     (* column metadata, by qualified name *)
  sess_rejects : StoreCall → bool;          (* calls the store fails on *)
  sess_now : Timestamp;                     (* current_timestamp() *)
  sess_user : string;                       (* current_user() *)
  sess_calls : list StoreCall               (* calls received, oldest first *)
}.

Definition loc := positive.

(** A value of the module-level [column_tags] dict: the inner dict with its
    keys ["type"], ["min_date"], ["max_date"]; a key not yet set is [None]. *)
Record ColumnTag := mkTag {
  tag_type : option string;
  tag_min_date : option value;
  tag_max_date : option value
}.

(** The entries of [st.session_state] the engine uses. *)
Record SessionState := mkState {
  ss_df : option loc;
  ss_original_df : option loc;
  ss_filtered_df : option loc;
  ss_edit_mode : bool;
  ss_reset_filters_pending : bool
}.

Inductive PageEvent :=
| StInfo (msg : string)
| StError (msg : string)
| StCaption (msg : string)
| StSuccess (msg : string)
| Sleep (seconds : Z).

Record World := mkWorld {
  w_heap : gmap loc DataFrame;              (* live pandas frames *)
  w_column_tags : gmap string ColumnTag;    (* shop_orders.column_tags *)
  w_session : Session;
  w_cache : option DataFrame;               (* st.cache_data entry of load_data *)
  w_state : SessionState;
  w_page : list PageEvent;                  (* what the page has shown *)
  w_log : list string;                      (* the write_back logger *)
  w_trace : list string                     (* engine functions the handler entered *)
}.

Inductive exn :=
| TypeError
| ValueError
| KeyError (key : string)
| StoreError (c : StoreCall)
| StopException
| RerunException.

(** [isinstance(e, Exception)]: streamlit's script-control exceptions derive
    from [BaseException] only. *)
Definition is_Exception (e : exn) : bool :=
  match e with
  | StopException | RerunException => false
  | _ => true
  end.

Inductive outcome (A : Type) :=
| Ok (a : A)
| Raise (e : exn).
Arguments Ok {A} a.
Arguments Raise {A} e.

Global Instance outcome_ret : MRet outcome := λ A a, Ok a.
Global Instance outcome_bind : MBind outcome := λ A B f m,
  match m with
  | Ok a => f a
  | Raise e => Raise e
  end.

Definition M (A : Type) : Type := World → outcome A * World.

Global Instance M_ret : MRet M := λ A a w, (Ok a, w).
Global Instance M_bind : MBind M := λ A B f m w,
  match m w with
  | (Ok a, w') => f a w'
  | (Raise e, w') => (Raise e, w')
  end.

Definition raise {A} (e : exn) : M A := λ w, (Raise e, w).
Definition lift {A} (r : outcome A) : M A := λ w, (r, w).
Definition get_world : M World := λ w, (Ok w, w).
Definition modify (f : World → World) : M unit := λ w, (Ok (), f w).

(** [try: body except Exception: handler] *)
Definition try_except {A} (body : M A) (handler : exn → M A) : M A := λ w,
  match body w with
  | (Raise e, w') => if is_Exception e then handler e w' else (Raise e, w')
  | r => r
  end.

Definition set_heap (h : gmap loc DataFrame) (w : World) : World :=
  mkWorld h (w_column_tags w) (w_session w) (w_cache w) (w_state w)
          (w_page w) (w_log w) (w_trace w).
Definition set_column_tags (t : gmap string ColumnTag) (w : World) : World :=
  mkWorld (w_heap w) t (w_session w) (w_cache w) (w_state w)
          (w_page w) (w_log w) (w_trace w).
Definition set_session (s : Session) (w : World) : World :=
  mkWorld (w_heap w) (w_column_tags w) s (w_cache w) (w_state w)
          (w_page w) (w_log w) (w_trace w).
Definition set_cache (c : option DataFrame) (w : World) : World :=
  mkWorld (w_heap w) (w_column_tags w) (w_session w) c (w_state w)
          (w_page w) (w_log w) (w_trace w).
Definition set_state (s : SessionState) (w : World) : World :=
  mkWorld (w_heap w) (w_column_tags w) (w_session w) (w_cache w) s
          (w_page w) (w_log w) (w_trace w).
Definition set_page (p : list PageEvent) (w : World) : World :=
  mkWorld (w_heap w) (w_column_tags w) (w_session w) (w_cache w) (w_state w)
          p (w_log w) (w_trace w).
Definition set_log (l : list string) (w : World) : World :=
  mkWorld (w_heap w) (w_column_tags w) (w_session w) (w_cache w) (w_state w)
          (w_page w) l (w_trace w).
Definition set_trace (t : list string) (w : World) : World :=
  mkWorld (w_heap w) (w_column_tags w) (w_session w) (w_cache w) (w_state w)
          (w_page w) (w_log w) t.

(** *** Heap of frames *)

(** Dereference; a dangling reference cannot arise from the code below and
    is reported as a [KeyError]. *)
Definition frame_read (r : loc) : M DataFrame := λ w,
  match w_heap w !! r with
  | Some df => (Ok df, w)
  | None => (Raise (KeyError "dangling frame"), w)
  end.

Definition frame_write (r : loc) (df : DataFrame) : M unit :=
  modify (λ w, set_heap (<[r := df]> (w_heap w)) w).

(** A new frame object. *)
Definition frame_alloc (df : DataFrame) : M loc := λ w,
  let r := fresh (dom (w_heap w)) in
  (Ok r, set_heap (<[r := df]> (w_heap w)) w).

(** [df[name]] through a reference; a missing label raises [KeyError]. *)
Definition frame_getitem (r : loc) (name : string) : M Column :=
  df ← frame_read r;
  match Frame.getitem df name with
  | Some c => mret c
  | None => raise (KeyError name)
  end.

(** [df[name] = values], in place. *)
Definition frame_setitem (r : loc) (name : string) (t : dtype)
    (vs : list value) : M unit :=
  df ← frame_read r;
  frame_write r (Frame.setitem df name t vs).

(** *** Page, log, trace *)

Definition page (e : PageEvent) : M unit :=
  modify (λ w, set_page (w_page w ++ [e]) w).
Definition logger_exception (msg : string) : M unit :=
  modify (λ w, set_log (w_log w ++ [msg]) w).
Definition enter (fn : string) : M unit :=
  modify (λ w, set_trace (w_trace w ++ [fn]) w).

(** *** The session *)

Definition qualified (database schema table : string) : string :=
  database +:+ "." +:+ schema +:+ "." +:+ table.

Definition set_calls (cs : list StoreCall) (s : Session) : Session :=
  mkSession (sess_tables s) (sess_catalog s) (sess_rejects s) (sess_now s)
            (sess_user s) cs.
Definition set_tables (t : gmap string Table) (s : Session) : Session :=
  mkSession t (sess_catalog s) (sess_rejects s) (sess_now s)
            (sess_user s) (sess_calls s).

(** Every call is received by the store, which may fail on it. *)
Definition session_call (c : StoreCall) : M unit := λ w,
  let s := w_session w in
  let w' := set_session (set_calls (sess_calls s ++ [c]) s) w in
  if sess_rejects s c then (Raise (StoreError c), w') else (Ok (), w').

Definition update_tables (f : gmap string Table → gmap string Table) : M unit :=
  modify (λ w, set_session (set_tables (f (sess_tables (w_session w))) (w_session w)) w).

(** Cell [i] of a column, [VNull] outside the index. *)
Definition cell (c : Column) (i : nat) : value :=
  default VNull (col_values c !! i).

Definition row_of_frame (df : DataFrame) (i : nat) : gmap string value :=
  list_to_map (map (λ c, (col_name c, cell c i)) (df_cols df)).

Definition table_of_frame (df : DataFrame) : Table :=
  {| tbl_cols := map (λ c, (col_name c, col_dtype c)) (df_cols df);
     tbl_rows := map (row_of_frame df) (seq 0 (df_len df)) |}.

Definition frame_of_table (t : Table) : DataFrame :=
  {| df_len := length (tbl_rows t);
     df_cols := map (λ '(n, ty),
                  mkColumn n ty (map (λ r, default VNull (r !! n)) (tbl_rows t)))
                  (tbl_cols t) |}.

(** Unquoted identifiers are stored in upper case: the table a frame is
    staged as ([quote_identifiers=False]). *)
Definition staged_table_of_frame (df : DataFrame) : Table :=
  let t := table_of_frame df in
  {| tbl_cols := map (λ '(n, ty), (Py.upper n, ty)) (tbl_cols t);
     tbl_rows := map (λ r, kmap Py.upper r) (tbl_rows t) |}.

(** [session.sql("select * from t ...").to_pandas()] *)
Definition session_select_all (text table : string) : M loc :=
  session_call (CallSql text);;
  w ← get_world;
  match sess_tables (w_session w) !! table with
  | Some t => frame_alloc (frame_of_table t)
  | None => raise (StoreError (CallSql text))
  end.

(** [session.sql(<information_schema query>).to_pandas()] *)
Definition session_select_columns (text table : string) : M (list MetaRow) :=
  session_call (CallSql text);;
  w ← get_world;
  mret (sess_catalog (w_session w) table).

(** [session.write_pandas(df, table_name=..., overwrite=True,
    auto_create_table=True, table_type="temp")] *)
Definition session_write_pandas (df : loc) (table : string) : M unit :=
  d ← frame_read df;
  session_call (CallWritePandas table d);;
  update_tables (λ ts, <[table := staged_table_of_frame d]> ts).

(** SQL equality of two cells: never true on a NULL. *)
Definition sql_eq (a b : option value) : bool :=
  match a, b with
  | Some x, Some y => notna x && notna y && bool_decide (x = y)
  | _, _ => false
  end.

(** The [on] clause: [prd.c = src.c] for every key column. *)
Definition key_match (on_cols : list string) (prd src : gmap string value) : bool :=
  forallb (λ c, sql_eq (prd !! c) (src !! c)) on_cols.

(** The [update set] list applied to a matched row. *)
Definition apply_set (set_cols : list string) (lock : option string)
    (now : Timestamp) (src prd : gmap string value) : gmap string value :=
  let prd' := foldl (λ r c, <[c := default VNull (src !! c)]> r) prd set_cols in
  match lock with
  | Some l => <[l := VTime now]> prd'
  | None => prd'
  end.

Definition merge_row (on_cols set_cols : list string) (lock : option string)
    (now : Timestamp) (staged : list (gmap string value))
    (prd : gmap string value) : gmap string value :=
  match find (key_match on_cols prd) staged with
  | Some src => apply_set set_cols lock now src prd
  | None => prd
  end.

(** Rows of the target an [on]-matched update affects. *)
Definition rows_affected (on_cols : list string)
    (staged target : list (gmap string value)) : nat :=
  length (filter (λ prd, existsb (key_match on_cols prd) staged = true) target).

(** [session.sql("merge into <target> prd using <stage> src on ... when
    matched then update set ...").collect()]. The store reads the statement
    text; the lists the text was rendered from are passed along as its
    reading. The result is the number of rows updated. *)
Definition session_merge (text target stage : string)
    (on_cols set_cols : list string) (lock : option string) : M nat :=
  session_call (CallSql text);;
  w ← get_world;
  let s := w_session w in
  match sess_tables s !! target, sess_tables s !! stage with
  | Some t, Some src =>
      update_tables (λ ts,
        <[target := mkTable (tbl_cols t)
                      (map (merge_row on_cols set_cols lock (sess_now s) (tbl_rows src))
                           (tbl_rows t))]> ts);;
      mret (rows_affected on_cols (tbl_rows src) (tbl_rows t))
  | _, _ => raise (StoreError (CallSql text))
  end.

(** [session.sql("create table if not exists ...").collect()] *)
Definition session_create_if_missing (text table : string)
    (cols : list (string * dtype)) : M unit :=
  session_call (CallSql text);;
  update_tables (λ ts,
    match ts !! table with
    | Some _ => ts
    | None => <[table := mkTable cols []]> ts
    end).

(** [session.sql("insert into <target> (...) select ... from <stage>")
    .collect()], with the reading of the select list passed along: each
    staged row gives one target row. *)
Definition session_insert_select (text target stage : string)
    (select : Session → gmap string value → gmap string value) : M unit :=
  session_call (CallSql text);;
  w ← get_world;
  let s := w_session w in
  match sess_tables s !! target, sess_tables s !! stage with
  | Some t, Some src =>
      update_tables (λ ts,
        <[target := mkTable (tbl_cols t)
                      (tbl_rows t ++ map (select s) (tbl_rows src))]> ts)
  | _, _ => raise (StoreError (CallSql text))
  end.

(* ===================================================================== *)
(** ** constants.py *)
(* ===================================================================== *)

(** [PRIMARY_KEY] is one column name or a list (tuple) of them. *)
Inductive pk_spec :=
| PkName (name : string)
| PkList (names : list string).

Record Constants := mkConstants {
  PRIMARY_KEY : pk_spec;
  LOCK_COL : option string;
  DATABASE : string;
  SCHEMA : string;
  TABLE : string;
  ORDER_BY : option string;
  PENDING_TABLE : string;
  PENDING_STAGE_TABLE : string;
  MAX_ROWS : nat
}.

(** Truth value of an optional string: [None] and [""] are false. *)
Definition truthy (o : option string) : bool :=
  match o with
  | Some s => negb (String.eqb s "")
  | None => false
  end.

Definition nl : string := String (ascii_of_nat 10) "".

(* ===================================================================== *)
(** ** models/shop_orders.py *)
(* ===================================================================== *)

Definition BASE_MERGE_STAGE_TABLE : string := "STREAMLIT_TABLE_BASE_CHANGES".

(** The verdict of the NUMBER(p,s) check on one value. *)
Inductive number_verdict :=
| NumberOk
| NotValidNumber
| ScaleExceeded (frac_digits : Z)
| PrecisionExceeded.

Section Engine.

(** The module's imports from [constants.py]. *)
Variable K : Constants.

(** The strict parser behind [pd.to_datetime(.., format=fmt,
    errors="coerce")] on a text: [strptime fmt text]. *)
Variable strptime : string → string → option Timestamp.

(** ---- Change Columns Names ---- *)

Definition format_col (col : string) : string :=
  Py.join " "
    (map (λ word, if String.eqb (Py.lower word) "id" then "ID"
                  else Py.capitalize word)
         (Py.split "_" col)).

Definition clean_column_names (df : loc) : M loc :=
  d ← frame_read df;
  match Frame.set_columns d (map format_col (Frame.columns d)) with
  | Some d' => frame_write df d';; mret df
  | None => raise ValueError
  end.

(** ---- Automatic Conversion of Datatypes ---- *)

Definition is_numeric (series : Column) : bool :=
  is_numeric_dtype (col_dtype series).

(** [pd.to_datetime(series, format=fmt, errors="coerce")], cell by cell:
    [None] is [NaT]. *)
Definition to_datetime_cell (fmt : string) (v : value) : option Timestamp :=
  match v with
  | VNull => None
  | VTime t => Some t
  | VDate d => Some (midnight_of d)
  | _ => strptime fmt (py_str v)
  end.

Definition to_datetime (series : Column) (fmt : string) : list (option Timestamp) :=
  map (to_datetime_cell fmt) (col_values series).

(** [parsed.notna().all()] *)
Definition notna_all (parsed : list (option Timestamp)) : bool :=
  forallb (λ o, match o with Some _ => true | None => false end) parsed.

Definition earlier (a b : Timestamp) : Timestamp :=
  if instant b <? instant a then b else a.
Definition later (a b : Timestamp) : Timestamp :=
  if instant a <? instant b then b else a.

(** [parsed.min()] and [parsed.max()], skipping [NaT]; [None] ([NaT]) when
    nothing is left. *)
Definition series_min (parsed : list (option Timestamp)) : option Timestamp :=
  match omap id parsed with
  | [] => None
  | t :: ts => Some (foldl earlier t ts)
  end.
Definition series_max (parsed : list (option Timestamp)) : option Timestamp :=
  match omap id parsed with
  | [] => None
  | t :: ts => Some (foldl later t ts)
  end.

(** [stamp.date()]; [NaT.date()] is [NaT]. *)
Definition date_of (o : option Timestamp) : value :=
  match o with
  | Some t => VDate (ts_date t)
  | None => VNull
  end.

Definition cell_of_stamp (o : option Timestamp) : value :=
  match o with
  | Some t => VTime t
  | None => VNull
  end.

(** [(parsed.dt.time == midnight).all()] *)
Definition all_midnight (parsed : list (option Timestamp)) : bool :=
  forallb (λ o, match o with Some t => is_midnight t | None => false end) parsed.

(** [column_tags[col] = tag] *)
Definition tags_assign (col : string) (tag : ColumnTag) : M unit :=
  modify (λ w, set_column_tags (<[col := tag]> (w_column_tags w)) w).

(** [column_tags[col][key] = ...]: an update of the inner dict; the outer
    key must be there. *)
Definition tags_update (col : string) (f : ColumnTag → ColumnTag) : M unit :=
  w ← get_world;
  match w_column_tags w !! col with
  | Some tag => tags_assign col (f tag)
  | None => raise (KeyError col)
  end.

Definition with_type (ty : string) (t : ColumnTag) : ColumnTag :=
  mkTag (Some ty) (tag_min_date t) (tag_max_date t).
Definition with_min_date (d : value) (t : ColumnTag) : ColumnTag :=
  mkTag (tag_type t) (Some d) (tag_max_date t).
Definition with_max_date (d : value) (t : ColumnTag) : ColumnTag :=
  mkTag (tag_type t) (tag_min_date t) (Some d).

(** The two-step parse of one column: strict timestamp format first, and
    the date-only format when some cell did not come out. *)
Definition parse_column (series : Column) : list (option Timestamp) :=
  let parsed := to_datetime series "%Y-%m-%d %H:%M:%S%z" in
  if negb (notna_all parsed) then to_datetime series "%Y-%m-%d" else parsed.

(** Body of [for col in df.columns]. *)
Definition convert_one (df : loc) (col : string) : M unit :=
  series ← frame_getitem df col;
  if is_numeric series then mret ()
  else
    let parsed := parse_column series in
    if notna_all parsed then
      frame_setitem df col DDatetime (map cell_of_stamp parsed);;
      tags_assign col (mkTag (Some "timestamp") None None);;
      let min_date := date_of (series_min parsed) in
      let max_date := date_of (series_max parsed) in
      tags_update col (with_min_date min_date);;
      tags_update col (with_max_date max_date);;
      if all_midnight parsed then
        frame_setitem df col DObject (map date_of parsed);;
        tags_update col (with_type "date");;
        tags_update col (with_min_date min_date);;
        tags_update col (with_max_date max_date)
      else mret ()
    else mret ().

Fixpoint convert_loop (df : loc) (cols : list string) : M unit :=
  match cols with
  | [] => mret ()
  | col :: rest => convert_one df col;; convert_loop df rest
  end.

Definition auto_convert_dtypes (df : loc) : M loc :=
  d ← frame_read df;
  df' ← frame_alloc (Frame.convert_dtypes d);
  d' ← frame_read df';
  convert_loop df' (Frame.columns d');;
  mret df'.

(** ---- Load Data Into the App ---- *)

Definition select_all_text : string :=
  let order_clause :=
    if truthy (ORDER_BY K) then " ORDER BY " +:+ default "" (ORDER_BY K) else "" in
  nl +:+ "        SELECT *" +:+ nl
  +:+ "        FROM " +:+ qualified (DATABASE K) (SCHEMA K) (TABLE K)
  +:+ order_clause +:+ nl +:+ "    ".

(** The body of [load_data]. *)
Definition load_data_uncached : M loc :=
  df ← session_select_all select_all_text
         (qualified (DATABASE K) (SCHEMA K) (TABLE K));
  df ← clean_column_names df;
  df ← auto_convert_dtypes df;
  mret df.

(** [@st.cache_data]: a hit hands out a copy of the stored result without
    running the body; a miss runs it and stores the result. *)
Definition load_data : M loc :=
  w ← get_world;
  match w_cache w with
  | Some d => frame_alloc d
  | None =>
      df ← load_data_uncached;
      d ← frame_read df;
      modify (set_cache (Some d));;
      mret df
  end.

Definition _db_col_name (display_col : string) : string :=
  Py.replace_char " " "_" (Py.upper display_col).

Definition schema_metadata_text : string :=
  nl +:+ "        select" +:+ nl
  +:+ "            column_name," +:+ nl
  +:+ "            data_type," +:+ nl
  +:+ "            character_maximum_length," +:+ nl
  +:+ "            numeric_precision," +:+ nl
  +:+ "            numeric_scale" +:+ nl
  +:+ "        from " +:+ DATABASE K +:+ ".information_schema.columns" +:+ nl
  +:+ "        where table_schema = '" +:+ SCHEMA K +:+ "'" +:+ nl
  +:+ "          and table_name = '" +:+ TABLE K +:+ "'" +:+ nl
  +:+ "    ".

Definition get_table_schema_metadata : M (list MetaRow) :=
  session_select_columns schema_metadata_text
    (qualified (DATABASE K) (SCHEMA K) (TABLE K)).

(** ---- validate_changes_against_schema ---- *)

(** [exponent >= 0]: comparing a [str] exponent with an [int] raises
    [TypeError]. *)
Definition exponent_ge_0 (e : Decimal.exponent_t) : outcome bool :=
  match e with
  | Decimal.ExpInt n => Ok (0 <=? n)
  | _ => Raise TypeError
  end.

Definition exponent_int (e : Decimal.exponent_t) : Z :=
  match e with
  | Decimal.ExpInt n => n
  | _ => 0
  end.

Definition len {A} (l : list A) : Z := Z.of_nat (length l).

(** Body of [for value in changes_df[display_col].dropna()], up to the
    message it appends. *)
Definition check_number (precision_int scale_int : Z) (value : value)
    : outcome number_verdict :=
  match Decimal.of_string (py_str value) with
  | None => Ok NotValidNumber
  | Some d =>
      let dec_value := Decimal.copy_abs d in
      let digits := Decimal.digits dec_value in
      let exponent := Decimal.exponent dec_value in
      nonneg ← exponent_ge_0 exponent;
      let int_digits :=
        if nonneg : bool then len digits + exponent_int exponent
        else Z.max (len digits + exponent_int exponent) 0 in
      let frac_digits :=
        if nonneg : bool then 0 else - exponent_int exponent in
      let total_digits := int_digits + frac_digits in
      let max_int_digits := Z.max (precision_int - scale_int) 0 in
      if scale_int <? frac_digits then Ok (ScaleExceeded frac_digits)
      else if (max_int_digits <? int_digits) || (precision_int <? total_digits)
      then Ok PrecisionExceeded
      else Ok NumberOk
  end.

Definition number_message (display_col : string) (precision_int scale_int : Z)
    (value : value) (v : number_verdict) : option string :=
  match v with
  | NumberOk => None
  | NotValidNumber =>
      Some (display_col +:+ ": value '" +:+ py_str value
            +:+ "' is not a valid NUMBER(" +:+ Py.str_of_int precision_int
            +:+ "," +:+ Py.str_of_int scale_int +:+ ")")
  | ScaleExceeded frac_digits =>
      Some (display_col +:+ ": value '" +:+ py_str value
            +:+ "' has scale " +:+ Py.str_of_int frac_digits
            +:+ " but max is " +:+ Py.str_of_int scale_int)
  | PrecisionExceeded =>
      Some (display_col +:+ ": value '" +:+ py_str value
            +:+ "' exceeds NUMBER(" +:+ Py.str_of_int precision_int
            +:+ "," +:+ Py.str_of_int scale_int +:+ ")")
  end.

(** The loop over the non-null values of one column: the first message
    ends it ([break]). *)
Fixpoint number_loop (display_col : string) (precision_int scale_int : Z)
    (values : list value) (errors : list string) : outcome (list string) :=
  match values with
  | [] => Ok errors
  | value :: rest =>
      v ← check_number precision_int scale_int value;
      match number_message display_col precision_int scale_int value v with
      | Some msg => Ok (errors ++ [msg])
      | None => number_loop display_col precision_int scale_int rest errors
      end
  end.

Definition is_char_dtype (dtype : string) : bool :=
  Py.contains "CHAR" dtype || Py.contains "TEXT" dtype
  || Py.contains "STRING" dtype.

Definition is_number_dtype (dtype : string) : bool :=
  bool_decide (dtype ∈ ["NUMBER"; "DECIMAL"; "NUMERIC"; "FIXED"]).

(** [meta.loc[db_col]], [None] when [db_col not in meta.index]. *)
Definition meta_loc (metadata : list MetaRow) (db_col : string) : option MetaRow :=
  find (λ r, String.eqb (COLUMN_NAME r) db_col) metadata.

Definition length_message (display_col : string) (max_len_int : Z)
    (sample : string) : string :=
  display_col +:+ ": max length is " +:+ Py.str_of_int max_len_int
  +:+ ", received '" +:+ sample +:+ "'".

(** [series[series.str.len() > max_len_int]] *)
Definition too_long (max_len_int : Z) (series : list string) : list string :=
  filter (λ s, max_len_int < Z.of_nat (String.length s)) series.

(** Body of [for display_col in changes_df.columns]. *)
Definition validate_column (changes_df : loc) (metadata : list MetaRow)
    (display_col : string) (errors : list string) : M (list string) :=
  let db_col := _db_col_name display_col in
  match meta_loc metadata db_col with
  | None => mret errors
  | Some row =>
      let dtype := Py.upper (DATA_TYPE row) in
      if is_char_dtype dtype then
        match CHARACTER_MAXIMUM_LENGTH row with
        | Some max_len_int =>
            c ← frame_getitem changes_df display_col;
            let series := map py_str (Frame.dropna (col_values c)) in
            match too_long max_len_int series with
            | sample :: _ =>
                mret (errors ++ [length_message display_col max_len_int sample])
            | [] => mret errors
            end
        | None => mret errors
        end
      else if is_number_dtype dtype then
        match NUMERIC_PRECISION row with
        | Some precision_int =>
            let scale_int := default 0 (NUMERIC_SCALE row) in
            c ← frame_getitem changes_df display_col;
            lift (number_loop display_col precision_int scale_int
                    (Frame.dropna (col_values c)) errors)
        | None => mret errors
        end
      else mret errors
  end.

Fixpoint validate_loop (changes_df : loc) (metadata : list MetaRow)
    (cols : list string) (errors : list string) : M (list string) :=
  match cols with
  | [] => mret errors
  | display_col :: rest =>
      errors' ← validate_column changes_df metadata display_col errors;
      validate_loop changes_df metadata rest errors'
  end.

Definition validate_changes_against_schema (changes_df : loc) : M (list string) :=
  d ← frame_read changes_df;
  if Frame.empty d then mret []
  else
    metadata ← get_table_schema_metadata;
    if bool_decide (metadata = []) then mret []
    else validate_loop changes_df metadata (Frame.columns d) [].

(** ---- Merge Changes into Snowflake Table ---- *)

(** [col.upper().replace(" ", "_")] *)
Definition to_db_name (col : string) : string :=
  Py.replace_char " " "_" (Py.upper col).

(** [PRIMARY_KEY if isinstance(PRIMARY_KEY, (list, tuple)) else
    [PRIMARY_KEY]] *)
Definition pk_cols : list string :=
  match PRIMARY_KEY K with
  | PkList names => names
  | PkName name => [name]
  end.

Definition pk_cols_db : list string := map to_db_name pk_cols.

Definition lock_col : option string :=
  if truthy (LOCK_COL K) then Some (to_db_name (default "" (LOCK_COL K)))
  else None.

Definition exclude_cols : gset string :=
  let exclude := list_to_set pk_cols_db in
  if truthy lock_col then exclude ∪ {[ default "" lock_col ]} else exclude.

Definition update_cols (columns : list string) : list string :=
  filter (λ c, c ∉ exclude_cols) columns.

Definition set_clause (columns : list string) : string :=
  Py.join ", " (map (λ c, "prd." +:+ c +:+ " = src." +:+ c) (update_cols columns)).

Definition on_clause : string :=
  Py.join " and " (map (λ c, "prd." +:+ c +:+ " = src." +:+ c) pk_cols_db).

Definition merge_head : string :=
  nl +:+ "        merge into " +:+ qualified (DATABASE K) (SCHEMA K) (TABLE K)
  +:+ "                  prd" +:+ nl
  +:+ "        using " +:+ qualified (DATABASE K) (SCHEMA K) BASE_MERGE_STAGE_TABLE
  +:+ "               src" +:+ nl
  +:+ "        on " +:+ on_clause +:+ nl
  +:+ "        when matched then update set" +:+ nl
  +:+ "          ".

Definition merge_sql (columns : list string) : string :=
  if truthy lock_col then
    merge_head +:+ set_clause columns +:+ "," +:+ nl
    +:+ "          prd." +:+ default "" lock_col +:+ " = current_timestamp()"
    +:+ nl +:+ "    "
  else
    merge_head +:+ set_clause columns +:+ nl +:+ "    ".

Definition merge_changes (changes_df : loc) : M Z :=
  (* changes_df = changes_df.reset_index(drop=True) : a new frame *)
  d ← frame_read changes_df;
  changes_df ← frame_alloc d;
  (* changes_df.columns = [...] : in place, on the new frame *)
  d ← frame_read changes_df;
  match Frame.set_columns d (map to_db_name (Frame.columns d)) with
  | Some d' => frame_write changes_df d'
  | None => raise ValueError
  end;;
  d ← frame_read changes_df;
  if Frame.empty d then mret 0
  else
    session_write_pandas changes_df
      (qualified (DATABASE K) (SCHEMA K) BASE_MERGE_STAGE_TABLE);;
    d ← frame_read changes_df;
    session_merge (merge_sql (Frame.columns d))
      (qualified (DATABASE K) (SCHEMA K) (TABLE K))
      (qualified (DATABASE K) (SCHEMA K) BASE_MERGE_STAGE_TABLE)
      pk_cols_db (update_cols (Frame.columns d))
      (if truthy lock_col then lock_col else None);;
    d ← frame_read changes_df;
    mret (Z.of_nat (df_len d)).

(** ---- Pending-approval queue ---- *)

Definition pending_columns (pk_cols_db : list string) : list (string * dtype) :=
  map (λ c, (Py.upper c, DString)) pk_cols_db
  ++ [("COLUMN_NAME", DString); ("OLD_VALUE", DObject); ("NEW_VALUE", DObject);
      ("CHANGED_BY", DString); ("CHANGED_AT", DDatetime);
      ("APPROVAL_STATUS", DString)].

Definition ensure_pending_table_exists (pk_cols_db : list string) : M unit :=
  let pk_defs :=
    Py.join ("," +:+ nl +:+ "            ")
            (map (λ col, col +:+ " VARCHAR") pk_cols_db) in
  let sql_clause :=
    nl +:+ "        create table if not exists "
    +:+ qualified (DATABASE K) (SCHEMA K) (PENDING_TABLE K) +:+ " (" +:+ nl
    +:+ "            " +:+ pk_defs +:+ "," +:+ nl
    +:+ "            column_name STRING," +:+ nl
    +:+ "            old_value VARIANT," +:+ nl
    +:+ "            new_value VARIANT," +:+ nl
    +:+ "            changed_by STRING," +:+ nl
    +:+ "            changed_at TIMESTAMP_NTZ default current_timestamp()," +:+ nl
    +:+ "            approval_status STRING default 'PENDING'" +:+ nl
    +:+ "        )" +:+ nl +:+ "    " in
  session_create_if_missing sql_clause
    (qualified (DATABASE K) (SCHEMA K) (PENDING_TABLE K))
    (pending_columns pk_cols_db).

(** The select list of the insert, read on one staged row; the defaults
    of the table fill [changed_at] and [approval_status]. *)
Definition pending_row (pk_cols_db : list string) (s : Session)
    (src : gmap string value) : gmap string value :=
  list_to_map
    (map (λ c, (Py.upper c, default VNull (src !! Py.upper c))) pk_cols_db
     ++ [("COLUMN_NAME", default VNull (src !! "COLUMN_NAME"));
         ("OLD_VALUE", default VNull (src !! "OLD_VALUE"));
         ("NEW_VALUE", default VNull (src !! "NEW_VALUE"));
         ("CHANGED_BY", VText (sess_user s));
         ("CHANGED_AT", VTime (sess_now s));
         ("APPROVAL_STATUS", VText "PENDING")]).

Definition log_pending_changes (change_log_df : loc) : M Z :=
  (* change_log_df = change_log_df.reset_index(drop=True) *)
  d ← frame_read change_log_df;
  change_log_df ← frame_alloc d;
  d ← frame_read change_log_df;
  if Frame.empty d then mret 0
  else
    session_write_pandas change_log_df
      (qualified (DATABASE K) (SCHEMA K) (PENDING_STAGE_TABLE K));;
    ensure_pending_table_exists pk_cols_db;;
    let sep := "," +:+ nl +:+ "            " in
    let insert_cols :=
      Py.join sep (pk_cols_db ++ ["column_name"; "old_value"; "new_value"; "changed_by"]) in
    let select_cols :=
      Py.join sep (pk_cols_db ++ ["column_name"; "to_variant(old_value)";
                                  "to_variant(new_value)"; "current_user()"]) in
    let sql_clause :=
      nl +:+ "        insert into "
      +:+ qualified (DATABASE K) (SCHEMA K) (PENDING_TABLE K) +:+ " (" +:+ nl
      +:+ "            " +:+ insert_cols +:+ nl
      +:+ "        )" +:+ nl
      +:+ "        select" +:+ nl
      +:+ "            " +:+ select_cols +:+ nl
      +:+ "        from "
      +:+ qualified (DATABASE K) (SCHEMA K) (PENDING_STAGE_TABLE K) +:+ nl
      +:+ "    " in
    session_insert_select sql_clause
      (qualified (DATABASE K) (SCHEMA K) (PENDING_TABLE K))
      (qualified (DATABASE K) (SCHEMA K) (PENDING_STAGE_TABLE K))
      (pending_row pk_cols_db);;
    d ← frame_read change_log_df;
    mret (Z.of_nat (df_len d)).

(* =================================================================== *)
(** ** init_state.py and the Save handler of app.py *)
(* =================================================================== *)

(** [controllers/edits.py]: the change detector and the change-log
    builder, as functions from the frames they read to the new frame they
    return. *)
Variable get_changed_rows : DataFrame → DataFrame → DataFrame.
Variable build_change_log : DataFrame → DataFrame → DataFrame.

Definition modify_state (f : SessionState → SessionState) : M unit :=
  modify (λ w, set_state (f (w_state w)) w).

(** [st.session_state.original_df]; a missing entry raises. *)
Definition state_original_df : M loc :=
  w ← get_world;
  match ss_original_df (w_state w) with
  | Some r => mret r
  | None => raise (KeyError "original_df")
  end.

Definition refresh_data : M unit :=
  modify (set_cache None);;                           (* st.cache_data.clear() *)
  df ← load_data;
  modify_state (λ s, mkState (Some df) (ss_original_df s) (ss_filtered_df s)
                             (ss_edit_mode s) (ss_reset_filters_pending s));;
  modify_state (λ s, mkState (ss_df s) (ss_original_df s) (ss_df s)
                             (ss_edit_mode s) (ss_reset_filters_pending s));;
  modify_state (λ s, mkState (ss_df s) (ss_original_df s) (ss_filtered_df s)
                             (ss_edit_mode s) true).

(** [for msg in validation_errors: st.caption(f"- {msg}")] *)
Fixpoint show_captions (msgs : list string) : M unit :=
  match msgs with
  | [] => mret ()
  | msg :: rest => page (StCaption ("- " +:+ msg));; show_captions rest
  end.

(** What runs when "Save Changes" is clicked in edit mode; [edited_df] is
    the frame the data editor returned. *)
Definition save_changes (edited_df : loc) : M unit :=
  original_df ← state_original_df;
  e ← frame_read edited_df;
  o ← frame_read original_df;
  changes_df ← frame_alloc (get_changed_rows e o);
  c ← frame_read changes_df;
  if Frame.empty c then page (StInfo "No changes detected.")
  else
    try_except
      (validation_errors ← validate_changes_against_schema changes_df;
       (if bool_decide (validation_errors = []) then mret ()
        else
          page (StError "Validation failed. Please fix the following values:");;
          show_captions validation_errors;;
          raise StopException);;                      (* st.stop() *)
       enter "build_change_log";;
       original_df ← state_original_df;
       c ← frame_read changes_df;
       o ← frame_read original_df;
       change_log_df ← frame_alloc (build_change_log c o);
       enter "merge_changes";;
       merge_changes changes_df;;
       enter "log_pending_changes";;
       log_pending_changes change_log_df;;
       enter "refresh_data";;
       refresh_data;;
       modify_state (λ s, mkState (ss_df s) (ss_original_df s) (ss_filtered_df s)
                                  false (ss_reset_filters_pending s));;
       page (StSuccess "Changes saved successfully.");;
       page (Sleep 2);;
       raise RerunException)                          (* st.rerun() *)
      (λ _,
         logger_exception "Write-back failed";;
         page (StError "Error while saving changes. Please try again or contact support.")).

End Engine.

(* ===================================================================== *)
(** ** The specification's vocabulary *)
(* ===================================================================== *)

Module Spec.

(** Digits to the right of the decimal point of a finite decimal. *)
Definition frac_digits (d : Decimal.t) : Z :=
  match Decimal.exponent d with
  | Decimal.ExpInt e => Z.max (- e) 0
  | _ => 0
  end.

(** Digits to the left of the decimal point of a finite decimal. *)
Definition int_digits (d : Decimal.t) : Z :=
  match Decimal.exponent d with
  | Decimal.ExpInt e => Z.max (Z.of_nat (length (Decimal.digits d)) + e) 0
  | _ => 0
  end.

Definition total_digits (d : Decimal.t) : Z := int_digits d + frac_digits d.

(** The verdict on the text of a value under NUMBER(p,s): not a decimal
    at all; too many fractional digits; otherwise too many integer digits
    for [p - s] places, or too many digits in all. *)
Definition verdict (p s : Z) (text : string) : number_verdict :=
  match Decimal.of_string text with
  | None => NotValidNumber
  | Some d =>
      if s <? frac_digits d then ScaleExceeded (frac_digits d)
      else if (Z.max (p - s) 0 <? int_digits d) || (p <? total_digits d)
      then PrecisionExceeded
      else NumberOk
  end.

Definition offending_number (p s : Z) (v : value) : bool :=
  notna v
  && match verdict p s (py_str v) with NumberOk => false | _ => true end.

(** A non-null value whose text is longer than the limit. *)
Definition offending_length (max_length : Z) (v : value) : bool :=
  notna v && (max_length <? Z.of_nat (String.length (py_str v))).

(** The text reads as a decimal number, infinities and NaNs apart, or
    does not read as a decimal at all. *)
Definition finite_or_invalid (v : value) : Prop :=
  ∀ d, Decimal.of_string (py_str v) = Some d → Decimal.is_finite d = true.

(** A value parses under a format: a text the strict parser accepts, or
    a value that is a date or a stamp already; a null never parses. *)
Definition parses (strptime : string → string → option Timestamp)
    (fmt : string) (v : value) : bool :=
  match v with
  | VNull => false
  | VTime _ | VDate _ => true
  | _ => bool_decide (is_Some (strptime fmt (py_str v)))
  end.

(** Every cell of the column parses, nulls included. *)
Definition all_parse (strptime : string → string → option Timestamp)
    (fmt : string) (c : Column) : bool :=
  forallb (parses strptime fmt) (col_values c).

(** Every non-null cell of the column parses. *)
Definition all_nonnull_parse (strptime : string → string → option Timestamp)
    (fmt : string) (c : Column) : bool :=
  forallb (λ v, negb (notna v) || parses strptime fmt v) (col_values c).

(** The tag of an accepted column, from its parsed stamps. *)
Definition tag_of (parsed : list (option Timestamp)) : ColumnTag :=
  {| tag_type := Some (if all_midnight parsed then "date" else "timestamp");
     tag_min_date := Some (date_of (series_min parsed));
     tag_max_date := Some (date_of (series_max parsed)) |}.

(** The column an accepted column becomes: dates when every stamp is at
    midnight, stamps otherwise. *)
Definition temporal_column (name : string) (parsed : list (option Timestamp))
    : Column :=
  if all_midnight parsed then mkColumn name DObject (map date_of parsed)
  else mkColumn name DDatetime (map cell_of_stamp parsed).

(** The column under a label once the tagger has visited it. *)
Definition tagged_column (strptime : string → string → option Timestamp)
    (c : Column) : Column :=
  if is_numeric c then c
  else if notna_all (parse_column strptime c)
       then temporal_column (col_name c) (parse_column strptime c)
       else c.

(** The tagger accepts the column as temporal. *)
Definition accepted (strptime : string → string → option Timestamp)
    (c : Column) : bool :=
  negb (is_numeric c) && notna_all (parse_column strptime c).

(** Same labels in the same order, same index length, and every cell of
    the second frame computed from the cell at the same place of the
    first. *)
Definition same_cells_shape (c c' : Column) : Prop :=
  col_name c' = col_name c
  ∧ ∃ f : value → value, col_values c' = map f (col_values c).

Definition same_shape (d d' : DataFrame) : Prop :=
  df_len d' = df_len d ∧ Forall2 same_cells_shape (df_cols d) (df_cols d').

End Spec.

(* ===================================================================== *)
(** ** A reference configuration, used to run the model *)
(* ===================================================================== *)

Module Sample.

(** Exactly [n] digits, as a number. *)
Fixpoint take_digits (n : nat) (s : string) : option (Z * string) :=
  match n with
  | O => Some (0, s)
  | S k =>
      match s with
      | String c r =>
          if Py.is_digit c then
            match take_digits k r with
            | Some (v, rest) =>
                Some (Z.of_nat (nat_of_ascii c - 48) * 10 ^ Z.of_nat k + v, rest)
            | None => None
            end
          else None
      | EmptyString => None
      end
  end.

Definition expect (c : ascii) (s : string) : option string :=
  match s with
  | String c' r => if Ascii.eqb c c' then Some r else None
  | EmptyString => None
  end.

Definition is_leap (y : Z) : bool :=
  ((y mod 4 =? 0) && negb (y mod 100 =? 0)) || (y mod 400 =? 0).

Definition days_in_month (y m : Z) : Z :=
  if m =? 2 then (if is_leap y then 29 else 28)
  else if (m =? 4) || (m =? 6) || (m =? 9) || (m =? 11) then 30 else 31.

(** [YYYY-MM-DD] at the head of a text. *)
Definition parse_date (s : string) : option (Date * string) :=
  '(y, s) ← take_digits 4 s;
  s ← expect "-" s;
  '(m, s) ← take_digits 2 s;
  s ← expect "-" s;
  '(d, s) ← take_digits 2 s;
  if (1 <=? m) && (m <=? 12) && (1 <=? d) && (d <=? days_in_month y m)
  then Some (mkDate y m d, s) else None.

(** [HH:MM:SS] followed by [+HHMM], [-HHMM], [+HH:MM] or [-HH:MM]. *)
Definition parse_time_tz (s : string) : option (Z * Z * Z * Z * string) :=
  '(h, s) ← take_digits 2 s;
  s ← expect ":" s;
  '(mi, s) ← take_digits 2 s;
  s ← expect ":" s;
  '(sec, s) ← take_digits 2 s;
  '(neg, s) ← match s with
              | String "+" r => Some (false, r)
              | String "-" r => Some (true, r)
              | _ => None
              end;
  '(oh, s) ← take_digits 2 s;
  let s := match s with String ":" r => r | _ => s end in
  '(om, s) ← take_digits 2 s;
  if (h <=? 23) && (mi <=? 59) && (sec <=? 59) && (om <=? 59) then
    let o := oh * 3600 + om * 60 in
    Some (h, mi, sec, if neg : bool then - o else o, s)
  else None.

(** A strict parser for the two formats the column tagger uses, on
    zero-padded text. *)
Definition strptime (fmt text : string) : option Timestamp :=
  if String.eqb fmt "%Y-%m-%d" then
    match parse_date text with
    | Some (d, EmptyString) => Some (midnight_of d)
    | _ => None
    end
  else if String.eqb fmt "%Y-%m-%d %H:%M:%S%z" then
    '(d, s) ← parse_date text;
    s ← expect " " s;
    '(h, mi, sec, o, s) ← parse_time_tz s;
    match s with
    | EmptyString => Some (mkTimestamp d h mi sec (Some o))
    | _ => None
    end
  else None.

Definition K : Constants :=
  {| PRIMARY_KEY := PkName "order_id";
     LOCK_COL := Some "last_modified";
     DATABASE := "SHOP";
     SCHEMA := "PUBLIC";
     TABLE := "ORDERS";
     ORDER_BY := Some "order_id";
     PENDING_TABLE := "ORDERS_PENDING";
     PENDING_STAGE_TABLE := "ORDERS_PENDING_STAGE";
     MAX_ROWS := 1000 |}.

Definition orders_key : string := "SHOP.PUBLIC.ORDERS".

(** The catalog of the target: a key, a one-character status, an amount
    with two decimals. *)
Definition catalog (table : string) : list MetaRow :=
  if String.eqb table orders_key then
    [ mkMeta "ORDER_ID" "NUMBER" None (Some 38) (Some 0);
      mkMeta "ORDER_STATUS" "TEXT" (Some 1) None None;
      mkMeta "AMOUNT" "NUMBER" None (Some 10) (Some 2);
      mkMeta "LAST_MODIFIED" "TIMESTAMP_NTZ" None None None ]
  else [].

Definition session (tables : gmap string Table) : Session :=
  {| sess_tables := tables;
     sess_catalog := catalog;
     sess_rejects := λ _, false;
     sess_now := mkTimestamp (mkDate 2026 2 1) 9 30 0 None;
     sess_user := "REVIEWER";
     sess_calls := [] |}.

Definition no_state : SessionState := mkState None None None false false.

Definition world (heap : gmap loc DataFrame) (tags : gmap string ColumnTag)
    (tables : gmap string Table) (st : SessionState) : World :=
  {| w_heap := heap; w_column_tags := tags; w_session := session tables;
     w_cache := None; w_state := st; w_page := []; w_log := [];
     w_trace := [] |}.

(** A change set: one amount within NUMBER(10,2), one with three decimals;
    one status longer than its single character. *)
Definition amount : Column :=
  mkColumn "Amount" DString [VText "12.34"; VText "1.234"].
Definition status : Column :=
  mkColumn "Order Status" DString [VText "AB"; VNull].
Definition changes : DataFrame :=
  mkFrame 2 [mkColumn "Order ID" DInt64 [VInt 1; VInt 2]; amount; status].

Definition w_changes : World :=
  world {[ 1%positive := changes ]} ∅ ∅ no_state.

(** Nine integer digits under NUMBER(10,2). *)
Definition big_amount : Column :=
  mkColumn "Amount" DString [VText "123456789"].
Definition w_big : World :=
  world {[ 1%positive := mkFrame 1 [big_amount] ]} ∅ ∅ no_state.

(** The target with one order, and a change to an order it does not hold. *)
Definition orders : Table :=
  mkTable [("ORDER_ID", DInt64); ("AMOUNT", DString); ("LAST_MODIFIED", DDatetime)]
          [ {[ "ORDER_ID" := VInt 7; "AMOUNT" := VText "1.00";
               "LAST_MODIFIED" := VNull ]} ].
Definition one_change : DataFrame :=
  mkFrame 1 [mkColumn "Order ID" DInt64 [VInt 1];
             mkColumn "Amount" DString [VText "5.00"];
             mkColumn "Last Modified" DObject [VNull]].
Definition w_merge : World :=
  world {[ 1%positive := one_change ]} ∅
               {[ orders_key := orders ]} no_state.

(** A change to the order the target holds. *)
Definition matching_change : DataFrame :=
  mkFrame 1 [mkColumn "Order ID" DInt64 [VInt 7];
             mkColumn "Amount" DString [VText "5.00"]].
Definition w_matching : World :=
  world {[ 1%positive := matching_change ]} ∅
               {[ orders_key := orders ]} no_state.

(** A snapshot as loaded: a date column, a timestamp column, and a date
    column with a missing entry. *)
Definition created : Column :=
  mkColumn "Created" DObject [VText "2024-01-01"; VText "2024-03-01"].
Definition seen_at : Column :=
  mkColumn "Seen At" DObject
           [VText "2024-01-01 10:00:00+0000"; VText "2024-03-01 00:00:00+0000"].
Definition shipped : Column :=
  mkColumn "Shipped" DObject [VText "2024-01-05"; VNull].
Definition snapshot : DataFrame :=
  mkFrame 2 [mkColumn "Order ID" DInt64 [VInt 1; VInt 2]; created; seen_at; shipped].
Definition w_snapshot : World :=
  world {[ 1%positive := snapshot ]} ∅ ∅ no_state.

(** Two loads: the table first has a [CREATED] column of dates; it is then
    replaced by one without it. *)
Definition orders_v1 : Table :=
  mkTable [("ORDER_ID", DInt64); ("CREATED", DObject)]
          [ {[ "ORDER_ID" := VInt 1; "CREATED" := VText "2024-01-01" ]} ].
Definition orders_v2 : Table :=
  mkTable [("ORDER_ID", DInt64); ("NOTE", DObject)]
          [ {[ "ORDER_ID" := VInt 1; "NOTE" := VText "gift" ]} ].
Definition w_first_load : World :=
  snd (load_data_uncached K strptime
         (world ∅ ∅ {[ orders_key := orders_v1 ]} no_state)).
Definition w_table_replaced : World :=
  set_session
    (set_tables {[ orders_key := orders_v2 ]} (w_session w_first_load))
    w_first_load.

(** An edit session: frame 1 is the editor's output, frame 2 the original
    snapshot; the change detector hands back the edited rows. *)
Definition detector (edited original : DataFrame) : DataFrame := edited.
Definition log_builder (changes original : DataFrame) : DataFrame :=
  mkFrame (df_len changes)
          [mkColumn "ORDER_ID" DObject (replicate (df_len changes) (VInt 1));
           mkColumn "COLUMN_NAME" DString (replicate (df_len changes) (VText "Amount"));
           mkColumn "OLD_VALUE" DObject (replicate (df_len changes) (VText "1.00"));
           mkColumn "NEW_VALUE" DObject (replicate (df_len changes) (VText "5.00"))].
Definition editing : SessionState :=
  mkState (Some 2%positive) (Some 2%positive) None true false.
Definition w_editing : World :=
  world {[ 1%positive := changes; 2%positive := changes ]} ∅
               {[ orders_key := orders ]} editing.
Definition w_editing_valid : World :=
  world {[ 1%positive := one_change; 2%positive := one_change ]} ∅
               {[ orders_key := orders ]} editing.

End Sample.

(* ===================================================================== *)
(** ** controllers/filters.py, init_state.py and the buttons of app.py *)
(* ===================================================================== *)

(** The pandas operations of the page. *)
Module Pd.

(** The entries of [xs] at the places where [mask] is true. *)
Fixpoint keep {A} (mask : list bool) (xs : list A) : list A :=
  match mask, xs with
  | b :: mask', x :: xs' => if b then x :: keep mask' xs' else keep mask' xs'
  | _, _ => []
  end.

(** [df[mask]] for a boolean mask: a new frame with the rows where the
    mask is true. *)
Definition mask_rows (df : DataFrame) (mask : list bool) : DataFrame :=
  {| df_len := length (keep mask (seq 0 (df_len df)));
     df_cols := map (λ c, mkColumn (col_name c) (col_dtype c)
                                   (keep mask (col_values c)))
                    (df_cols df) |}.

(** [series == val], cell by cell, on a string or boolean column. A null
    cell gives [NA], which a mask reads as false. *)
Definition eq_cell (val cell : value) : bool :=
  match cell, val with
  | VText a, VText b => String.eqb a b
  | VBool a, VBool b => Bool.eqb a b
  | _, _ => false
  end.

(** [df.select_dtypes(include=[t]).columns] *)
Definition select_dtypes (t : dtype) (df : DataFrame) : list string :=
  map col_name (filter (λ c, Frame.dtype_eqb (col_dtype c) t = true) (df_cols df)).

(** [df.head(n).reset_index(drop=True)] *)
Definition head (n : nat) (df : DataFrame) : DataFrame :=
  {| df_len := Nat.min n (df_len df);
     df_cols := map (λ c, mkColumn (col_name c) (col_dtype c) (take n (col_values c)))
                    (df_cols df) |}.

(** [a <= b] on two [datetime.date]; a comparison with [NaT] is false. *)
Definition date_le (a b : value) : bool :=
  match a, b with
  | VDate x, VDate y => days_from_civil x <=? days_from_civil y
  | _, _ => false
  end.

End Pd.

(** The value a widget holds under its key in [st.session_state]. *)
Inductive widget_value :=
| WChoice (choice : value)
| WRange (range : value * value).

(** The filter entries of [st.session_state]; [None] is a key that is not
    set. A choice is ["All"], a text or a boolean; a date filter holds the
    two ends of a range. These entries are kept apart from [SessionState]:
    a function that assigns them is given the record and hands back the
    updated one. *)
Record FilterState := mkFilters {
  filters_string : option (list (string * value));
  filters_boolean : option (list (string * value));
  filters_timestamp : option (list (string * (value * value)));
  widgets : gmap string widget_value
}.

Section Page.

Variable K : Constants.
Variable strptime : string → string → option Timestamp.

(** [pd.to_datetime(series, errors="coerce")], the format left to pandas:
    one stamp, or [NaT], per cell. *)
Variable to_datetime_coerce : list value → list (option Timestamp).

(** [st.session_state.df]; a missing entry raises. *)
Definition state_df : M loc :=
  w ← get_world;
  match ss_df (w_state w) with
  | Some r => mret r
  | None => raise (KeyError "df")
  end.

(** [st.session_state.<key>] for a filter entry; a missing entry raises
    (as for [original_df], the error is filed under [KeyError]). *)
Definition state_entry {A} (key : string) (entry : option A) : M A :=
  match entry with
  | Some x => mret x
  | None => raise (KeyError key)
  end.

(** ---- apply_filters ---- *)

(** The loops over [filters_string] and [filters_boolean]:
    [filtered = filtered[filtered[col] == val]] for every choice other
    than ["All"]. *)
Fixpoint choice_filters (filters : list (string * value)) (filtered : DataFrame)
    : outcome DataFrame :=
  match filters with
  | [] => Ok filtered
  | (col, val) :: rest =>
      if bool_decide (val ≠ VText "All") then
        match Frame.getitem filtered col with
        | Some series =>
            choice_filters rest
              (Pd.mask_rows filtered (map (Pd.eq_cell val) (col_values series)))
        | None => Raise (KeyError col)
        end
      else choice_filters rest filtered
  end.

(** [(column_tags[col]["min_date"], column_tags[col]["max_date"])] when
    [col], ["min_date"] and ["max_date"] are all there. *)
Definition default_range (tags : gmap string ColumnTag) (col : string)
    : option (value * value) :=
  match tags !! col with
  | Some tag =>
      match tag_min_date tag, tag_max_date tag with
      | Some lo, Some hi => Some (lo, hi)
      | _, _ => None
      end
  | None => None
  end.

(** [parsed.notna() & (parsed.dt.date >= value[0])
     & (parsed.dt.date <= value[1])] *)
Definition range_mask (parsed : list (option Timestamp)) (value : value * value)
    : list bool :=
  map (λ o, match o with
            | Some t => Pd.date_le (fst value) (VDate (ts_date t))
                        && Pd.date_le (VDate (ts_date t)) (snd value)
            | None => false
            end) parsed.

(** The loop over [filters_timestamp]. *)
Fixpoint timestamp_filters (tags : gmap string ColumnTag)
    (filters : list (string * (value * value))) (filtered : DataFrame)
    : outcome DataFrame :=
  match filters with
  | [] => Ok filtered
  | (col, value) :: rest =>
      if bool_decide (col ∉ Frame.columns filtered) then
        timestamp_filters tags rest filtered
      else if bool_decide (default_range tags col = Some value) then
        timestamp_filters tags rest filtered
      else
        match Frame.getitem filtered col with
        | Some series =>
            if forallb (λ v, negb (notna v)) (col_values series) then
              timestamp_filters tags rest filtered
            else
              let parsed := to_datetime_coerce (col_values series) in
              timestamp_filters tags rest
                (Pd.mask_rows filtered (range_mask parsed value))
        | None => Raise (KeyError col)
        end
  end.

(** [apply_filters(df)], reading the filter entries of [ui]. The frames
    made on the way are not kept: the one returned is a new object. *)
Definition apply_filters (ui : FilterState) (df : loc) : M loc :=
  d ← frame_read df;
  fs ← state_entry "filters_string" (filters_string ui);
  filtered ← lift (choice_filters fs d);
  fb ← state_entry "filters_boolean" (filters_boolean ui);
  filtered ← lift (choice_filters fb filtered);
  ft ← state_entry "filters_timestamp" (filters_timestamp ui);
  w ← get_world;
  filtered ← lift (timestamp_filters (w_column_tags w) ft filtered);
  frame_alloc filtered.

(** ---- reset_filters ---- *)

(** The entries of [column_tags] that carry both ends of a range, each
    with its range. The registry being a finite map, they come in the
    order of [map_to_list]. *)
Definition tag_ranges (tags : gmap string ColumnTag)
    : list (string * (value * value)) :=
  omap (λ '(col, tag),
          match tag_min_date tag, tag_max_date tag with
          | Some lo, Some hi => Some (col, (lo, hi))
          | _, _ => None
          end)
       (map_to_list tags).

Definition all_choices (cols : list string) : list (string * value) :=
  map (λ c, (c, VText "All")) cols.

Definition reset_filters (df : loc) (ui : FilterState) : M FilterState :=
  d ← frame_read df;
  w ← get_world;
  let fs := all_choices (Pd.select_dtypes DString d) in
  let fb := all_choices (Pd.select_dtypes DBool d) in
  let ft := tag_ranges (w_column_tags w) in
  let ws1 := foldl (λ ws '(col, _), <["filter_" +:+ col := WChoice (VText "All")]> ws)
                   (widgets ui) fs in
  let ws2 := foldl (λ ws '(col, _),
                      <["filter_bool_" +:+ col := WChoice (VText "All")]> ws)
                   ws1 fb in
  let ws3 := foldl (λ ws '(col, value), <["date_input_" +:+ col := WRange value]> ws)
                   ws2 ft in
  modify_state (λ s, mkState (ss_df s) (ss_original_df s) (Some df)
                             (ss_edit_mode s) (ss_reset_filters_pending s));;
  mret (mkFilters (Some fs) (Some fb) (Some ft) ws3).

(** ---- init_state ---- *)

(** [{col: (column_tags[col]["min_date"], column_tags[col]["max_date"])
      for col in column_tags}]: a tag without one of the two keys
    raises. *)
Fixpoint tag_ranges_strict (entries : list (string * ColumnTag))
    : outcome (list (string * (value * value))) :=
  match entries with
  | [] => Ok []
  | (col, tag) :: rest =>
      match tag_min_date tag with
      | None => Raise (KeyError "min_date")
      | Some lo =>
          match tag_max_date tag with
          | None => Raise (KeyError "max_date")
          | Some hi =>
              ranges ← tag_ranges_strict rest;
              Ok ((col, (lo, hi)) :: ranges)
          end
      end
  end.

(** [init_state()]. In [SessionState] an [edit_mode] that is not set reads
    as [False], so the default given to it changes nothing. *)
Definition init_state (ui : FilterState) : M FilterState :=
  w ← get_world;
  match ss_df (w_state w) with
  | None =>
      df ← load_data K strptime;
      modify_state (λ s, mkState (Some df) (ss_original_df s) (ss_filtered_df s)
                                 (ss_edit_mode s) (ss_reset_filters_pending s))
  | Some _ => mret ()
  end;;
  w ← get_world;
  match ss_original_df (w_state w) with
  | None =>
      df ← state_df;
      d ← frame_read df;
      copy ← frame_alloc d;                     (* df.copy(deep=True) *)
      modify_state (λ s, mkState (ss_df s) (Some copy) (ss_filtered_df s)
                                 (ss_edit_mode s) (ss_reset_filters_pending s))
  | Some _ => mret ()
  end;;
  fs ← match filters_string ui with
       | None =>
           df ← state_df;
           d ← frame_read df;
           mret (all_choices (Pd.select_dtypes DString d))
       | Some fs => mret fs
       end;
  fb ← match filters_boolean ui with
       | None =>
           df ← state_df;
           d ← frame_read df;
           mret (all_choices (Pd.select_dtypes DBool d))
       | Some fb => mret fb
       end;
  ft ← match filters_timestamp ui with
       | None =>
           w ← get_world;
           lift (tag_ranges_strict (map_to_list (w_column_tags w)))
       | Some ft => mret ft
       end;
  mret (mkFilters (Some fs) (Some fb) (Some ft) (widgets ui)).

(** ---- app.py ---- *)

(** Lines 41-43: the pending reset, handled before the widgets are
    built. *)
Definition reset_if_pending (ui : FilterState) : M FilterState :=
  w ← get_world;
  if ss_reset_filters_pending (w_state w) then
    df ← state_df;
    ui' ← reset_filters df ui;
    modify_state (λ s, mkState (ss_df s) (ss_original_df s) (ss_filtered_df s)
                               (ss_edit_mode s) false);;
    mret ui'
  else mret ui.

(** Lines 118-120: "Apply Filters" commits the choices staged by the
    sidebar widgets. *)
Definition commit_filters (new_filters_string new_filters_boolean : list (string * value))
    (new_filters_timestamp : list (string * (value * value)))
    (ui : FilterState) : FilterState :=
  mkFilters (Some new_filters_string) (Some new_filters_boolean)
            (Some new_filters_timestamp) (widgets ui).

(** Lines 121-122, on the committed filters. *)
Definition apply_filters_clicked (ui : FilterState) : M unit :=
  df ← state_df;
  filtered ← apply_filters ui df;
  modify_state (λ s, mkState (ss_df s) (ss_original_df s) (Some filtered)
                             (ss_edit_mode s) (ss_reset_filters_pending s));;
  raise RerunException.

(** Lines 124-126: "Reset Filters". *)
Definition reset_filters_clicked : M unit :=
  modify_state (λ s, mkState (ss_df s) (ss_original_df s) (ss_filtered_df s)
                             (ss_edit_mode s) true);;
  raise RerunException.

(** Line 132: [st.session_state.get("filtered_df", st.session_state.df)
    .head(MAX_ROWS).reset_index(drop=True)]; the default is read whether
    it is used or not. *)
Definition df_to_show : M loc :=
  df ← state_df;
  w ← get_world;
  d ← frame_read (default df (ss_filtered_df (w_state w)));
  frame_alloc (Pd.head (MAX_ROWS K) d).

(** Lines 196-200: "Edit Table". *)
Definition edit_table_clicked : M unit :=
  df ← state_df;
  d ← frame_read df;
  copy ← frame_alloc d;                         (* df.copy(deep=True) *)
  modify_state (λ s, mkState (ss_df s) (Some copy) (ss_filtered_df s)
                             (ss_edit_mode s) (ss_reset_filters_pending s));;
  modify_state (λ s, mkState (ss_df s) (ss_original_df s) (ss_filtered_df s)
                             true (ss_reset_filters_pending s));;
  raise RerunException.

End Page.

(* ===================================================================== *)
(** ** Vocabulary of the further properties *)
(* ===================================================================== *)

Module Props.

(** The validator has nothing to check a column against: no catalog row
    under its store name, a character row without a declared length, a
    number row without a declared precision, or a row of another type. *)
Definition unconstrained (metadata : list MetaRow) (display_col : string) : bool :=
  match meta_loc metadata (_db_col_name display_col) with
  | None => true
  | Some row =>
      let dtype := Py.upper (DATA_TYPE row) in
      if is_char_dtype dtype then
        bool_decide (CHARACTER_MAXIMUM_LENGTH row = None)
      else if is_number_dtype dtype then
        bool_decide (NUMERIC_PRECISION row = None)
      else true
  end.

(** A store-native identifier: no lower-case letter and no blank. *)
Definition store_native (name : string) : bool :=
  forallb (λ c, negb (Py.is_ascii_lower c) && negb (Ascii.eqb c " "))
          (list_ascii_of_string name).

(** What the page owns: [st.session_state], what it has shown, the
    write-back log, and the steps the Save handler has entered. *)
Definition app_state (w : World)
    : SessionState * list PageEvent * list string * list string :=
  (w_state w, w_page w, w_log w, w_trace w).

(** A computation that leaves all of that alone and raises, if it raises,
    an [Exception], never one of streamlit's script-control exceptions. *)
Definition quiet {A} (m : M A) : Prop :=
  ∀ w, app_state (snd (m w)) = app_state w
       ∧ ∀ e, fst (m w) = Raise e → is_Exception e = true.

(** The steps of a save, in the order the handler enters them. *)
Definition save_steps : list string :=
  ["build_change_log"; "merge_changes"; "log_pending_changes"; "refresh_data"].

(** The mask that keeps what [mask2] keeps of what [mask1] keeps. *)
Fixpoint both (mask1 mask2 : list bool) : list bool :=
  match mask1 with
  | [] => []
  | false :: rest => false :: both rest mask2
  | true :: rest =>
      match mask2 with
      | [] => []
      | b :: mask2' => b :: both rest mask2'
      end
  end.

(** A choice other than ["All"]. *)
Definition active (choice : string * value) : Prop := snd choice ≠ VText "All".

(** No filter of [ui] selects anything in a frame with the labels of [d]:
    every choice is ["All"], and every date filter names a column the
    frame does not have or sits at the range of the column's tag. *)
Definition neutral (tags : gmap string ColumnTag) (d : DataFrame) (ui : FilterState)
    : Prop :=
  ∃ fs fb ft,
    filters_string ui = Some fs ∧ filters_boolean ui = Some fb
    ∧ filters_timestamp ui = Some ft
    ∧ Forall (λ choice, snd choice = VText "All") fs
    ∧ Forall (λ choice, snd choice = VText "All") fb
    ∧ Forall (λ '(col, range),
                (col ∉ Frame.columns d) ∨ default_range tags col = Some range) ft.

(** A computation that leaves the whole world as it is. *)
Definition reads {A} (m : M A) : Prop := ∀ w, snd (m w) = w.

End Props.

(** Further data on the reference configuration. *)
Module Scenario.

(** A change set whose columns carry no declared limit: a timestamp
    column and a column the catalog does not know. *)
Definition notes : DataFrame :=
  mkFrame 1 [mkColumn "Last Modified" DObject [VNull];
             mkColumn "Note" DString [VText "gift"]].
Definition w_notes : World :=
  Sample.world {[ 1%positive := notes ]} ∅ ∅ Sample.no_state.

(** An amount that reads as a decimal without being a finite number. *)
Definition infinite_amount : Column :=
  mkColumn "Amount" DString [VText "12.34"; VText "Infinity"].
Definition w_infinite : World :=
  Sample.world {[ 1%positive := mkFrame 2 [infinite_amount] ]} ∅ ∅ Sample.no_state.

(** The change log of one edited amount. *)
Definition change_log : DataFrame :=
  Sample.log_builder Sample.one_change Sample.one_change.
Definition w_change_log : World :=
  Sample.world {[ 1%positive := change_log ]} ∅
               {[ Sample.orders_key := Sample.orders ]} Sample.no_state.

(** A store that fails every staging write. *)
Definition refuses_writes (c : StoreCall) : bool :=
  match c with
  | CallWritePandas _ _ => true
  | CallSql _ => false
  end.
Definition w_refused : World :=
  set_session
    (mkSession {[ Sample.orders_key := Sample.orders ]} Sample.catalog refuses_writes
               (mkTimestamp (mkDate 2026 2 1) 9 30 0 None) "REVIEWER" [])
    Sample.w_matching.

(** A session that has loaded nothing yet. *)
Definition w_start : World :=
  Sample.world ∅ ∅ {[ Sample.orders_key := Sample.orders ]} Sample.no_state.

(** A listing on the page: three orders, with a status, a payment flag and
    a creation date; the tag of the date column as the tagger leaves it. *)
Definition listing : DataFrame :=
  mkFrame 3
    [mkColumn "Order ID" DInt64 [VInt 1; VInt 2; VInt 3];
     mkColumn "Status" DString [VText "open"; VText "closed"; VText "open"];
     mkColumn "Paid" DBool [VBool true; VBool false; VNull];
     mkColumn "Created" DObject
       [VDate (mkDate 2024 1 1); VDate (mkDate 2024 2 1); VDate (mkDate 2024 3 1)]].
Definition listing_tags : gmap string ColumnTag :=
  {[ "Created" := mkTag (Some "date") (Some (VDate (mkDate 2024 1 1)))
                        (Some (VDate (mkDate 2024 3 1))) ]}.
Definition w_listing : World :=
  Sample.world {[ 1%positive := listing ]} listing_tags
               {[ Sample.orders_key := Sample.orders ]}
               (mkState (Some 1%positive) None None false true).

(** Cell by cell, with the date-only format for a text. *)
Definition to_datetime (series : list value) : list (option Timestamp) :=
  map (to_datetime_cell Sample.strptime "%Y-%m-%d") series.

(** No filter entry set; the open orders of February and later; a choice
    on a column the listing does not have. *)
Definition no_filters : FilterState := mkFilters None None None ∅.
Definition open_since_february : FilterState :=
  mkFilters (Some [("Status", VText "open")]) (Some [("Paid", VText "All")])
            (Some [("Created", (VDate (mkDate 2024 2 1), VDate (mkDate 2024 3 1)))]) ∅.
Definition by_region : FilterState :=
  mkFilters (Some [("Region", VText "EMEA")]) (Some []) (Some []) ∅.

(** The first run of the script in a session. *)
Definition first_run : outcome FilterState * World :=
  init_state Sample.K Sample.strptime no_filters w_start.
Definition ui_first : FilterState :=
  match fst first_run with
  | Ok ui => ui
  | Raise _ => no_filters
  end.

End Scenario.

(* ===================================================================== *)
(** * Properties *)
(* ===================================================================== *)

(** ** Running the monad *)

Lemma bind_run {A B} (m : M A) (k : A → M B) (w : World) :
  (m ≫= k) w =
  match m w with
  | (Ok a, w') => k a w'
  | (Raise e, w') => (Raise e, w')
  end.
Proof. reflexivity. Qed.

Lemma bind_ok {A B} (m : M A) (k : A → M B) (w w' : World) (a : A) :
  m w = (Ok a, w') → (m ≫= k) w = k a w'.
Proof. intros H. rewrite bind_run, H. reflexivity. Qed.

Lemma bind_raise {A B} (m : M A) (k : A → M B) (w w' : World) (e : exn) :
  m w = (Raise e, w') → (m ≫= k) w = (Raise e, w').
Proof. intros H. rewrite bind_run, H. reflexivity. Qed.

Lemma frame_read_ok (r : loc) (w : World) (d : DataFrame) :
  w_heap w !! r = Some d → frame_read r w = (Ok d, w).
Proof. intros H. unfold frame_read. rewrite H. reflexivity. Qed.

Lemma frame_getitem_run (r : loc) (name : string) (w : World) (d : DataFrame) :
  w_heap w !! r = Some d →
  frame_getitem r name w =
  match Frame.getitem d name with
  | Some c => (Ok c, w)
  | None => (Raise (KeyError name), w)
  end.
Proof.
  intros H. unfold frame_getitem.
  rewrite (bind_ok _ _ _ _ _ (frame_read_ok _ _ _ H)).
  destruct (Frame.getitem d name); reflexivity.
Qed.

Lemma getitem_name (d : DataFrame) (name : string) (c : Column) :
  Frame.getitem d name = Some c → col_name c = name ∧ c ∈ df_cols d.
Proof.
  unfold Frame.getitem. intros H.
  apply find_some in H as [Hin Heq].
  apply String.eqb_eq in Heq. split; [exact Heq | by apply list_elem_of_In].
Qed.

Lemma getitem_in_columns (d : DataFrame) (name : string) :
  name ∈ Frame.columns d → is_Some (Frame.getitem d name).
Proof.
  unfold Frame.columns, Frame.getitem. induction (df_cols d) as [|c cs IH]; simpl.
  - intros H. by apply elem_of_nil in H.
  - intros H. destruct (String.eqb (col_name c) name) eqn:E; [eauto |].
    apply elem_of_cons in H as [->|H]; [| by apply IH].
    rewrite String.eqb_refl in E. discriminate.
Qed.

(** ** The validator *)

Section Validator.

Variable K : Constants.

(** One iteration of the column loop leaves the world as it found it. *)
Lemma validate_column_world (r : loc) (metadata : list MetaRow)
    (col : string) (errors : list string) (w : World) :
  snd (validate_column r metadata col errors w) = w.
Proof.
  unfold validate_column, frame_getitem, frame_read, lift.
  repeat (rewrite bind_run || case_match);
    unfold mret, M_ret, raise in *; simplify_eq;
    first [reflexivity | congruence].
Qed.

(** Its result depends on the world through the frame only. *)
Lemma validate_column_frame (r : loc) (metadata : list MetaRow)
    (col : string) (errors : list string) (w1 w2 : World) :
  w_heap w1 !! r = w_heap w2 !! r →
  fst (validate_column r metadata col errors w1)
  = fst (validate_column r metadata col errors w2).
Proof.
  intros Hh. unfold validate_column, frame_getitem, frame_read, lift.
  destruct (meta_loc metadata _) as [row|]; [| reflexivity].
  destruct (is_char_dtype _).
  - destruct (CHARACTER_MAXIMUM_LENGTH row); [| reflexivity].
    rewrite !bind_run, <- Hh.
    destruct (w_heap w1 !! r) as [d|]; [| reflexivity].
    destruct (Frame.getitem d col); [| reflexivity].
    unfold mret, M_ret. by case_match.
  - destruct (is_number_dtype _); [| reflexivity].
    destruct (NUMERIC_PRECISION row); [| reflexivity].
    rewrite !bind_run, <- Hh.
    destruct (w_heap w1 !! r) as [d|]; [| reflexivity].
    by destruct (Frame.getitem d col).
Qed.

Lemma validate_loop_world (r : loc) (metadata : list MetaRow)
    (cols : list string) (errors : list string) (w : World) :
  snd (validate_loop r metadata cols errors w) = w.
Proof.
  revert errors. induction cols as [|col rest IH]; intros errors; [reflexivity |].
  simpl. rewrite bind_run.
  pose proof (validate_column_world r metadata col errors w) as Hw.
  destruct (validate_column r metadata col errors w) as [[errors'|e] w'];
    simpl in Hw; subst w'; [apply IH | reflexivity].
Qed.

Lemma validate_loop_frame (r : loc) (metadata : list MetaRow)
    (cols : list string) (errors : list string) (w1 w2 : World) :
  w_heap w1 !! r = w_heap w2 !! r →
  fst (validate_loop r metadata cols errors w1)
  = fst (validate_loop r metadata cols errors w2).
Proof.
  intros Hh. revert errors.
  induction cols as [|col rest IH]; intros errors; [reflexivity |].
  simpl. rewrite !bind_run.
  pose proof (validate_column_world r metadata col errors w1) as Hw1.
  pose proof (validate_column_world r metadata col errors w2) as Hw2.
  pose proof (validate_column_frame r metadata col errors w1 w2 Hh) as Hf.
  destruct (validate_column r metadata col errors w1) as [[e1|x1] w1'];
  destruct (validate_column r metadata col errors w2) as [[e2|x2] w2'];
    simpl in *; subst; try discriminate.
  - injection Hf as ->. apply IH.
  - exact Hf.
Qed.

(** Messages are only ever appended. *)
Lemma number_loop_extends (col : string) (p s : Z) (values : list value)
    (errors errors' : list string) :
  number_loop col p s values errors = Ok errors' →
  ∃ added, errors' = errors ++ added.
Proof.
  induction values as [|v rest IH]; simpl.
  - intros [= <-]. exists []. by rewrite app_nil_r.
  - destruct (check_number p s v) as [verdict|e]; simpl; [| discriminate].
    destruct (number_message col p s v verdict) as [msg|].
    + intros [= <-]. eauto.
    + exact IH.
Qed.

Lemma validate_column_extends (r : loc) (metadata : list MetaRow)
    (col : string) (errors errors' : list string) (w w' : World) :
  validate_column r metadata col errors w = (Ok errors', w') →
  ∃ added, errors' = errors ++ added.
Proof.
  assert (Hnil : ∃ added : list string, errors = errors ++ added)
    by (exists []; by rewrite app_nil_r).
  unfold validate_column.
  destruct (meta_loc metadata _) as [row|]; [| by intros [= <- _]].
  destruct (is_char_dtype _).
  - destruct (CHARACTER_MAXIMUM_LENGTH row); [| by intros [= <- _]].
    rewrite bind_run.
    destruct (frame_getitem r col w) as [[c|e] w1]; [| discriminate].
    destruct (too_long _ _); intros [= <- _]; eauto.
  - destruct (is_number_dtype _); [| by intros [= <- _]].
    destruct (NUMERIC_PRECISION row); [| by intros [= <- _]].
    rewrite bind_run.
    destruct (frame_getitem r col w) as [[c|e] w1]; [| discriminate].
    unfold lift. intros [= H _]. eapply number_loop_extends, H.
Qed.

Lemma validate_loop_extends (r : loc) (metadata : list MetaRow)
    (cols : list string) (errors errors' : list string) (w w' : World) :
  validate_loop r metadata cols errors w = (Ok errors', w') →
  ∃ added, errors' = errors ++ added.
Proof.
  revert errors w. induction cols as [|col rest IH]; intros errors w; simpl.
  - intros [= <- _]. exists []. by rewrite app_nil_r.
  - rewrite bind_run.
    destruct (validate_column r metadata col errors w) as [[e1|x] w1] eqn:E;
      [| discriminate].
    intros H. apply IH in H as [a2 ->].
    apply validate_column_extends in E as [a1 ->].
    exists (a1 ++ a2). by rewrite app_assoc.
Qed.

(** When the iteration for one column appends [added], whatever was
    collected before, a returned list holds [added] as a block. *)
Lemma validate_loop_block (r : loc) (metadata : list MetaRow)
    (col : string) (added : list string) (w : World) :
  (∀ errors, validate_column r metadata col errors w = (Ok (errors ++ added), w)) →
  ∀ cols errors errors' w',
    col ∈ cols →
    validate_loop r metadata cols errors w = (Ok errors', w') →
    ∃ before after, errors' = before ++ added ++ after.
Proof.
  intros Hcol cols. induction cols as [|c rest IH]; intros errors errors' w' Hin.
  - by apply elem_of_nil in Hin.
  - simpl. rewrite bind_run.
    destruct (decide (c = col)) as [->|Hne].
    + rewrite Hcol. intros H.
      apply validate_loop_extends in H as [after ->].
      exists errors, after. by rewrite app_assoc.
    + apply elem_of_cons in Hin as [->|Hin]; [done |].
      pose proof (validate_column_world r metadata c errors w) as Hw.
      destruct (validate_column r metadata c errors w) as [[e1|x] w1];
        simpl in Hw; subst w1; [| discriminate].
      by apply IH.
Qed.

(** The first over-long text is the text of the first offending cell. *)
Lemma too_long_first (max_length : Z) (values : list value) :
  head (too_long max_length (map py_str (Frame.dropna values)))
  = py_str <$> find (Spec.offending_length max_length) values.
Proof.
  unfold too_long, Frame.dropna, Spec.offending_length.
  induction values as [|v rest IH]; [reflexivity |].
  simpl find. destruct (notna v) eqn:Hv; simpl.
  - rewrite filter_cons_True by done. simpl map.
    destruct (max_length <? Z.of_nat (String.length (py_str v))) eqn:Hl.
    + apply Z.ltb_lt in Hl. rewrite filter_cons_True by done. reflexivity.
    + apply Z.ltb_ge in Hl. rewrite filter_cons_False by lia. exact IH.
  - rewrite filter_cons_False by (rewrite Hv; done). exact IH.
Qed.

(** On a value that is a finite decimal or no decimal at all, the code's
    check is the specification's verdict. *)
Lemma check_number_verdict (p s : Z) (v : value) :
  Spec.finite_or_invalid v →
  check_number p s v = Ok (Spec.verdict p s (py_str v)).
Proof.
  intros Hfin. unfold check_number, Spec.verdict.
  destruct (Decimal.of_string (py_str v)) as [d|] eqn:Hd; [| reflexivity].
  specialize (Hfin d Hd). unfold Decimal.is_finite in Hfin.
  unfold Spec.total_digits, Spec.int_digits, Spec.frac_digits, len.
  simpl. destruct (Decimal.exponent d) as [e| | |]; try discriminate.
  simpl. unfold mbind, outcome_bind.
  destruct (0 <=? e) eqn:He.
  - apply Z.leb_le in He.
    rewrite (Z.max_r (- e) 0) by lia.
    rewrite (Z.max_l (Z.of_nat (length (Decimal.digits d)) + e) 0) by lia.
    by repeat case_match.
  - apply Z.leb_gt in He.
    rewrite (Z.max_l (- e) 0) by lia. by repeat case_match.
Qed.

Lemma number_loop_first (col : string) (p s : Z) (values : list value)
    (errors : list string) :
  Forall Spec.finite_or_invalid (Frame.dropna values) →
  number_loop col p s (Frame.dropna values) errors
  = Ok (errors ++
        match find (Spec.offending_number p s) values with
        | Some v =>
            option_list (number_message col p s v (Spec.verdict p s (py_str v)))
        | None => []
        end).
Proof.
  unfold Frame.dropna, Spec.offending_number.
  induction values as [|v rest IH]; intros Hfin.
  - simpl. by rewrite app_nil_r.
  - simpl find. destruct (notna v) eqn:Hv; simpl.
    + rewrite filter_cons_True in Hfin |- * by done.
      apply Forall_cons in Hfin as [Hv1 Hrest].
      simpl. rewrite (check_number_verdict p s v Hv1). simpl.
      destruct (Spec.verdict p s (py_str v)) eqn:E; simpl; rewrite ?E;
        simpl; try reflexivity.
      by apply IH.
    + rewrite filter_cons_False in Hfin |- * by (rewrite Hv; done).
      by apply IH.
Qed.

(** *** C7 *)


(** *** C1 *)

Lemma number_dtype_not_char (dtype : string) :
  is_number_dtype dtype = true → is_char_dtype dtype = false.
Proof.
  unfold is_number_dtype. intros H. apply bool_decide_eq_true in H.
  repeat (apply elem_of_cons in H as [->|H]; [reflexivity |]).
  by apply elem_of_nil in H.
Qed.


(** *** C9 *)

Lemma rstrip_minus (text : string) :
  Py.rstrip (String "-" text) = String "-" (Py.rstrip text).
Proof. cbn [Py.rstrip]. by destruct (Py.rstrip text). Qed.

Lemma parse_number_sign (text : string) :
  Decimal.parse_number true text
  = Decimal.copy_negate <$> Decimal.parse_number false text.
Proof.
  unfold Decimal.parse_number.
  destruct (Decimal.span_digits text) as [ip r1].
  destruct (match r1 with
            | String "." r => Decimal.span_digits r
            | _ => ([], r1)
            end) as [fp r2].
  destruct (ip ++ fp); [reflexivity |].
  by destruct (Decimal.parse_exp r2).
Qed.

Lemma parse_special_sign (text : string) :
  Decimal.parse_special true text
  = Decimal.copy_negate <$> Decimal.parse_special false text.
Proof.
  unfold Decimal.parse_special.
  destruct (_ || _); [reflexivity |].
  destruct (match Py.lower text with
            | String "s" r => (true, r)
            | _ => (false, Py.lower text)
            end) as [signal r].
  repeat case_match; reflexivity.
Qed.

(** The text of a negation: a minus sign in front of an unsigned text
    without leading blanks reads as the negated decimal. *)
Lemma of_string_minus (text : string) :
  Py.lstrip text = text →
  Decimal.take_sign (Py.remove_char "_" (Py.strip text))
  = (false, Py.remove_char "_" (Py.strip text)) →
  Decimal.of_string ("-" +:+ text) = Decimal.copy_negate <$> Decimal.of_string text.
Proof.
  intros Hl Hs. unfold Decimal.of_string. rewrite Hs.
  assert (Hstrip : Py.strip ("-" +:+ text) = String "-" (Py.strip text)).
  { unfold Py.strip. change ("-" +:+ text) with (String "-" text).
    change (Py.lstrip (String "-" text)) with (String "-" text).
    by rewrite rstrip_minus, Hl. }
  rewrite Hstrip.
  change (Py.remove_char "_" (String "-" (Py.strip text)))
    with (String "-" (Py.remove_char "_" (Py.strip text))).
  cbn [Decimal.take_sign].
  rewrite parse_number_sign, parse_special_sign.
  destruct (Decimal.parse_number false _); [reflexivity |].
  by destruct (Decimal.parse_special false _).
Qed.

(** C9. The NUMBER(p,s) check does not see the sign: two values whose
    texts read as a decimal and as its negation get the same outcome of
    the check (no violation, scale, precision/overflow), since the digits
    are counted on the absolute value; in particular a text and the same
    text behind a minus sign get the same outcome. *)
Theorem number_check_sign_insensitive (p s : Z) :
  (∀ (v v' : value) (d : Decimal.t),
     Decimal.of_string (py_str v) = Some d →
     Decimal.of_string (py_str v') = Some (Decimal.copy_negate d) →
     check_number p s v = check_number p s v')
  ∧ (∀ text : string,
       Py.lstrip text = text →
       Decimal.take_sign (Py.remove_char "_" (Py.strip text))
       = (false, Py.remove_char "_" (Py.strip text)) →
       check_number p s (VText text) = check_number p s (VText ("-" +:+ text))).
Proof.
  split.
  - intros v v' d Hv Hv'. unfold check_number. rewrite Hv, Hv'. reflexivity.
  - intros text Hl Hs. unfold check_number. cbn [py_str].
    rewrite (of_string_minus text Hl Hs).
    by destruct (Decimal.of_string text).
Qed.

(** The validator, run: the schema query is its one call to the store. *)
Lemma validate_changes_run (r : loc) (w0 : World) :
  validate_changes_against_schema K r w0 =
  match w_heap w0 !! r with
  | None => (Raise (KeyError "dangling frame"), w0)
  | Some d =>
      if Frame.empty d then (Ok [], w0)
      else
        let s := w_session w0 in
        let w1 := set_session
                    (set_calls (sess_calls s ++ [CallSql (schema_metadata_text K)]) s)
                    w0 in
        if sess_rejects s (CallSql (schema_metadata_text K))
        then (Raise (StoreError (CallSql (schema_metadata_text K))), w1)
        else
          let metadata := sess_catalog s (qualified (DATABASE K) (SCHEMA K) (TABLE K)) in
          if bool_decide (metadata = []) then (Ok [], w1)
          else validate_loop r metadata (Frame.columns d) [] w1
  end.
Proof.
  unfold validate_changes_against_schema.
  rewrite bind_run. unfold frame_read at 1.
  destruct (w_heap w0 !! r) as [d|]; [| reflexivity].
  destruct (Frame.empty d); [reflexivity |].
  unfold get_table_schema_metadata, session_select_columns, session_call.
  rewrite !bind_run.
  destruct (sess_rejects (w_session w0) _); [reflexivity |].
  unfold get_world, mret, M_ret. simpl. by case_bool_decide.
Qed.

(** *** C8 *)

(** C8. The validator never writes to the heap of frames, so the frame it
    is given (like every other frame) is the same after the call, whether
    it returns or raises; it leaves the tag registry, the stored tables,
    the session state and the page alone; and its outcome is determined by
    the changed-cells frame and the column constraints the store hands
    out. *)
Theorem validation_reads_only (r : loc) (w : World) :
  let w' := snd (validate_changes_against_schema K r w) in
  w_heap w' = w_heap w
  ∧ w_column_tags w' = w_column_tags w
  ∧ sess_tables (w_session w') = sess_tables (w_session w)
  ∧ w_state w' = w_state w
  ∧ w_page w' = w_page w
  ∧ (∀ w2,
      w_heap w2 !! r = w_heap w !! r →
      sess_catalog (w_session w2) (qualified (DATABASE K) (SCHEMA K) (TABLE K))
      = sess_catalog (w_session w) (qualified (DATABASE K) (SCHEMA K) (TABLE K)) →
      sess_rejects (w_session w2) (CallSql (schema_metadata_text K))
      = sess_rejects (w_session w) (CallSql (schema_metadata_text K)) →
      fst (validate_changes_against_schema K r w2)
      = fst (validate_changes_against_schema K r w)).
Proof.
  pose proof validate_changes_run as Hrun.
  intros w'. subst w'. rewrite (Hrun r w).
  destruct (w_heap w !! r) as [d|] eqn:Hd.
  2: { repeat split; try reflexivity.
       intros w2 Hh _ _. rewrite (Hrun r w2), Hh. reflexivity. }
  destruct (Frame.empty d) eqn:He.
  { repeat split; try reflexivity.
    intros w2 Hh _ _. rewrite (Hrun r w2), Hh, He. reflexivity. }
  cbv zeta.
  destruct (sess_rejects (w_session w) _) eqn:Hrej.
  { repeat split; try reflexivity.
    intros w2 Hh _ Hr. rewrite (Hrun r w2), Hh, He. cbv zeta.
    rewrite Hr. reflexivity. }
  case_bool_decide as Hm.
  { repeat split; try reflexivity.
    intros w2 Hh Hc Hr. rewrite (Hrun r w2), Hh, He. cbv zeta.
    rewrite Hr, Hc, bool_decide_eq_true_2 by done. reflexivity. }
  rewrite validate_loop_world. repeat split; try reflexivity.
  intros w2 Hh Hc Hr. rewrite (Hrun r w2), Hh, He. cbv zeta.
  rewrite Hr, Hc, bool_decide_eq_false_2 by done.
  apply validate_loop_frame. simpl. by rewrite Hh.
Qed.

End Validator.

(** ** The column tagger *)

Lemma world_eta_tags (w : World) : set_column_tags (w_column_tags w) w = w.
Proof. by destruct w. Qed.

Lemma world_eta_heap (w : World) : set_heap (w_heap w) w = w.
Proof. by destruct w. Qed.

Lemma set_values_twice (cols : list Column) (name : string) (t1 t2 : dtype)
    (v1 v2 : list value) :
  Frame.set_values (Frame.set_values cols name t1 v1) name t2 v2
  = Frame.set_values cols name t2 v2.
Proof.
  induction cols as [|c rest IH]; simpl.
  - by rewrite String.eqb_refl.
  - destruct (String.eqb (col_name c) name) eqn:E; simpl.
    + by rewrite String.eqb_refl.
    + by rewrite E, IH.
Qed.

Lemma frame_setitem_run (r : loc) (name : string) (t : dtype) (vs : list value)
    (w : World) (d : DataFrame) :
  w_heap w !! r = Some d →
  frame_setitem r name t vs w
  = (Ok (), set_heap (<[r := Frame.setitem d name t vs]> (w_heap w)) w).
Proof.
  intros H. unfold frame_setitem.
  by rewrite (bind_ok _ _ _ _ _ (frame_read_ok _ _ _ H)).
Qed.

Lemma tags_update_run (col : string) (f : ColumnTag → ColumnTag) (w : World)
    (tag : ColumnTag) :
  w_column_tags w !! col = Some tag →
  tags_update col f w
  = (Ok (), set_column_tags (<[col := f tag]> (w_column_tags w)) w).
Proof.
  intros H. unfold tags_update, get_world. rewrite bind_run. by rewrite H.
Qed.

Ltac world_norm :=
  cbn [set_heap set_column_tags set_session set_cache set_state set_page
       set_log set_trace w_heap w_column_tags w_session w_cache
       w_state w_page w_log w_trace set_calls set_tables sess_tables
       sess_catalog sess_rejects sess_now sess_user sess_calls].

Ltac tagger_side :=
  world_norm; rewrite ?lookup_insert_eq; first [reflexivity | eassumption].

Ltac tagger_step :=
  erewrite bind_ok;
  [| first [ apply frame_setitem_run; tagger_side
           | apply tags_update_run; tagger_side
           | reflexivity ] ];
  world_norm.

(** *** Frames *)

Lemma getitem_setitem (d : DataFrame) (n m : string) (t : dtype) (vs : list value) :
  Frame.getitem (Frame.setitem d n t vs) m
  = if decide (m = n) then Some (mkColumn n t vs) else Frame.getitem d m.
Proof.
  unfold Frame.getitem, Frame.setitem. cbn [df_cols].
  induction (df_cols d) as [|c rest IH]; simpl.
  - case_decide as E.
    + subst. by rewrite String.eqb_refl.
    + destruct (String.eqb n m) eqn:E'; [| reflexivity].
      apply String.eqb_eq in E'. by subst.
  - destruct (String.eqb (col_name c) n) eqn:Ecn; simpl.
    + apply String.eqb_eq in Ecn. case_decide as E.
      * subst. by rewrite String.eqb_refl.
      * destruct (String.eqb n m) eqn:E'.
        { apply String.eqb_eq in E'. by subst. }
        destruct (String.eqb (col_name c) m) eqn:E''; [| reflexivity].
        apply String.eqb_eq in E''. congruence.
    + destruct (String.eqb (col_name c) m) eqn:Ecm.
      * case_decide as E; [| reflexivity].
        subst. rewrite Ecm in Ecn. discriminate.
      * exact IH.
Qed.

Lemma getitem_unique (d : DataFrame) (c : Column) :
  NoDup (Frame.columns d) → c ∈ df_cols d → Frame.getitem d (col_name c) = Some c.
Proof.
  unfold Frame.columns, Frame.getitem.
  induction (df_cols d) as [|c0 rest IH]; simpl; intros Hnd Hin.
  - by apply elem_of_nil in Hin.
  - apply NoDup_cons in Hnd as [Hnotin Hnd].
    apply elem_of_cons in Hin as [->|Hin].
    + by rewrite String.eqb_refl.
    + destruct (String.eqb (col_name c0) (col_name c)) eqn:E; [| by apply IH].
      apply String.eqb_eq in E. exfalso. apply Hnotin. rewrite E.
      apply list_elem_of_fmap. eauto.
Qed.

Lemma getitem_convert_dtypes (d : DataFrame) (n : string) :
  Frame.getitem (Frame.convert_dtypes d) n = Frame.convert_column <$> Frame.getitem d n.
Proof.
  unfold Frame.getitem, Frame.convert_dtypes. cbn [df_cols].
  induction (df_cols d) as [|c rest IH]; simpl; [reflexivity |].
  assert (col_name (Frame.convert_column c) = col_name c) as ->
    by (unfold Frame.convert_column; by destruct (col_dtype c)).
  by destruct (String.eqb (col_name c) n).
Qed.

Lemma same_cells_shape_refl (c : Column) : Spec.same_cells_shape c c.
Proof. split; [reflexivity |]. exists id. by rewrite map_id. Qed.

Lemma same_shape_refl (d : DataFrame) : Spec.same_shape d d.
Proof.
  split; [reflexivity |].
  induction (df_cols d); constructor; auto using same_cells_shape_refl.
Qed.

Lemma same_shape_trans (d1 d2 d3 : DataFrame) :
  Spec.same_shape d1 d2 → Spec.same_shape d2 d3 → Spec.same_shape d1 d3.
Proof.
  intros [Hl1 Hc1] [Hl2 Hc2]. split; [congruence |].
  eapply Forall2_trans; [| exact Hc1 | exact Hc2].
  intros a b c [Hn1 [f Hf]] [Hn2 [g Hg]]. split; [congruence |].
  exists (g ∘ f). rewrite Hg, Hf. by rewrite map_map.
Qed.

Lemma same_shape_columns (d d' : DataFrame) :
  Spec.same_shape d d' → Frame.columns d' = Frame.columns d.
Proof.
  intros [_ H]. unfold Frame.columns.
  induction H as [|c c' cs cs' [Hn _] _ IH]; simpl; [reflexivity |].
  by rewrite Hn, IH.
Qed.

(** Replacing the cells of a labelled column by a cell-wise image keeps the
    shape. *)
Lemma same_shape_setitem (d : DataFrame) (n : string) (series : Column)
    (t : dtype) (g : value → value) :
  Frame.getitem d n = Some series →
  Spec.same_shape d (Frame.setitem d n t (map g (col_values series))).
Proof.
  unfold Frame.getitem, Frame.setitem. intros H. split; [reflexivity |].
  cbn [df_cols].
  induction (df_cols d) as [|c rest IH]; simpl in *; [discriminate |].
  destruct (String.eqb (col_name c) n) eqn:E.
  - injection H as ->. constructor.
    + split; [by apply String.eqb_eq in E |]. by exists g.
    + clear. induction rest; constructor; auto using same_cells_shape_refl.
  - constructor; [apply same_cells_shape_refl | by apply IH].
Qed.

Lemma convert_dtypes_shape (d : DataFrame) :
  Spec.same_shape d (Frame.convert_dtypes d).
Proof.
  split; [reflexivity |]. cbn [Frame.convert_dtypes df_cols].
  induction (df_cols d) as [|c rest IH]; simpl; constructor; [| exact IH].
  unfold Frame.convert_column. split.
  - by destruct (col_dtype c).
  - exists id. rewrite map_id. by destruct (col_dtype c).
Qed.

Section Tagger.
Variable strptime : string → string → option Timestamp.

Lemma convert_one_run (r : loc) (col : string) (w : World) :
  convert_one strptime r col w =
  match w_heap w !! r with
  | None => (Raise (KeyError "dangling frame"), w)
  | Some d =>
      match Frame.getitem d col with
      | None => (Raise (KeyError col), w)
      | Some series =>
          if is_numeric series then (Ok (), w)
          else
            let parsed := parse_column strptime series in
            if notna_all parsed then
              let c' := Spec.temporal_column col parsed in
              (Ok (),
               set_column_tags (<[col := Spec.tag_of parsed]> (w_column_tags w))
                 (set_heap (<[r := Frame.setitem d col (col_dtype c') (col_values c')]>
                              (w_heap w)) w))
            else (Ok (), w)
      end
  end.
Proof.
  destruct w as [h t s c st p l tr]. cbn [w_heap w_column_tags].
  unfold convert_one. rewrite bind_run. unfold frame_getitem, frame_read at 1.
  rewrite bind_run. cbn [w_heap].
  destruct (h !! r) as [d|] eqn:Hd; [| reflexivity].
  destruct (Frame.getitem d col) as [series|]; [| reflexivity].
  unfold mret at 1, M_ret at 1.
  destruct (is_numeric series); [reflexivity |].
  cbv zeta.
  destruct (notna_all (parse_column strptime series)) eqn:Hall; [| reflexivity].
  do 4 tagger_step.
  unfold Spec.temporal_column, Spec.tag_of.
  destruct (all_midnight (parse_column strptime series)) eqn:Hmid.
  - do 3 tagger_step.
    erewrite tags_update_run by tagger_side. world_norm.
    unfold with_min_date, with_max_date, with_type, Frame.setitem.
    cbn [tag_type tag_min_date tag_max_date df_len df_cols col_dtype col_values].
    rewrite !insert_insert_eq, set_values_twice. reflexivity.
  - unfold mret, M_ret, with_min_date, with_max_date.
    cbn [tag_type tag_min_date tag_max_date col_dtype col_values].
    rewrite !insert_insert_eq. reflexivity.
Qed.

Lemma notna_all_to_datetime (fmt : string) (c : Column) :
  notna_all (to_datetime strptime c fmt) = Spec.all_parse strptime fmt c.
Proof.
  unfold notna_all, to_datetime, Spec.all_parse.
  induction (col_values c) as [|v rest IH]; simpl; [reflexivity |].
  rewrite IH. f_equal.
  destruct v; unfold Spec.parses, to_datetime_cell; cbv beta iota;
    try reflexivity;
    (destruct (strptime fmt _) eqn:E;
     [ by rewrite bool_decide_eq_true_2 by eauto
     | by rewrite bool_decide_eq_false_2 by (by intros [? ?]) ]).
Qed.

Lemma notna_all_parse_column (c : Column) :
  notna_all (parse_column strptime c)
  = Spec.all_parse strptime "%Y-%m-%d %H:%M:%S%z" c
    || Spec.all_parse strptime "%Y-%m-%d" c.
Proof.
  unfold parse_column. rewrite <- !notna_all_to_datetime.
  by destruct (notna_all (to_datetime strptime c "%Y-%m-%d %H:%M:%S%z")) eqn:E.
Qed.

Lemma parse_column_convert (c : Column) :
  parse_column strptime (Frame.convert_column c) = parse_column strptime c.
Proof.
  unfold parse_column, to_datetime, Frame.convert_column.
  by destruct (col_dtype c).
Qed.

Lemma if_elem_of_cons_ne {A} (n col : string) (rest : list string) (x y : A) :
  n ≠ col →
  (if decide (n ∈ col :: rest) then x else y)
  = (if decide (n ∈ rest) then x else y).
Proof.
  intros Hne. destruct (decide (n ∈ rest)) as [Hin|Hin].
  - by rewrite decide_True by (by apply list_elem_of_further).
  - rewrite decide_False; [done |]. intros [->|?]%elem_of_cons; done.
Qed.

(** The loop over labels that the frame has: it always completes; the
    frame keeps its shape; and, when no label is visited twice, each
    visited label holds its tagged column and its tag. *)
Lemma convert_loop_run (r : loc) (cols : list string) :
  ∀ (w : World) (d : DataFrame),
    w_heap w !! r = Some d →
    Forall (λ n, n ∈ Frame.columns d) cols →
    ∃ d' tags',
      convert_loop strptime r cols w
      = (Ok (), set_column_tags tags' (set_heap (<[r := d']> (w_heap w)) w))
      ∧ Spec.same_shape d d'
      ∧ (NoDup cols →
         (∀ n, Frame.getitem d' n
               = if decide (n ∈ cols)
                 then Spec.tagged_column strptime <$> Frame.getitem d n
                 else Frame.getitem d n)
         ∧ (∀ n, tags' !! n
                 = if decide (n ∈ cols) then
                     match Frame.getitem d n with
                     | Some c =>
                         if Spec.accepted strptime c
                         then Some (Spec.tag_of (parse_column strptime c))
                         else w_column_tags w !! n
                     | None => w_column_tags w !! n
                     end
                   else w_column_tags w !! n)).
Proof.
  induction cols as [|col rest IH]; intros w d Hd Hcols.
  - exists d, (w_column_tags w). split; [| split].
    + simpl. unfold mret, M_ret. f_equal.
      rewrite insert_id by done. by destruct w.
    + apply same_shape_refl.
    + intros _. split; intros n;
        by rewrite decide_False by apply not_elem_of_nil.
  - apply Forall_cons in Hcols as [Hcol Hrest].
    destruct (getitem_in_columns _ _ Hcol) as [series Hser].
    cbn [convert_loop]. rewrite bind_run, convert_one_run, Hd, Hser.
    assert (Hskip :
      Spec.tagged_column strptime series = series →
      Spec.accepted strptime series = false →
      ∃ d' tags',
        convert_loop strptime r rest w
        = (Ok (), set_column_tags tags' (set_heap (<[r := d']> (w_heap w)) w))
        ∧ Spec.same_shape d d'
        ∧ (NoDup (col :: rest) →
           (∀ n, Frame.getitem d' n
                 = if decide (n ∈ col :: rest)
                   then Spec.tagged_column strptime <$> Frame.getitem d n
                   else Frame.getitem d n)
           ∧ (∀ n, tags' !! n
                   = if decide (n ∈ col :: rest) then
                       match Frame.getitem d n with
                       | Some c =>
                           if Spec.accepted strptime c
                           then Some (Spec.tag_of (parse_column strptime c))
                           else w_column_tags w !! n
                       | None => w_column_tags w !! n
                       end
                     else w_column_tags w !! n))).
    { intros Hsame Hacc.
      destruct (IH w d Hd Hrest) as (d' & tags' & Hrun & Hshape & Hnames).
      exists d', tags'. split; [exact Hrun | split; [exact Hshape |]].
      intros Hnd. apply NoDup_cons in Hnd as [Hnotin Hnd].
      destruct (Hnames Hnd) as [Hget Htag]. split; intros n.
      - rewrite Hget. destruct (decide (n = col)) as [->|Hne].
        + rewrite decide_False by done.
          rewrite decide_True by apply list_elem_of_here.
          rewrite Hser. simpl. by rewrite Hsame.
        + by rewrite if_elem_of_cons_ne.
      - rewrite Htag. destruct (decide (n = col)) as [->|Hne].
        + rewrite decide_False by done.
          rewrite decide_True by apply list_elem_of_here.
          by rewrite Hser, Hacc.
        + by rewrite if_elem_of_cons_ne. }
    destruct (is_numeric series) eqn:Hnum;
      [| cbv zeta; destruct (notna_all (parse_column strptime series)) eqn:Hall].
    + apply Hskip; unfold Spec.tagged_column, Spec.accepted; by rewrite Hnum.
    + clear Hskip.
      set (parsed := parse_column strptime series) in *.
      set (c1 := Spec.temporal_column col parsed).
      set (d1 := Frame.setitem d col (col_dtype c1) (col_values c1)).
      set (w1 := set_column_tags _ _).
      assert (Hshape1 : Spec.same_shape d d1).
      { subst d1 c1. unfold Spec.temporal_column.
        assert (Hlen : ∀ g : option Timestamp → value,
                  ∃ f : value → value,
                    map g parsed = map f (col_values series)).
        { intros g. subst parsed. unfold parse_column, to_datetime.
          destruct (negb _);
            eexists (λ v, g (to_datetime_cell strptime _ v)); by rewrite map_map. }
        destruct (all_midnight parsed); cbn [col_dtype col_values].
        - destruct (Hlen date_of) as [f ->]. by apply same_shape_setitem.
        - destruct (Hlen cell_of_stamp) as [f ->]. by apply same_shape_setitem. }
      assert (Hd1 : w_heap w1 !! r = Some d1) by apply lookup_insert_eq.
      assert (Hrest1 : Forall (λ n, n ∈ Frame.columns d1) rest)
        by (by rewrite (same_shape_columns _ _ Hshape1)).
      destruct (IH w1 d1 Hd1 Hrest1) as (d' & tags' & Hrun & Hshape & Hnames).
      exists d', tags'. split; [| split].
      * rewrite Hrun. subst w1. destruct w. world_norm.
        by rewrite insert_insert_eq.
      * eapply same_shape_trans; eauto.
      * intros Hnd. apply NoDup_cons in Hnd as [Hnotin Hnd].
        destruct (Hnames Hnd) as [Hget Htag].
        assert (Hc1 : c1 = Spec.tagged_column strptime series).
        { subst c1. unfold Spec.tagged_column. fold parsed.
          rewrite Hnum, Hall. by destruct (getitem_name _ _ _ Hser) as [-> _]. }
        assert (Hname : col_name c1 = col).
        { subst c1. unfold Spec.temporal_column. by destruct (all_midnight parsed). }
        assert (Hg1 : ∀ n, Frame.getitem d1 n
                           = if decide (n = col) then Some c1 else Frame.getitem d n).
        { intros n. subst d1. rewrite getitem_setitem. case_decide; [| done].
          f_equal. rewrite <- Hname. by destruct c1. }
        assert (Ht1 : ∀ n, n ≠ col → w_column_tags w1 !! n = w_column_tags w !! n).
        { intros n Hne. subst w1. unfold set_column_tags. cbn [w_column_tags].
          by rewrite lookup_insert_ne. }
        assert (Ht2 : w_column_tags w1 !! col = Some (Spec.tag_of parsed)).
        { subst w1. unfold set_column_tags. cbn [w_column_tags].
          by rewrite lookup_insert_eq. }
        split; intros n.
        -- rewrite Hget, Hg1. destruct (decide (n = col)) as [->|Hne].
           ++ rewrite decide_False by done.
              rewrite decide_True by apply list_elem_of_here.
              rewrite Hser. simpl. by rewrite Hc1.
           ++ by rewrite if_elem_of_cons_ne.
        -- rewrite Htag, Hg1. destruct (decide (n = col)) as [->|Hne].
           ++ rewrite decide_False by done.
              rewrite decide_True by apply list_elem_of_here.
              rewrite Hser, Ht2. unfold Spec.accepted. fold parsed.
              by rewrite Hnum, Hall.
           ++ rewrite if_elem_of_cons_ne by done. rewrite (Ht1 n Hne).
              reflexivity.
    + apply Hskip; unfold Spec.tagged_column, Spec.accepted; by rewrite Hnum, Hall.
Qed.

Lemma auto_convert_dtypes_run (r : loc) (w : World) (d : DataFrame) :
  w_heap w !! r = Some d →
  let r' := fresh (dom (w_heap w)) in
  ∃ d' tags',
    auto_convert_dtypes strptime r w
    = (Ok r', set_column_tags tags' (set_heap (<[r' := d']> (w_heap w)) w))
    ∧ r' ≠ r
    ∧ Spec.same_shape d d'
    ∧ (NoDup (Frame.columns d) →
       ∀ c, c ∈ df_cols d →
         Frame.getitem d' (col_name c) = Some (Spec.tagged_column strptime (Frame.convert_column c))
         ∧ tags' !! col_name c
           = if Spec.accepted strptime (Frame.convert_column c)
             then Some (Spec.tag_of (parse_column strptime c))
             else w_column_tags w !! col_name c).
Proof.
  intros Hd r'. unfold auto_convert_dtypes.
  rewrite (bind_ok _ _ _ _ _ (frame_read_ok _ _ _ Hd)).
  set (d0 := Frame.convert_dtypes d).
  set (w0 := set_heap (<[r' := d0]> (w_heap w)) w).
  assert (Hd0 : w_heap w0 !! r' = Some d0) by apply lookup_insert_eq.
  rewrite (bind_ok _ _ _ w0 r') by reflexivity.
  rewrite (bind_ok _ _ _ _ _ (frame_read_ok _ _ _ Hd0)).
  destruct (convert_loop_run r' (Frame.columns d0) w0 d0 Hd0)
    as (d' & tags' & Hrun & Hshape & Hnames).
  { apply Forall_forall. auto. }
  exists d', tags'. split; [| split; [| split]].
  - rewrite bind_run, Hrun. subst w0. destruct w. world_norm.
    by rewrite insert_insert_eq.
  - intros Heq. apply (is_fresh (dom (w_heap w))). fold r'. rewrite Heq.
    apply elem_of_dom. eauto.
  - eapply same_shape_trans; [apply convert_dtypes_shape | exact Hshape].
  - intros Hnd c Hc.
    assert (Hcols : Frame.columns d0 = Frame.columns d)
      by apply same_shape_columns, convert_dtypes_shape.
    destruct Hnames as [Hget Htag]; [by rewrite Hcols |].
    assert (Hin : col_name c ∈ Frame.columns d0).
    { rewrite Hcols. unfold Frame.columns. apply list_elem_of_fmap. eauto. }
    assert (Hg0 : Frame.getitem d0 (col_name c) = Some (Frame.convert_column c)).
    { subst d0. by rewrite getitem_convert_dtypes, (getitem_unique d c Hnd Hc). }
    split.
    + by rewrite Hget, decide_True, Hg0 by done.
    + rewrite Htag, Hg0, decide_True by done.
      by rewrite parse_column_convert.
Qed.

(** Entries of the registry that a run is started with, below the ones it
    writes, come out as they went in. *)
Local Abbreviation background m :=
  (∀ (w : World) (tb : gmap string ColumnTag),
     m (set_column_tags (w_column_tags w ∪ tb) w)
     = (fst (m w), set_column_tags (w_column_tags (snd (m w)) ∪ tb) (snd (m w)))).

Lemma background_bind {A B} (m : M A) (k : A → M B) :
  background m → (∀ a, background (k a)) → background (m ≫= k).
Proof.
  intros Hm Hk w tb. rewrite !bind_run, Hm.
  destruct (m w) as [[a|e] w1]; simpl; [apply Hk | reflexivity].
Qed.

Lemma background_ret {A} (a : A) : background (mret a : M A).
Proof. reflexivity. Qed.

Lemma background_frame_read (r : loc) : background (frame_read r).
Proof.
  intros w tb. unfold frame_read, set_column_tags. cbn [w_heap].
  by destruct (w_heap w !! r).
Qed.

Lemma background_frame_alloc (d : DataFrame) : background (frame_alloc d).
Proof. reflexivity. Qed.

Lemma background_frame_write (r : loc) (d : DataFrame) :
  background (frame_write r d).
Proof. reflexivity. Qed.

Lemma background_convert_one (r : loc) (col : string) :
  background (convert_one strptime r col).
Proof.
  intros w tb. rewrite !convert_one_run. unfold set_column_tags at 1 2.
  cbn [w_heap w_column_tags].
  destruct (w_heap w !! r) as [d|]; [| reflexivity].
  destruct (Frame.getitem d col) as [series|]; [| reflexivity].
  destruct (is_numeric series); [reflexivity |]. cbv zeta.
  destruct (notna_all (parse_column strptime series)); [| reflexivity].
  unfold set_column_tags, set_heap. simpl. by rewrite insert_union_l.
Qed.

Lemma background_convert_loop (r : loc) (cols : list string) :
  background (convert_loop strptime r cols).
Proof.
  induction cols as [|col rest IH]; [apply background_ret |].
  simpl. apply background_bind; [apply background_convert_one | done].
Qed.

Lemma background_auto_convert_dtypes (r : loc) :
  background (auto_convert_dtypes strptime r).
Proof.
  unfold auto_convert_dtypes.
  apply background_bind; [apply background_frame_read | intros d].
  apply background_bind; [apply background_frame_alloc | intros r'].
  apply background_bind; [apply background_frame_read | intros d'].
  apply background_bind; [apply background_convert_loop | intros _].
  apply background_ret.
Qed.

Lemma background_clean_column_names (r : loc) :
  background (clean_column_names r).
Proof.
  unfold clean_column_names.
  apply background_bind; [apply background_frame_read | intros d].
  destruct (Frame.set_columns d _); [| reflexivity].
  apply background_bind; [apply background_frame_write | intros _].
  apply background_ret.
Qed.

Lemma background_session_select_all (text table : string) :
  background (session_select_all text table).
Proof.
  intros w tb. destruct w as [h t s c st p l tr].
  unfold session_select_all, session_call, get_world.
  rewrite !bind_run. world_norm.
  destruct (sess_rejects s _); [reflexivity |].
  rewrite !bind_run. world_norm.
  destruct (sess_tables s !! table); reflexivity.
Qed.

Lemma background_load_data_uncached (K : Constants) :
  background (load_data_uncached K strptime).
Proof.
  unfold load_data_uncached.
  apply background_bind; [apply background_session_select_all | intros df].
  apply background_bind; [apply background_clean_column_names | intros df1].
  apply background_bind; [apply background_auto_convert_dtypes | intros df2].
  apply background_ret.
Qed.

End Tagger.

Section TaggerProperties.

Variable strptime : string → string → option Timestamp.

(** *** C5 *)


(** *** C10 *)


(** *** C6 *)

(** C6 (as amended). A data load adds to the process-wide registry and
    never clears it: after the load the registry is the set of tags the
    load computes for the new snapshot (what the same load leaves in an
    empty registry), laid over the registry as it was before; so an entry
    of an earlier load persists unchanged unless the new load tags the
    same column name. The same holds of [auto_convert_dtypes] alone. *)
Theorem column_tags_accumulate (K : Constants) (r : loc) (w : World) :
  let computed :=
    w_column_tags (snd (load_data_uncached K strptime (set_column_tags ∅ w))) in
  w_column_tags (snd (load_data_uncached K strptime w))
  = computed ∪ w_column_tags w
  ∧ (∀ col, computed !! col = None →
            w_column_tags (snd (load_data_uncached K strptime w)) !! col
            = w_column_tags w !! col)
  ∧ w_column_tags (snd (auto_convert_dtypes strptime r w))
    = w_column_tags (snd (auto_convert_dtypes strptime r (set_column_tags ∅ w)))
      ∪ w_column_tags w.
Proof.
  assert (Hw : set_column_tags (w_column_tags (set_column_tags ∅ w) ∪ w_column_tags w)
                 (set_column_tags ∅ w) = w).
  { destruct w as [h t s c0 st p l tr]. world_norm. by rewrite (left_id_L ∅ (∪)). }
  assert (Hload : w_column_tags (snd (load_data_uncached K strptime w))
                  = w_column_tags (snd (load_data_uncached K strptime
                                          (set_column_tags ∅ w)))
                    ∪ w_column_tags w).
  { pose proof (background_load_data_uncached strptime K
                  (set_column_tags ∅ w) (w_column_tags w)) as H.
    rewrite Hw in H. rewrite H. cbn [snd].
    by destruct (snd (load_data_uncached K strptime (set_column_tags ∅ w))). }
  intros computed. split; [exact Hload | split].
  - intros col Hnone. rewrite Hload. by apply lookup_union_r.
  - pose proof (background_auto_convert_dtypes strptime r
                  (set_column_tags ∅ w) (w_column_tags w)) as H.
    rewrite Hw in H. rewrite H. cbn [snd].
    by destruct (snd (auto_convert_dtypes strptime r (set_column_tags ∅ w))).
Qed.

End TaggerProperties.

(** ** The merge *)

Lemma set_columns_same_length (d : DataFrame) (f : string → string) :
  Frame.set_columns d (map f (Frame.columns d))
  = Some {| df_len := df_len d;
            df_cols := map (λ c, mkColumn (f (col_name c)) (col_dtype c) (col_values c))
                           (df_cols d) |}.
Proof.
  unfold Frame.set_columns, Frame.columns.
  rewrite !length_map, Nat.eqb_refl. do 2 f_equal.
  induction (df_cols d) as [|c rest IH]; simpl; [reflexivity |]. by rewrite IH.
Qed.

Section Merge.

Variable K : Constants.

Lemma merge_changes_run (r : loc) (w : World) (d : DataFrame) :
  w_heap w !! r = Some d →
  let r' := fresh (dom (w_heap w)) in
  let d' := {| df_len := df_len d;
               df_cols := map (λ c, mkColumn (to_db_name (col_name c))
                                             (col_dtype c) (col_values c))
                              (df_cols d) |} in
  let w1 := set_heap (<[r' := d']> (w_heap w)) w in
  let stage := qualified (DATABASE K) (SCHEMA K) BASE_MERGE_STAGE_TABLE in
  let target := qualified (DATABASE K) (SCHEMA K) (TABLE K) in
  let s := w_session w in
  let c1 := CallWritePandas stage d' in
  let s1 := set_calls (sess_calls s ++ [c1]) s in
  let s2 := set_tables (<[stage := staged_table_of_frame d']> (sess_tables s)) s1 in
  let c2 := CallSql (merge_sql K (Frame.columns d')) in
  let s3 := set_calls (sess_calls s ++ [c1; c2]) s2 in
  merge_changes K r w =
  if Frame.empty d then (Ok 0, w1)
  else if sess_rejects s c1 then (Raise (StoreError c1), set_session s1 w1)
  else if sess_rejects s c2 then (Raise (StoreError c2), set_session s3 w1)
  else
    match sess_tables s2 !! target with
    | Some t =>
        (Ok (Z.of_nat (df_len d)),
         set_session
           (set_tables
              (<[target :=
                   mkTable (tbl_cols t)
                     (map (merge_row (pk_cols_db K) (update_cols K (Frame.columns d'))
                                     (if truthy (lock_col K) then lock_col K else None)
                                     (sess_now s)
                                     (tbl_rows (staged_table_of_frame d')))
                          (tbl_rows t))]> (sess_tables s2)) s3) w1)
    | None => (Raise (StoreError c2), set_session s3 w1)
    end.
Proof.
  intros Hd r' d' w1 stage target s c1 s1 s2 c2 s3.
  assert (He : Frame.empty d' = Frame.empty d).
  { unfold Frame.empty. subst d'. cbn [df_len df_cols]. by rewrite length_map. }
  assert (Hd0 : w_heap (set_heap (<[r' := d]> (w_heap w)) w) !! r' = Some d)
    by (destruct w; apply lookup_insert_eq).
  assert (Hd1 : ∀ x, w_heap (set_session x w1) !! r' = Some d')
    by (intros x; destruct w; apply lookup_insert_eq).
  assert (Hd1' : w_heap w1 !! r' = Some d')
    by (destruct w; apply lookup_insert_eq).
  unfold merge_changes.
  rewrite (bind_ok _ _ _ _ _ (frame_read_ok _ _ _ Hd)).
  rewrite (bind_ok _ _ _ (set_heap (<[r' := d]> (w_heap w)) w) r') by reflexivity.
  rewrite (bind_ok _ _ _ _ _ (frame_read_ok _ _ _ Hd0)).
  unfold to_db_name at 1.
  rewrite (set_columns_same_length d (λ col, Py.replace_char " " "_" (Py.upper col))).
  fold d'.
  rewrite (bind_ok _ _ _ w1 ()).
  2: { unfold frame_write, modify. subst w1. destruct w as [h t s0 c0 st p l tr].
       world_norm. by rewrite insert_insert_eq. }
  rewrite (bind_ok _ _ _ _ _ (frame_read_ok _ _ _ Hd1')), He.
  destruct (Frame.empty d); [reflexivity |].
  unfold session_write_pandas.
  rewrite bind_run. rewrite (bind_ok _ _ _ _ _ (frame_read_ok _ _ _ Hd1')).
  rewrite bind_run. unfold session_call at 1.
  replace (w_session w1) with s by (by destruct w).
  fold stage c1.
  replace (set_calls (sess_calls s ++ [c1]) s) with s1 by reflexivity.
  destruct (sess_rejects s c1) eqn:Hr1; [reflexivity |].
  unfold update_tables, modify at 1.
  replace (set_session
             (set_tables
                (<[stage := staged_table_of_frame d']>
                   (sess_tables (w_session (set_session s1 w1))))
                (w_session (set_session s1 w1)))
             (set_session s1 w1))
    with (set_session s2 w1) by (by destruct w).
  rewrite (bind_ok _ _ _ _ _ (frame_read_ok _ _ _ (Hd1 s2))).
  unfold session_merge.
  rewrite !bind_run. unfold session_call at 1.
  replace (w_session (set_session s2 w1)) with s2 by (by destruct w).
  replace (sess_rejects s2) with (sess_rejects s) by reflexivity.
  fold target stage c2.
  replace (set_session (set_calls (sess_calls s2 ++ [c2]) s2) (set_session s2 w1))
    with (set_session s3 w1).
  2: { subst s3 s2 s1. destruct w as [h t s0 c0 st p l tr]. world_norm.
       unfold set_session. cbn [w_heap w_column_tags w_cache w_state w_page w_log w_trace].
       by rewrite <- app_assoc. }
  destruct (sess_rejects s c2) eqn:Hr2; [reflexivity |].
  unfold get_world. rewrite !bind_run.
  replace (w_session (set_session s3 w1)) with s3 by (by destruct w).
  replace (sess_tables s3) with (sess_tables s2) by reflexivity.
  replace (sess_now s3) with (sess_now s) by reflexivity.
  assert (Hstage : sess_tables s2 !! stage = Some (staged_table_of_frame d'))
    by apply lookup_insert_eq.
  rewrite Hstage.
  destruct (sess_tables s2 !! target) as [t|]; [| reflexivity].
  unfold update_tables, modify. rewrite !bind_run.
  unfold mret, M_ret. rewrite bind_run.
  erewrite frame_read_ok by (destruct w; apply lookup_insert_eq).
  reflexivity.
Qed.


Lemma to_db_name_nonempty (col : string) :
  String.eqb col "" = false → String.eqb (to_db_name col) "" = false.
Proof. by destruct col. Qed.

Lemma truthy_lock_col (L : string) :
  lock_col K = Some L → truthy (lock_col K) = true.
Proof.
  unfold lock_col. destruct (LOCK_COL K) as [l|]; cbn [truthy default from_option id];
    [| discriminate].
  destruct (String.eqb l "") eqn:E; cbn [negb]; [discriminate |].
  intros _. cbn [truthy]. by rewrite (to_db_name_nonempty l E).
Qed.

Lemma update_cols_spec (columns : list string) (c : string) :
  c ∈ update_cols K columns
  ↔ (c ∈ columns ∧ (c ∉ pk_cols_db K) ∧ (lock_col K ≠ Some c)).
Proof.
  unfold update_cols. rewrite list_elem_of_filter. unfold exclude_cols.
  destruct (lock_col K) as [L|] eqn:HL.
  - pose proof (truthy_lock_col L HL) as Ht. rewrite HL in Ht.
    rewrite Ht. cbn [default from_option id].
    rewrite not_elem_of_union, elem_of_list_to_set, not_elem_of_singleton.
    split.
    + intros [[? ?] ?]. repeat split; [done.. |]. congruence.
    + intros (? & ? & ?). repeat split; [done | congruence | done].
  - cbn [truthy]. rewrite elem_of_list_to_set. split.
    + intros [? ?]. by repeat split.
    + intros (? & ? & _). by split.
Qed.

Lemma renamed_columns (d : DataFrame) :
  Frame.columns
    {| df_len := df_len d;
       df_cols := map (λ c, mkColumn (to_db_name (col_name c)) (col_dtype c)
                                     (col_values c)) (df_cols d) |}
  = map to_db_name (Frame.columns d).
Proof. unfold Frame.columns. cbn [df_cols]. by rewrite !map_map. Qed.

(** *** C3 *)


Lemma staged_rows_length (d : DataFrame) :
  length (tbl_rows (staged_table_of_frame d)) = df_len d.
Proof.
  unfold staged_table_of_frame, table_of_frame. cbn [tbl_rows].
  by rewrite !length_map, length_seq.
Qed.

(** Counting the matching pairs of two lists by rows or by columns. *)
Lemma count_pairs {A B} (m : A → B → bool) (xs : list A) (ys : list B) :
  sum_list_with (λ x, length (filter (λ y, m x y = true) ys)) xs
  = sum_list_with (λ y, length (filter (λ x, m x y = true) xs)) ys.
Proof.
  induction xs as [|x xs IH]; simpl.
  - induction ys as [|y ys IHy]; simpl; [reflexivity | by rewrite <- IHy].
  - rewrite IH. clear IH. induction ys as [|y ys IHy]; simpl; [reflexivity |].
    destruct (m x y) eqn:E.
    + rewrite !filter_cons_True by done. simpl. rewrite <- IHy. lia.
    + rewrite !filter_cons_False by (rewrite E; done). rewrite <- IHy. lia.
Qed.

Lemma rows_affected_one_to_one (on_cols : list string)
    (staged target : list (gmap string value)) :
  Forall (λ src, length (filter (λ prd, key_match on_cols prd src = true) target) = 1%nat)
         staged →
  Forall (λ prd, (length (filter (λ src, key_match on_cols prd src = true) staged) ≤ 1)%nat)
         target →
  rows_affected on_cols staged target = length staged.
Proof.
  intros Hs Ht. unfold rows_affected.
  transitivity (sum_list_with
                  (λ prd, length (filter (λ src, key_match on_cols prd src = true) staged))
                  target).
  - clear Hs. induction target as [|prd rest IH]; [reflexivity |].
    apply Forall_cons in Ht as [Hprd Hrest]. simpl. rewrite <- (IH Hrest).
    destruct (existsb (key_match on_cols prd) staged) eqn:E.
    + rewrite filter_cons_True by done. simpl.
      apply existsb_exists in E as (src & Hin & Hm).
      assert (0 < length (filter (λ src, key_match on_cols prd src = true) staged))%nat;
        [| lia].
      apply list_elem_of_In in Hin.
      assert (Hf : src ∈ filter (λ src, key_match on_cols prd src = true) staged)
        by (by apply list_elem_of_filter).
      destruct (filter _ staged); [by apply elem_of_nil in Hf | simpl; lia].
    + rewrite filter_cons_False by (rewrite E; done).
      assert (Hnil : filter (λ src, key_match on_cols prd src = true) staged = []).
      { destruct (filter _ staged) as [|src others] eqn:Ef; [done |].
        assert (Hsrc : src ∈ filter (λ src, key_match on_cols prd src = true) staged)
          by (rewrite Ef; left).
        apply list_elem_of_filter in Hsrc as [Hm Hin].
        exfalso. apply not_true_iff_false in E. apply E, existsb_exists.
        exists src. split; [by apply list_elem_of_In | done]. }
      by rewrite Hnil.
  - rewrite count_pairs. clear Ht.
    induction staged as [|src rest IH]; [reflexivity |].
    apply Forall_cons in Hs as [Hsrc Hrest]. simpl. by rewrite Hsrc, IH.
Qed.

(** *** C4 *)

(** C4 (as amended). On an empty change set [merge_changes] returns 0 and
    the session is not called at all. On a non-empty one that the store
    accepts, it issues one staging write and one merge statement and
    returns the number of rows of the change set; that number is the count
    of rows the key-matched update affects whenever every staged row
    matches exactly one row of the target and no row of the target matches
    two staged rows. *)
Theorem merge_changes_count (r : loc) (w : World) (d : DataFrame) :
  w_heap w !! r = Some d →
  let out := merge_changes K r w in
  let staged := {| df_len := df_len d;
                   df_cols := map (λ c, mkColumn (to_db_name (col_name c))
                                                 (col_dtype c) (col_values c))
                                  (df_cols d) |} in
  let write := CallWritePandas
                 (qualified (DATABASE K) (SCHEMA K) BASE_MERGE_STAGE_TABLE) staged in
  let merge := CallSql (merge_sql K (map to_db_name (Frame.columns d))) in
  let target := qualified (DATABASE K) (SCHEMA K) (TABLE K) in
  (Frame.empty d = true → fst out = Ok 0 ∧ w_session (snd out) = w_session w)
  ∧ (Frame.empty d = false →
     sess_rejects (w_session w) write = false →
     sess_rejects (w_session w) merge = false →
     is_Some (sess_tables (w_session w) !! target) →
     fst out = Ok (Z.of_nat (df_len d))
     ∧ sess_calls (w_session (snd out)) = sess_calls (w_session w) ++ [write; merge])
  ∧ (∀ rows : list (gmap string value),
       Forall (λ src, length (filter (λ prd, key_match (pk_cols_db K) prd src = true)
                                     rows) = 1%nat)
              (tbl_rows (staged_table_of_frame staged)) →
       Forall (λ prd, (length (filter (λ src, key_match (pk_cols_db K) prd src = true)
                                      (tbl_rows (staged_table_of_frame staged))) ≤ 1)%nat)
              rows →
       rows_affected (pk_cols_db K) (tbl_rows (staged_table_of_frame staged)) rows
       = df_len d).
Proof.
  intros Hd out staged write merge target.
  pose proof (merge_changes_run r w d Hd) as Hrun. cbv zeta in Hrun.
  rewrite renamed_columns in Hrun. fold staged write merge target in Hrun.
  split; [| split].
  - intros He. subst out. rewrite Hrun, He. split; [reflexivity | by destruct w].
  - intros He Hw Hm Ht. subst out. rewrite Hrun, He, Hw, Hm.
    assert (Hsome : is_Some
              (sess_tables
                 (set_tables
                    (<[qualified (DATABASE K) (SCHEMA K) BASE_MERGE_STAGE_TABLE :=
                         staged_table_of_frame staged]> (sess_tables (w_session w)))
                    (set_calls (sess_calls (w_session w) ++ [write]) (w_session w)))
               !! target)).
    { cbn [sess_tables set_tables]. rewrite lookup_insert. by case_decide. }
    destruct Hsome as [t ->]. split; [reflexivity | by destruct w].
  - intros rows Hs Ht.
    rewrite (rows_affected_one_to_one _ _ _ Hs Ht), staged_rows_length. reflexivity.
Qed.

End Merge.

(** ** The Save handler *)

Lemma show_captions_run (msgs : list string) (w : World) :
  show_captions msgs w
  = (Ok (), set_page (w_page w ++ map (λ msg, StCaption ("- " +:+ msg)) msgs) w).
Proof.
  revert w. induction msgs as [|msg rest IH]; intros w.
  - cbn [show_captions map]. rewrite app_nil_r. by destruct w.
  - cbn [show_captions map]. rewrite bind_run. unfold page, modify.
    rewrite IH. destruct w as [h t s c0 st p l tr]. world_norm.
    by rewrite <- app_assoc.
Qed.

Section SaveHandler.

Variable K : Constants.
Variable strptime : string → string → option Timestamp.
Variable get_changed_rows : DataFrame → DataFrame → DataFrame.
Variable build_change_log : DataFrame → DataFrame → DataFrame.

(** *** C2 *)

(** C2. When the validator returns a non-empty list of messages during a
    save, the handler shows them and stops the script: none of
    [build_change_log], [merge_changes], [log_pending_changes] (nor
    [refresh_data]) is entered, the only call the store receives is the
    schema query, its tables are as before, and the session state, with the
    original snapshot it points to, is unchanged. *)
Theorem validation_failure_aborts_save (edited original : loc) (w : World)
    (e o : DataFrame) (errors : list string) :
  ss_original_df (w_state w) = Some original →
  w_heap w !! edited = Some e →
  w_heap w !! original = Some o →
  let changes_df := fresh (dom (w_heap w)) in
  let w0 := set_heap (<[changes_df := get_changed_rows e o]> (w_heap w)) w in
  Frame.empty (get_changed_rows e o) = false →
  fst (validate_changes_against_schema K changes_df w0) = Ok errors →
  errors ≠ [] →
  let out := save_changes K strptime get_changed_rows build_change_log edited w in
  fst out = Raise StopException
  ∧ w_trace (snd out) = w_trace w
  ∧ sess_calls (w_session (snd out))
    = sess_calls (w_session w) ++ [CallSql (schema_metadata_text K)]
  ∧ sess_tables (w_session (snd out)) = sess_tables (w_session w)
  ∧ w_state (snd out) = w_state w
  ∧ w_heap (snd out) !! original = Some o
  ∧ w_column_tags (snd out) = w_column_tags w
  ∧ w_cache (snd out) = w_cache w
  ∧ w_log (snd out) = w_log w
  ∧ w_page (snd out)
    = w_page w
      ++ StError "Validation failed. Please fix the following values:"
         :: map (λ msg, StCaption ("- " +:+ msg)) errors.
Proof.
  intros Horig He Ho changes_df w0 Hne Hval Herr out.
  assert (Hfresh : changes_df ≠ original).
  { intros Heq. apply (is_fresh (dom (w_heap w))). fold changes_df.
    rewrite Heq. apply elem_of_dom. eauto. }
  assert (Hc0 : w_heap w0 !! changes_df = Some (get_changed_rows e o)).
  { subst w0. destruct w. apply lookup_insert_eq. }
  (* what the validator did *)
  rewrite validate_changes_run, Hc0, Hne in Hval. cbv zeta in Hval.
  set (w1 := set_session _ w0) in Hval.
  assert (Hrun : validate_changes_against_schema K changes_df w0 = (Ok errors, w1)).
  { rewrite validate_changes_run, Hc0, Hne. cbv zeta. fold w1.
    destruct (sess_rejects (w_session w0) _); [discriminate |].
    case_bool_decide.
    - cbn [fst] in Hval. congruence.
    - pose proof (validate_loop_world changes_df
                    (sess_catalog (w_session w0)
                       (qualified (DATABASE K) (SCHEMA K) (TABLE K)))
                    (Frame.columns (get_changed_rows e o)) [] w1) as Hw.
      destruct (validate_loop _ _ _ _ w1) as [res w1']. cbn [fst snd] in *.
      by subst. }
  clear Hval.
  (* the handler *)
  assert (Hout : out
    = (Raise StopException,
       set_page (w_page w1
                 ++ StError "Validation failed. Please fix the following values:"
                    :: map (λ msg, StCaption ("- " +:+ msg)) errors) w1)).
  { subst out. unfold save_changes, state_original_df, get_world.
    rewrite !bind_run. rewrite Horig. unfold mret at 1, M_ret at 1.
    rewrite (bind_ok _ _ _ _ _ (frame_read_ok _ _ _ He)).
    rewrite (bind_ok _ _ _ _ _ (frame_read_ok _ _ _ Ho)).
    rewrite (bind_ok _ _ _ w0 changes_df) by reflexivity.
    rewrite (bind_ok _ _ _ _ _ (frame_read_ok _ _ _ Hc0)), Hne.
    unfold try_except. rewrite (bind_ok _ _ _ _ _ Hrun).
    rewrite bool_decide_eq_false_2 by done.
    rewrite bind_run.
    rewrite (bind_ok _ _ _ (set_page (w_page w1 ++ [StError "Validation failed. Please fix the following values:"]) w1) ())
      by reflexivity.
    rewrite bind_run, show_captions_run. unfold raise. cbn [is_Exception].
    f_equal. destruct w1 as [h t s c0 st p l tr]. world_norm.
    by rewrite <- app_assoc. }
  rewrite Hout. cbn [fst snd]. subst w1 w0.
  destruct w as [h t s c0 st p l tr]. world_norm.
  repeat split; try reflexivity.
  cbn [w_heap] in *. by rewrite lookup_insert_ne.
Qed.

End SaveHandler.

(** ** The properties at work on the reference configuration *)

Import Sample.




Lemma number_check_sign_insensitive_witness :
  check_number 10 2 (VInt 12345) = check_number 10 2 (VInt (-12345))
  ∧ check_number 10 2 (VText "1.234") = check_number 10 2 (VText "-1.234").
Proof.
  split.
  - apply (proj1 (number_check_sign_insensitive 10 2) (VInt 12345) (VInt (-12345))
             (Decimal.mk false [1; 2; 3; 4; 5]%nat (Decimal.ExpInt 0)));
      vm_compute; reflexivity.
  - apply (proj2 (number_check_sign_insensitive 10 2) "1.234"); reflexivity.
Defined.

Lemma validation_reads_only_witness :
  w_heap (snd (validate_changes_against_schema Sample.K 1%positive w_changes))
  = w_heap w_changes
  ∧ fst (validate_changes_against_schema Sample.K 1%positive
           (set_page [StInfo "No changes detected."] w_changes))
    = fst (validate_changes_against_schema Sample.K 1%positive w_changes).
Proof.
  destruct (validation_reads_only Sample.K 1%positive w_changes)
    as (Hheap & _ & _ & _ & _ & Hpure).
  split; [exact Hheap |]. apply Hpure; reflexivity.
Defined.


Lemma sample_labels_distinct : NoDup (Frame.columns snapshot).
Proof.
  apply (bool_decide_unpack (NoDup (Frame.columns snapshot))). vm_compute. exact I.
Defined.



(** C6 as stated fails on the code: after the table has lost its [CREATED]
    column, a load leaves the entry of the earlier load in the registry,
    although the tags computed for the new snapshot hold none. *)
Lemma registry_keeps_entry_of_earlier_load :
  (w_heap (snd (load_data_uncached Sample.K Sample.strptime w_table_replaced))
   !! 4%positive) ≫= (λ d, Some (Frame.columns d))
  = Some ["Order ID"; "Note"]
  ∧ w_column_tags (snd (load_data_uncached Sample.K Sample.strptime
                          (set_column_tags ∅ w_table_replaced))) !! "Created"
    = None
  ∧ w_column_tags (snd (load_data_uncached Sample.K Sample.strptime w_table_replaced))
    !! "Created"
    = Some (mkTag (Some "date") (Some (VDate (mkDate 2024 1 1)))
                  (Some (VDate (mkDate 2024 1 1)))).
Proof. split; [| split]; by vm_compute. Qed.

Lemma column_tags_accumulate_witness :
  w_column_tags (snd (load_data_uncached Sample.K Sample.strptime w_table_replaced))
  !! "Created"
  = w_column_tags w_table_replaced !! "Created".
Proof.
  apply (proj1 (proj2 (column_tags_accumulate Sample.strptime Sample.K 1%positive
                         w_table_replaced))).
  by vm_compute.
Defined.


(** C4 as stated fails on the code: the count returned is the number of
    staged rows, not the number of rows the update affects. The change to
    order 1 matches no row of a target holding order 7 only, the target is
    left as it was, and 1 is returned. *)
Lemma merge_changes_count_is_not_rows_affected :
  fst (merge_changes Sample.K 1%positive w_merge) = Ok 1
  ∧ (tbl_rows <$> sess_tables (w_session (snd (merge_changes Sample.K 1%positive w_merge)))
                  !! "SHOP.PUBLIC.STREAMLIT_TABLE_BASE_CHANGES")
    ≫= (λ staged, Some (rows_affected (pk_cols_db Sample.K) staged (tbl_rows orders)))
    = Some 0%nat
  ∧ sess_tables (w_session (snd (merge_changes Sample.K 1%positive w_merge)))
    !! Sample.orders_key
    = Some orders.
Proof. split; [| split]; by vm_compute. Qed.

Lemma merge_changes_count_witness :
  fst (merge_changes Sample.K 1%positive w_matching) = Ok 1
  ∧ length (sess_calls (w_session (snd (merge_changes Sample.K 1%positive w_matching))))
    = 2%nat
  ∧ rows_affected (pk_cols_db Sample.K)
      (tbl_rows (staged_table_of_frame
                   (mkFrame 1 [mkColumn "ORDER_ID" DInt64 [VInt 7];
                               mkColumn "AMOUNT" DString [VText "5.00"]])))
      (tbl_rows orders)
    = 1%nat.
Proof.
  destruct (merge_changes_count Sample.K 1%positive w_matching matching_change eq_refl)
    as (_ & Hrun & Hrows).
  destruct (Hrun eq_refl eq_refl eq_refl) as [Hret Hcalls].
  { exists orders. by vm_compute. }
  split; [exact Hret | split].
  - rewrite Hcalls. reflexivity.
  - apply (Hrows (tbl_rows orders)).
    + repeat constructor.
    + repeat constructor.
Defined.

Lemma validation_failure_aborts_save_witness :
  fst (save_changes Sample.K Sample.strptime detector log_builder 1%positive w_editing)
  = Raise StopException
  ∧ w_trace (snd (save_changes Sample.K Sample.strptime detector log_builder
                    1%positive w_editing)) = []
  ∧ sess_tables (w_session (snd (save_changes Sample.K Sample.strptime detector
                                   log_builder 1%positive w_editing)))
    = sess_tables (w_session w_editing)
  ∧ w_state (snd (save_changes Sample.K Sample.strptime detector log_builder
                    1%positive w_editing)) = w_state w_editing.
Proof.
  destruct (validation_failure_aborts_save Sample.K Sample.strptime detector
              log_builder 1%positive 2%positive w_editing changes changes
              ["Amount: value '1.234' has scale 3 but max is 2";
               "Order Status: max length is 1, received 'AB'"]
              eq_refl eq_refl eq_refl eq_refl)
    as (Hret & Htrace & _ & Htables & Hstate & _).
  - by vm_compute.
  - discriminate.
  - repeat split; assumption.
Defined.

(** The save that passes validation enters the four steps in order and
    reruns the script. *)
Example accepted_save_runs_all_steps :
  let out := save_changes Sample.K Sample.strptime detector log_builder
               1%positive w_editing_valid in
  fst out = Raise RerunException
  ∧ w_trace (snd out)
    = ["build_change_log"; "merge_changes"; "log_pending_changes"; "refresh_data"].
Proof. split; by vm_compute. Qed.

(** The two values of the specification's example under NUMBER(10,2). *)
Example number_10_2_examples :
  check_number 10 2 (VText "12.34") = Ok NumberOk
  ∧ check_number 10 2 (VText "1.234") = Ok (ScaleExceeded 3).
Proof. split; by vm_compute. Qed.

(** An infinity or a NaN passes the conversion and then fails the
    comparison of its exponent: the validator raises instead of reporting
    it. *)
Example non_finite_value_raises :
  check_number 10 2 (VText "Infinity") = Raise TypeError
  ∧ check_number 10 2 (VText "NaN") = Raise TypeError.
Proof. split; by vm_compute. Qed.

(* ===================================================================== *)
(** * Further properties of the code *)
(* ===================================================================== *)

Import Props.

(** ** The validator, continued *)

Section ValidatorMore.

Variable K : Constants.

Lemma unconstrained_column_step (r : loc) (metadata : list MetaRow)
    (col : string) (errors : list string) (w : World) :
  Props.unconstrained metadata col = true →
  validate_column r metadata col errors w = (Ok errors, w).
Proof.
  unfold Props.unconstrained, validate_column.
  destruct (meta_loc metadata _) as [row|]; [| reflexivity].
  destruct (is_char_dtype _).
  - intros H. apply bool_decide_eq_true in H. by rewrite H.
  - destruct (is_number_dtype _); [| reflexivity].
    intros H. apply bool_decide_eq_true in H. by rewrite H.
Qed.

Lemma unconstrained_loop (r : loc) (metadata : list MetaRow)
    (cols : list string) (errors : list string) (w : World) :
  Forall (λ col, Props.unconstrained metadata col = true) cols →
  validate_loop r metadata cols errors w = (Ok errors, w).
Proof.
  induction 1 as [|col rest Hcol _ IH]; [reflexivity |].
  cbn [validate_loop]. by rewrite bind_run, (unconstrained_column_step _ _ _ _ _ Hcol).
Qed.

(** X1. With nothing to check, the validator reports nothing: on an empty
    change set it returns the empty list without calling the store; when
    the store rejects the schema query its error propagates, with the query
    on the session's record; and when no column of the change set has a
    declared length or precision (no catalog row under its store name, a
    limit left undeclared, or a type that is neither character nor number)
    it returns the empty list after that one query. *)
Theorem validate_nothing_to_check (r : loc) (w : World) (d : DataFrame) :
  w_heap w !! r = Some d →
  let query := CallSql (schema_metadata_text K) in
  let metadata := sess_catalog (w_session w)
                    (qualified (DATABASE K) (SCHEMA K) (TABLE K)) in
  let asked := set_session
                 (set_calls (sess_calls (w_session w) ++ [query]) (w_session w)) w in
  (Frame.empty d = true →
   validate_changes_against_schema K r w = (Ok [], w))
  ∧ (Frame.empty d = false →
     sess_rejects (w_session w) query = true →
     validate_changes_against_schema K r w = (Raise (StoreError query), asked))
  ∧ (Frame.empty d = false →
     sess_rejects (w_session w) query = false →
     Forall (λ col, Props.unconstrained metadata col = true) (Frame.columns d) →
     validate_changes_against_schema K r w = (Ok [], asked)).
Proof.
  intros Hd query metadata asked.
  rewrite validate_changes_run, Hd. cbv zeta. fold query metadata asked.
  split; [| split].
  - by intros ->.
  - by intros -> ->.
  - intros -> -> Hall. case_bool_decide; [reflexivity |].
    by apply unconstrained_loop.
Qed.

Lemma number_loop_one_more (col : string) (p s : Z) (values : list value)
    (errors errors' : list string) :
  number_loop col p s values errors = Ok errors' →
  (length errors' ≤ S (length errors))%nat.
Proof.
  induction values as [|v rest IH]; simpl.
  - intros [= <-]. lia.
  - destruct (check_number p s v) as [verdict|e]; simpl; [| discriminate].
    destruct (number_message col p s v verdict) as [msg|].
    + intros [= <-]. rewrite length_app. simpl. lia.
    + exact IH.
Qed.

Lemma validate_column_one_more (r : loc) (metadata : list MetaRow)
    (col : string) (errors errors' : list string) (w w' : World) :
  validate_column r metadata col errors w = (Ok errors', w') →
  (length errors' ≤ S (length errors))%nat.
Proof.
  unfold validate_column.
  destruct (meta_loc metadata _) as [row|]; [| intros [= <- _]; lia].
  destruct (is_char_dtype _).
  - destruct (CHARACTER_MAXIMUM_LENGTH row); [| intros [= <- _]; lia].
    rewrite bind_run.
    destruct (frame_getitem r col w) as [[c|e] w1]; [| discriminate].
    destruct (too_long _ _); intros [= <- _]; rewrite ?length_app; simpl; lia.
  - destruct (is_number_dtype _); [| intros [= <- _]; lia].
    destruct (NUMERIC_PRECISION row); [| intros [= <- _]; lia].
    rewrite bind_run.
    destruct (frame_getitem r col w) as [[c|e] w1]; [| discriminate].
    unfold lift. intros [= Hloop _]. eapply number_loop_one_more, Hloop.
Qed.

Lemma validate_loop_bound (r : loc) (metadata : list MetaRow)
    (cols : list string) (errors errors' : list string) (w w' : World) :
  validate_loop r metadata cols errors w = (Ok errors', w') →
  (length errors' ≤ length errors + length cols)%nat.
Proof.
  revert errors w. induction cols as [|col rest IH]; intros errors w; simpl.
  - intros [= <- _]. lia.
  - rewrite bind_run.
    destruct (validate_column r metadata col errors w) as [[e1|x] w1] eqn:E;
      [| discriminate].
    intros H. apply IH in H. apply validate_column_one_more in E. lia.
Qed.

(** X2. The validator reports at most one message per column of the change
    set: the loop over the values of a column stops at its first offending
    value. *)
Theorem validate_one_message_per_column (r : loc) (w w' : World) (d : DataFrame)
    (errors : list string) :
  w_heap w !! r = Some d →
  validate_changes_against_schema K r w = (Ok errors, w') →
  (length errors ≤ length (df_cols d))%nat.
Proof.
  intros Hd. rewrite validate_changes_run, Hd.
  destruct (Frame.empty d); [intros [= <- _]; simpl; lia |].
  cbv zeta. destruct (sess_rejects _ _); [discriminate |].
  case_bool_decide as Hmeta; [intros [= <- _]; simpl; lia |].
  intros Hrun. apply validate_loop_bound in Hrun.
  unfold Frame.columns in Hrun. rewrite length_map in Hrun. simpl in Hrun. lia.
Qed.


Lemma number_loop_non_finite (col : string) (p s : Z) (good rest : list value)
    (v : value) (dec : Decimal.t) (errors : list string) :
  Forall (λ u, check_number p s u = Ok NumberOk) good →
  Decimal.of_string (py_str v) = Some dec →
  Decimal.is_finite dec = false →
  number_loop col p s (good ++ v :: rest) errors = Raise TypeError.
Proof.
  intros Hgood Hv Hinf. induction Hgood as [|u good Hu _ IH]; simpl.
  - unfold check_number. rewrite Hv. unfold Decimal.is_finite in Hinf. simpl.
    by destruct (Decimal.exponent dec).
  - by rewrite Hu.
Qed.

Lemma validate_loop_never_returns (r : loc) (metadata : list MetaRow)
    (col : string) (e : exn) (w : World) :
  (∀ errors, validate_column r metadata col errors w = (Raise e, w)) →
  ∀ cols errors errors' w',
    col ∈ cols →
    validate_loop r metadata cols errors w ≠ (Ok errors', w').
Proof.
  intros Hcol cols. induction cols as [|c rest IH]; intros errors errors' w' Hin.
  - by apply elem_of_nil in Hin.
  - cbn [validate_loop]. rewrite bind_run.
    destruct (decide (c = col)) as [->|Hne].
    + by rewrite Hcol.
    + apply elem_of_cons in Hin as [->|Hin]; [done |].
      pose proof (validate_column_world r metadata c errors w) as Hw.
      destruct (validate_column r metadata c errors w) as [[e1|x] w1];
        simpl in Hw; subst w1; [| discriminate].
      by apply IH.
Qed.

Lemma check_number_type_error (p s : Z) (v : value) (e : exn) :
  check_number p s v = Raise e → e = TypeError.
Proof.
  unfold check_number. destruct (Decimal.of_string (py_str v)) as [d|]; [| discriminate].
  destruct (Decimal.exponent (Decimal.copy_abs d)); cbn;
    repeat case_match; first [discriminate | by intros [= <-]].
Qed.

Lemma number_loop_type_error (col : string) (p s : Z) (values : list value)
    (errors : list string) (e : exn) :
  number_loop col p s values errors = Raise e → e = TypeError.
Proof.
  induction values as [|v rest IH]; cbn [number_loop]; [discriminate |].
  destruct (check_number p s v) as [verdict|e'] eqn:Hv; cbn.
  - destruct (number_message col p s v verdict); [discriminate | exact IH].
  - intros [= <-]. by apply check_number_type_error in Hv.
Qed.

Lemma validate_column_type_error (r : loc) (metadata : list MetaRow) (col : string)
    (errors : list string) (w : World) (d : DataFrame) (e : exn) :
  w_heap w !! r = Some d →
  col ∈ Frame.columns d →
  fst (validate_column r metadata col errors w) = Raise e → e = TypeError.
Proof.
  intros Hd Hin. destruct (getitem_in_columns d col Hin) as [c Hc].
  unfold validate_column.
  destruct (meta_loc metadata _) as [row|]; [| discriminate].
  destruct (is_char_dtype _).
  - destruct (CHARACTER_MAXIMUM_LENGTH row); [| discriminate].
    rewrite bind_run, (frame_getitem_run _ _ _ _ Hd), Hc.
    by destruct (too_long _ _).
  - destruct (is_number_dtype _); [| discriminate].
    destruct (NUMERIC_PRECISION row); [| discriminate].
    rewrite bind_run, (frame_getitem_run _ _ _ _ Hd), Hc.
    unfold lift. cbn [fst]. apply number_loop_type_error.
Qed.

Lemma validate_loop_type_error (r : loc) (metadata : list MetaRow) (cols : list string)
    (errors : list string) (w : World) (d : DataFrame) (e : exn) :
  w_heap w !! r = Some d →
  cols ⊆ Frame.columns d →
  fst (validate_loop r metadata cols errors w) = Raise e → e = TypeError.
Proof.
  intros Hd. revert errors. induction cols as [|col rest IH]; intros errors Hsub;
    cbn [validate_loop]; [discriminate |].
  rewrite bind_run.
  pose proof (validate_column_world r metadata col errors w) as Hw.
  pose proof (validate_column_type_error r metadata col errors w d e Hd) as Hcol.
  destruct (validate_column r metadata col errors w) as [[e1|x] w1];
    cbn [fst snd] in *; subst w1.
  - apply IH. intros c Hc. apply Hsub. by right.
  - intros [= <-]. apply Hcol; [| reflexivity]. apply Hsub. left.
Qed.

(** X3. A value that reads as a decimal without being finite (an infinity
    or a NaN) in a column with a declared precision is not reported: once
    the values before it have passed, the column's check raises
    [TypeError]; and on a non-empty change set whose schema query the store
    answers, the validator as a whole raises [TypeError] instead of
    returning a list, whatever the other columns hold. *)
Theorem non_finite_number_raises (r : loc) (w : World) (d : DataFrame)
    (c : Column) (row : MetaRow) (p : Z) (good rest : list value) (v : value)
    (dec : Decimal.t) :
  w_heap w !! r = Some d →
  Frame.getitem d (col_name c) = Some c →
  meta_loc (sess_catalog (w_session w) (qualified (DATABASE K) (SCHEMA K) (TABLE K)))
           (_db_col_name (col_name c)) = Some row →
  is_number_dtype (Py.upper (DATA_TYPE row)) = true →
  NUMERIC_PRECISION row = Some p →
  Frame.dropna (col_values c) = good ++ v :: rest →
  Forall (λ u, check_number p (default 0 (NUMERIC_SCALE row)) u = Ok NumberOk) good →
  Decimal.of_string (py_str v) = Some dec →
  Decimal.is_finite dec = false →
  let metadata := sess_catalog (w_session w) (qualified (DATABASE K) (SCHEMA K) (TABLE K)) in
  (∀ errors cols,
      validate_loop r metadata (col_name c :: cols) errors w = (Raise TypeError, w))
  ∧ (Frame.empty d = false →
     sess_rejects (w_session w) (CallSql (schema_metadata_text K)) = false →
     fst (validate_changes_against_schema K r w) = Raise TypeError).
Proof.
  intros Hd Hc Hrow Hnum Hp Hvals Hgood Hv Hinf metadata.
  assert (Hstep : ∀ w0 errors, w_heap w0 !! r = Some d →
            validate_column r metadata (col_name c) errors w0 = (Raise TypeError, w0)).
  { intros w0 errors Hd0. unfold validate_column. fold metadata in Hrow.
    rewrite Hrow, (number_dtype_not_char _ Hnum), Hnum, Hp, bind_run,
      (frame_getitem_run _ _ _ _ Hd0), Hc.
    unfold lift. by rewrite Hvals, (number_loop_non_finite _ _ _ _ _ _ _ _ Hgood Hv Hinf). }
  split.
  - intros errors cols. cbn [validate_loop]. by rewrite bind_run, (Hstep w errors Hd).
  - intros Hne Hacc. rewrite validate_changes_run, Hd, Hne. cbv zeta.
    rewrite Hacc. fold metadata.
    case_bool_decide as Hmeta.
    { subst metadata. rewrite Hmeta in Hrow. discriminate. }
    set (w1 := set_session _ w).
    assert (Hd1 : w_heap w1 !! r = Some d) by (subst w1; by destruct w).
    destruct (validate_loop r metadata (Frame.columns d) [] w1) as [[errors'|e] w'] eqn:Hrun.
    + exfalso.
      apply (validate_loop_never_returns r metadata (col_name c) TypeError w1
               (λ errors, Hstep w1 errors Hd1) (Frame.columns d) [] errors' w');
        [| exact Hrun].
      destruct (getitem_name _ _ _ Hc) as [_ Hin].
      unfold Frame.columns. apply list_elem_of_fmap. eauto.
    + cbn [fst]. f_equal.
      apply (validate_loop_type_error r metadata (Frame.columns d) [] w1 d e Hd1);
        [done | by rewrite Hrun].
Qed.

(** X4. Widening a NUMBER constraint never rejects a value it accepted: a
    value accepted under NUMBER(p,s) is accepted under NUMBER(p',s') as
    soon as the scale and the number of integer places do not shrink. *)
Theorem check_number_widening (p s p' s' : Z) (v : value) :
  check_number p s v = Ok NumberOk →
  s ≤ s' →
  p - s ≤ p' - s' →
  check_number p' s' v = Ok NumberOk.
Proof.
  unfold check_number.
  destruct (Decimal.of_string (py_str v)) as [d|]; [| discriminate].
  destruct (Decimal.exponent (Decimal.copy_abs d)) as [e| | |]; simpl;
    try discriminate.
  unfold mbind, outcome_bind. cbv zeta.
  intros H Hs Hp.
  destruct (0 <=? e) eqn:He;
    destruct (s <? _) eqn:Hscale; try discriminate;
    destruct (_ || _) eqn:Hprec; try discriminate;
    apply Z.ltb_ge in Hscale;
    apply orb_false_iff in Hprec as [Hint Htotal];
    apply Z.ltb_ge in Hint, Htotal;
    repeat match goal with
           | |- context [?a <? ?b] => rewrite (proj2 (Z.ltb_ge a b)) by lia
           end;
    reflexivity.
Qed.

End ValidatorMore.

(** ** Display labels and store names *)

Lemma upper_char_idemp (c : ascii) : Py.upper_char (Py.upper_char c) = Py.upper_char c.
Proof. by destruct c as [[] [] [] [] [] [] [] []]. Qed.

Lemma upper_lower_char (c : ascii) : Py.upper_char (Py.lower_char c) = Py.upper_char c.
Proof. by destruct c as [[] [] [] [] [] [] [] []]. Qed.

Lemma map_chars_app (f : ascii → ascii) (a b : string) :
  Py.map_chars f (a +:+ b) = Py.map_chars f a +:+ Py.map_chars f b.
Proof. induction a as [|c a IH]; simpl; [reflexivity | by rewrite IH]. Qed.

Lemma map_chars_join (f : ascii → ascii) (sep : string) (parts : list string) :
  Py.map_chars f (Py.join sep parts)
  = Py.join (Py.map_chars f sep) (map (Py.map_chars f) parts).
Proof.
  induction parts as [|p rest IH]; [reflexivity |].
  destruct rest as [|q rest]; [reflexivity |].
  change (Py.join sep (p :: q :: rest)) with (p +:+ sep +:+ Py.join sep (q :: rest)).
  rewrite !map_chars_app, IH. reflexivity.
Qed.

Lemma split_nonempty (sep : ascii) (s : string) : Py.split sep s ≠ [].
Proof.
  destruct s as [|c r]; simpl; [done |].
  destruct (Ascii.eqb c sep); [done |]. by destruct (Py.split sep r).
Qed.

Lemma join_split (sep : ascii) (s : string) :
  Py.join (String sep "") (Py.split sep s) = s.
Proof.
  induction s as [|c r IH]; [reflexivity |].
  cbn [Py.split]. pose proof (split_nonempty sep r) as Hne.
  destruct (Ascii.eqb c sep) eqn:E.
  - apply Ascii.eqb_eq in E. subst c.
    destruct (Py.split sep r) as [|w ws]; [done |].
    change (Py.join (String sep "") ("" :: w :: ws))
      with (String sep (Py.join (String sep "") (w :: ws))).
    by rewrite IH.
  - destruct (Py.split sep r) as [|w ws]; [done |].
    rewrite <- IH. by destruct ws.
Qed.

Lemma upper_lower (s : string) : Py.upper (Py.lower s) = Py.upper s.
Proof.
  induction s as [|c r IH]; [reflexivity |].
  cbn. f_equal; [apply upper_lower_char | exact IH].
Qed.

Lemma upper_capitalize (s : string) : Py.upper (Py.capitalize s) = Py.upper s.
Proof.
  destruct s as [|c r]; [reflexivity |].
  cbn. f_equal; [apply upper_char_idemp | apply upper_lower].
Qed.

Lemma upper_display_word (word : string) :
  Py.upper (if String.eqb (Py.lower word) "id" then "ID" else Py.capitalize word)
  = Py.upper word.
Proof.
  destruct (String.eqb (Py.lower word) "id") eqn:E; [| apply upper_capitalize].
  apply String.eqb_eq in E. by rewrite <- (upper_lower word), E.
Qed.

Lemma store_native_fixed (name : string) :
  Props.store_native name = true → _db_col_name name = name.
Proof.
  unfold Props.store_native, _db_col_name, Py.replace_char, Py.upper.
  induction name as [|c r IH]; [reflexivity |].
  cbn [list_ascii_of_string forallb Py.map_chars]. intros H.
  apply andb_prop in H as [Hc Hr]. apply andb_prop in Hc as [Hlow Hblank].
  rewrite (IH Hr). unfold Py.upper_char.
  apply negb_true_iff in Hlow, Hblank. by rewrite Hlow, Hblank.
Qed.

Lemma db_col_name_format_col (col : string) :
  _db_col_name (format_col col) = _db_col_name col.
Proof.
  unfold _db_col_name, format_col, Py.replace_char, Py.upper.
  rewrite <- (join_split "_" col) at 2.
  rewrite !map_chars_join, !map_map.
  change (Py.map_chars _ (Py.map_chars Py.upper_char " ")) with "_".
  change (Py.map_chars _ (Py.map_chars Py.upper_char "_")) with "_".
  f_equal. apply map_ext. intros word.
  f_equal. apply upper_display_word.
Qed.



(** ** The pending log *)

(** Running a computation on a world given by its fields. *)

Ltac run_cbv :=
  cbv [mbind M_bind mret M_ret frame_read frame_alloc frame_write modify
       get_world session_call update_tables raise lift
       set_heap set_column_tags set_session set_cache set_state set_page
       set_log set_trace w_heap w_column_tags w_session w_cache
       w_state w_page w_log w_trace set_calls set_tables sess_tables
       sess_catalog sess_rejects sess_now sess_user sess_calls fst snd].

Ltac same_text :=
  lazymatch goal with
  | |- ?lhs = (if _ (CallSql ?e) then _ else _) =>
      match lhs with
      | context [CallSql ?x] => unify e x
      end
  end.

Lemma append_inv_head (a b c : string) : a +:+ b = a +:+ c → b = c.
Proof. induction a as [|x a IH]; simpl; [done |]. intros [= H]. by apply IH. Qed.

Lemma qualified_inj (database schema t1 t2 : string) :
  qualified database schema t1 = qualified database schema t2 → t1 = t2.
Proof.
  unfold qualified. intros H.
  repeat (apply append_inv_head in H). exact H.
Qed.

Section PendingLog.

Variable K : Constants.

Lemma log_pending_changes_run :
  ∃ create insert : string,
  ∀ (r : loc) (w : World) (d : DataFrame),
  w_heap w !! r = Some d →
  let r' := fresh (dom (w_heap w)) in
  let w1 := set_heap (<[r' := d]> (w_heap w)) w in
  let stage := qualified (DATABASE K) (SCHEMA K) (PENDING_STAGE_TABLE K) in
  let pending := qualified (DATABASE K) (SCHEMA K) (PENDING_TABLE K) in
  let s := w_session w in
  let c1 := CallWritePandas stage d in
  let c2 := CallSql create in
  let c3 := CallSql insert in
  let tables1 := <[stage := staged_table_of_frame d]> (sess_tables s) in
  let tables2 := match tables1 !! pending with
                 | Some _ => tables1
                 | None => <[pending := mkTable (pending_columns (pk_cols_db K)) []]> tables1
                 end in
  log_pending_changes K r w =
  if Frame.empty d then (Ok 0, w1)
  else if sess_rejects s c1
  then (Raise (StoreError c1), set_session (set_calls (sess_calls s ++ [c1]) s) w1)
  else if sess_rejects s c2
  then (Raise (StoreError c2),
        set_session (set_tables tables1 (set_calls (sess_calls s ++ [c1; c2]) s)) w1)
  else if sess_rejects s c3
  then (Raise (StoreError c3),
        set_session (set_tables tables2 (set_calls (sess_calls s ++ [c1; c2; c3]) s)) w1)
  else
    match tables2 !! pending, tables2 !! stage with
    | Some t, Some src =>
        (Ok (Z.of_nat (df_len d)),
         set_session
           (set_tables
              (<[pending := mkTable (tbl_cols t)
                              (tbl_rows t ++ map (pending_row (pk_cols_db K) s) (tbl_rows src))]>
                 tables2)
              (set_calls (sess_calls s ++ [c1; c2; c3]) s)) w1)
    | _, _ =>
        (Raise (StoreError c3),
         set_session (set_tables tables2 (set_calls (sess_calls s ++ [c1; c2; c3]) s)) w1)
    end.
Proof.
  eexists _, _. intros r w d Hd.
  destruct w as [h t s c0 st p l tr]. destruct s as [tabs cat rej now user calls].
  cbn [w_heap] in Hd.
  unfold log_pending_changes, session_write_pandas, ensure_pending_table_exists,
    session_create_if_missing, session_insert_select.
  run_cbv. rewrite Hd. run_cbv. rewrite !lookup_insert_eq. run_cbv.
  destruct (Frame.empty d); [reflexivity |].
  rewrite ?lookup_insert_eq. run_cbv.
  destruct (rej (CallWritePandas _ d)); [reflexivity |].
  run_cbv. same_text.
  destruct (rej (CallSql _)); [rewrite <- !app_assoc; cbn [app]; reflexivity |].
  run_cbv. same_text.
  destruct (rej (CallSql _)); [rewrite <- !app_assoc; cbn [app]; reflexivity |].
  run_cbv. rewrite <- !app_assoc. cbn [app].
  set (tables1 := <[qualified _ _ (PENDING_STAGE_TABLE K) := _]> tabs).
  set (tables2 := match tables1 !! _ with Some _ => tables1 | None => _ end).
  destruct (tables2 !! qualified _ _ (PENDING_TABLE K)) as [tp|]; [| reflexivity].
  destruct (tables2 !! qualified _ _ (PENDING_STAGE_TABLE K)) as [ts|]; [| reflexivity].
  run_cbv. rewrite !lookup_insert_eq. reflexivity.
Qed.


End PendingLog.

(** ** The merge, continued *)

Lemma foldl_insert_lookup {V} (f : string → V) (cols : list string)
    (prd : gmap string V) (c : string) :
  foldl (λ r c, <[c := f c]> r) prd cols !! c
  = if decide (c ∈ cols) then Some (f c) else prd !! c.
Proof.
  revert prd. induction cols as [|x xs IH]; intros prd; cbn [foldl].
  - rewrite decide_False; [reflexivity | apply not_elem_of_nil].
  - rewrite IH. destruct (decide (c ∈ xs)) as [Hin|Hout].
    + rewrite decide_True; [reflexivity | by right].
    + destruct (decide (c = x)) as [->|Hne].
      * rewrite lookup_insert_eq, decide_True; [reflexivity | left].
      * rewrite lookup_insert_ne by done.
        rewrite decide_False; [reflexivity |].
        intros [?|?]%elem_of_cons; done.
Qed.

Lemma apply_set_lookup (set_cols : list string) (lock : option string)
    (now : Timestamp) (src prd : gmap string value) (c : string) :
  apply_set set_cols lock now src prd !! c
  = if decide (lock = Some c) then Some (VTime now)
    else if decide (c ∈ set_cols) then Some (default VNull (src !! c))
    else prd !! c.
Proof.
  unfold apply_set. destruct lock as [l|].
  - destruct (decide (Some l = Some c)) as [[= ->]|Hne].
    + apply lookup_insert_eq.
    + rewrite lookup_insert_ne by congruence.
      apply (foldl_insert_lookup (λ c, default VNull (src !! c))).
  - rewrite decide_False by done.
    apply (foldl_insert_lookup (λ c, default VNull (src !! c))).
Qed.

Section MergeMore.

Variable K : Constants.

Lemma lock_passed : (if truthy (lock_col K) then lock_col K else None) = lock_col K.
Proof.
  destruct (lock_col K) as [L|] eqn:E; [| reflexivity].
  pose proof (truthy_lock_col K L E) as H. rewrite E in H. by rewrite H.
Qed.


(** X8. Failures of a merge: when the store rejects the staging write, its
    error is raised, no table is changed and the merge statement is never
    sent; when it rejects the merge statement, or the target does not
    exist, the error is raised after both calls and the only change to the
    store is the staging table, which is left behind. *)
Theorem merge_changes_failure (r : loc) (w : World) (d : DataFrame) :
  w_heap w !! r = Some d →
  Frame.empty d = false →
  let cols := map to_db_name (Frame.columns d) in
  let staged := {| df_len := df_len d;
                   df_cols := map (λ c, mkColumn (to_db_name (col_name c))
                                                 (col_dtype c) (col_values c))
                                  (df_cols d) |} in
  let stage := qualified (DATABASE K) (SCHEMA K) BASE_MERGE_STAGE_TABLE in
  let write := CallWritePandas stage staged in
  let merge := CallSql (merge_sql K cols) in
  let target := qualified (DATABASE K) (SCHEMA K) (TABLE K) in
  let out := merge_changes K r w in
  (sess_rejects (w_session w) write = true →
   fst out = Raise (StoreError write)
   ∧ sess_tables (w_session (snd out)) = sess_tables (w_session w)
   ∧ sess_calls (w_session (snd out)) = sess_calls (w_session w) ++ [write])
  ∧ (sess_rejects (w_session w) write = false →
     sess_rejects (w_session w) merge = true
     ∨ (sess_tables (w_session w) !! target = None ∧ TABLE K ≠ BASE_MERGE_STAGE_TABLE) →
     fst out = Raise (StoreError merge)
     ∧ sess_tables (w_session (snd out))
       = <[stage := staged_table_of_frame staged]> (sess_tables (w_session w))
     ∧ sess_calls (w_session (snd out)) = sess_calls (w_session w) ++ [write; merge]).
Proof.
  intros Hd Hne cols staged stage write merge target out.
  pose proof (merge_changes_run K r w d Hd) as Hrun. cbv zeta in Hrun.
  rewrite renamed_columns in Hrun. fold cols staged stage write merge target in Hrun.
  rewrite Hne in Hrun. subst out. rewrite Hrun. clear Hrun.
  destruct w as [h tg s c0 st p l tr]. destruct s as [tabs cat rej now user calls].
  run_cbv. split.
  - intros ->. by repeat split.
  - intros -> [-> | [Hnone Hdiff]]; [by repeat split |].
    assert (Hq : target ≠ stage).
    { intros Heq. apply Hdiff. by apply qualified_inj in Heq. }
    destruct (rej merge); [by repeat split |].
    rewrite lookup_insert_ne, Hnone by done. by repeat split.
Qed.

End MergeMore.

Section WriteBackCopies.

Variable K : Constants.

(** X21. The write-back works on copies: neither [merge_changes] nor
    [log_pending_changes] changes a frame that existed before the call,
    whatever the outcome; the frame they are given keeps its cells and its
    display labels (the renaming to store names is done on a copy), and
    [column_tags] and the load cache are untouched. *)
Theorem write_back_works_on_copies (r : loc) (w : World) (d : DataFrame) :
  w_heap w !! r = Some d →
  let merged := snd (merge_changes K r w) in
  let logged := snd (log_pending_changes K r w) in
  (∀ r0 d0, w_heap w !! r0 = Some d0 →
            w_heap merged !! r0 = Some d0 ∧ w_heap logged !! r0 = Some d0)
  ∧ w_column_tags merged = w_column_tags w
  ∧ w_cache merged = w_cache w
  ∧ w_column_tags logged = w_column_tags w
  ∧ w_cache logged = w_cache w.
Proof.
  intros Hd merged logged.
  pose proof (merge_changes_run K r w d Hd) as Hmerge. cbv zeta in Hmerge.
  destruct (log_pending_changes_run K) as (create & insert & Hlog).
  specialize (Hlog r w d Hd). cbv zeta in Hlog.
  subst merged logged. rewrite Hmerge, Hlog. clear Hmerge Hlog.
  assert (Hfresh : w_heap w !! fresh (dom (w_heap w)) = None)
    by apply not_elem_of_dom, is_fresh.
  destruct w as [h tg s c0 st p l tr]. cbn [w_heap] in *.
  assert (Hkeep : ∀ (x : DataFrame) r0 d0, h !! r0 = Some d0 →
            <[fresh (dom h) := x]> h !! r0 = Some d0).
  { intros x r0 d0 H0. rewrite lookup_insert_ne; [exact H0 | congruence]. }
  split.
  - intros r0 d0 H0.
    repeat match goal with
           | |- context [if ?b then _ else _] => destruct b
           | |- context [match ?o with Some _ => _ | None => _ end] => destruct o
           end;
      run_cbv; split; by apply Hkeep.
  - repeat match goal with
           | |- context [if ?b then _ else _] => destruct b
           | |- context [match ?o with Some _ => _ | None => _ end] => destruct o
           end;
      run_cbv; by repeat split.
Qed.

End WriteBackCopies.

(** ** Loading and refreshing *)

Section Loading.

Variable K : Constants.
Variable strptime : string → string → option Timestamp.

Lemma session_select_all_run (text table : string) (w : World) :
  session_select_all text table w =
  let s := w_session w in
  let w' := set_session (set_calls (sess_calls s ++ [CallSql text]) s) w in
  if sess_rejects s (CallSql text) then (Raise (StoreError (CallSql text)), w')
  else match sess_tables s !! table with
       | Some t =>
           (Ok (fresh (dom (w_heap w))),
            set_heap (<[fresh (dom (w_heap w)) := frame_of_table t]> (w_heap w)) w')
       | None => (Raise (StoreError (CallSql text)), w')
       end.
Proof.
  destruct w as [h tg s c0 st p l tr]. destruct s as [tabs cat rej now user calls].
  unfold session_select_all. run_cbv.
  destruct (rej (CallSql text)); [reflexivity |]. run_cbv.
  destruct (tabs !! table); reflexivity.
Qed.

Lemma clean_column_names_run (r : loc) (w : World) (d : DataFrame) :
  w_heap w !! r = Some d →
  clean_column_names r w
  = (Ok r,
     set_heap
       (<[r := {| df_len := df_len d;
                  df_cols := map (λ c, mkColumn (format_col (col_name c)) (col_dtype c)
                                                (col_values c)) (df_cols d) |}]>
          (w_heap w)) w).
Proof.
  intros Hd. unfold clean_column_names.
  rewrite (bind_ok _ _ _ _ _ (frame_read_ok _ _ _ Hd)).
  by rewrite set_columns_same_length.
Qed.

Lemma load_data_uncached_run (w : World) (t : Table) :
  let s := w_session w in
  let query := CallSql (select_all_text K) in
  sess_rejects s query = false →
  sess_tables s !! qualified (DATABASE K) (SCHEMA K) (TABLE K) = Some t →
  let r1 := fresh (dom (w_heap w)) in
  let raw := frame_of_table t in
  let shown := {| df_len := df_len raw;
                  df_cols := map (λ c, mkColumn (format_col (col_name c)) (col_dtype c)
                                                (col_values c)) (df_cols raw) |} in
  let heap1 := <[r1 := shown]> (w_heap w) in
  let r2 := fresh (dom heap1) in
  ∃ d' tags',
    load_data_uncached K strptime w
    = (Ok r2,
       set_column_tags tags'
         (set_heap (<[r2 := d']> heap1)
            (set_session (set_calls (sess_calls s ++ [query]) s) w)))
    ∧ Spec.same_shape shown d'.
Proof.
  intros s query Hacc Ht r1 raw shown heap1 r2.
  set (w1 := set_heap (<[r1 := raw]> (w_heap w))
               (set_session (set_calls (sess_calls s ++ [query]) s) w)).
  set (w2 := set_heap heap1 (set_session (set_calls (sess_calls s ++ [query]) s) w)).
  assert (H1 : session_select_all (select_all_text K)
                 (qualified (DATABASE K) (SCHEMA K) (TABLE K)) w = (Ok r1, w1)).
  { rewrite session_select_all_run. cbv zeta. fold s query. by rewrite Hacc, Ht. }
  assert (H2 : clean_column_names r1 w1 = (Ok r1, w2)).
  { rewrite (clean_column_names_run r1 w1 raw).
    - subst w1 w2 heap1. destruct w as [h tg s0 c0 st p l tr]. run_cbv.
      by rewrite insert_insert_eq.
    - subst w1. destruct w. apply lookup_insert_eq. }
  assert (Hd2 : w_heap w2 !! r1 = Some shown).
  { subst w2 heap1. destruct w. apply lookup_insert_eq. }
  destruct (auto_convert_dtypes_run strptime r1 w2 shown Hd2)
    as (d' & tags' & Hrun & _ & Hshape & _).
  exists d', tags'. split; [| exact Hshape].
  unfold load_data_uncached.
  rewrite (bind_ok _ _ _ _ _ H1), (bind_ok _ _ _ _ _ H2), (bind_ok _ _ _ _ _ Hrun).
  subst w2 heap1 r2. destruct w as [h tg s0 c0 st p l tr]. reflexivity.
Qed.

Lemma load_data_uncached_fails (w : World) :
  let s := w_session w in
  let query := CallSql (select_all_text K) in
  sess_rejects s query = true
  ∨ sess_tables s !! qualified (DATABASE K) (SCHEMA K) (TABLE K) = None →
  load_data_uncached K strptime w
  = (Raise (StoreError query), set_session (set_calls (sess_calls s ++ [query]) s) w).
Proof.
  intros s query Hfail. unfold load_data_uncached.
  rewrite bind_run, session_select_all_run. cbv zeta. fold s query.
  destruct Hfail as [-> | ->]; [reflexivity |].
  by destruct (sess_rejects s query).
Qed.

Lemma shown_frame_shape (t : Table) (d' : DataFrame) :
  let raw := frame_of_table t in
  Spec.same_shape
    {| df_len := df_len raw;
       df_cols := map (λ c, mkColumn (format_col (col_name c)) (col_dtype c)
                                     (col_values c)) (df_cols raw) |} d' →
  Frame.columns d' = map (λ c, format_col (fst c)) (tbl_cols t)
  ∧ df_len d' = length (tbl_rows t).
Proof.
  intros raw Hshape. split.
  - rewrite (same_shape_columns _ _ Hshape). unfold Frame.columns, raw, frame_of_table.
    cbn [df_cols]. rewrite !map_map. apply map_ext. by intros [n ty].
  - by destruct Hshape as [-> _].
Qed.

Lemma second_fresh (h : gmap loc DataFrame) (d : DataFrame) :
  h !! fresh (dom (<[fresh (dom h) := d]> h)) = None.
Proof.
  set (r1 := fresh (dom h)). set (r2 := fresh (dom (<[r1 := d]> h))).
  assert (Hr2 : <[r1 := d]> h !! r2 = None) by apply not_elem_of_dom, is_fresh.
  destruct (decide (r2 = r1)) as [Heq|Hne].
  - rewrite Heq, lookup_insert_eq in Hr2. discriminate.
  - by rewrite lookup_insert_ne in Hr2.
Qed.


Lemma load_data_run (w : World) :
  load_data K strptime w =
  match w_cache w with
  | Some d =>
      (Ok (fresh (dom (w_heap w))),
       set_heap (<[fresh (dom (w_heap w)) := d]> (w_heap w)) w)
  | None =>
      match load_data_uncached K strptime w with
      | (Ok df, w') =>
          match w_heap w' !! df with
          | Some d => (Ok df, set_cache (Some d) w')
          | None => (Raise (KeyError "dangling frame"), w')
          end
      | (Raise e, w') => (Raise e, w')
      end
  end.
Proof.
  unfold load_data, get_world. rewrite bind_run.
  destruct (w_cache w) as [d|]; [reflexivity |].
  rewrite bind_run. destruct (load_data_uncached K strptime w) as [[df|e] w']; [| reflexivity].
  rewrite bind_run. unfold frame_read.
  destruct (w_heap w' !! df); reflexivity.
Qed.

(** X10. The cache of [load_data]: a load that missed the cache and
    succeeded leaves its result in the cache, and as long as that entry is
    there every later load hands out a new frame object with the same
    content, without calling the store, without touching the tag registry
    or any existing frame. *)
Theorem load_data_serves_from_cache (w w1 : World) (r1 : loc) :
  w_cache w = None →
  load_data K strptime w = (Ok r1, w1) →
  ∃ d : DataFrame,
    w_heap w1 !! r1 = Some d
    ∧ w_cache w1 = Some d
    ∧ ∀ w2 : World,
        w_cache w2 = Some d →
        let out := load_data K strptime w2 in
        ∃ r2 : loc,
          fst out = Ok r2
          ∧ w_heap w2 !! r2 = None
          ∧ w_heap (snd out) !! r2 = Some d
          ∧ (∀ r0 d0, w_heap w2 !! r0 = Some d0 → w_heap (snd out) !! r0 = Some d0)
          ∧ w_session (snd out) = w_session w2
          ∧ w_column_tags (snd out) = w_column_tags w2
          ∧ w_cache (snd out) = Some d.
Proof.
  intros Hmiss Hload. rewrite load_data_run, Hmiss in Hload.
  destruct (load_data_uncached K strptime w) as [[df|e] w'] eqn:Hbody; [| discriminate].
  destruct (w_heap w' !! df) as [d|] eqn:Hd; [| discriminate].
  injection Hload as <- <-. exists d.
  split; [by destruct w' |]. split; [by destruct w' |].
  intros w2 Hhit out. subst out. rewrite load_data_run, Hhit.
  set (r2 := fresh (dom (w_heap w2))).
  assert (Hr2 : w_heap w2 !! r2 = None) by apply not_elem_of_dom, is_fresh.
  exists r2. cbn [fst snd].
  split; [reflexivity |]. split; [exact Hr2 |].
  destruct w2 as [h tg s c0 st p l tr]. run_cbv. cbn [w_heap w_cache] in *.
  split; [apply lookup_insert_eq |].
  split; [| done].
  intros r0 d0 H0. rewrite lookup_insert_ne; [exact H0 | congruence].
Qed.

Lemma refresh_data_run (w : World) :
  refresh_data K strptime w =
  match load_data K strptime (set_cache None w) with
  | (Ok df, w') =>
      (Ok (), set_state (mkState (Some df) (ss_original_df (w_state w')) (Some df)
                                 (ss_edit_mode (w_state w')) true) w')
  | (Raise e, w') => (Raise e, w')
  end.
Proof.
  unfold refresh_data, modify_state, modify. rewrite !bind_run.
  destruct (load_data K strptime (set_cache None w)) as [[df|e] w']; [| reflexivity].
  by destruct w'.
Qed.


End Loading.

(** ** What the model layer leaves alone *)

Lemma quiet_bind {A B} (m : M A) (k : A → M B) :
  quiet m → (∀ a, quiet (k a)) → quiet (m ≫= k).
Proof.
  intros Hm Hk w. rewrite bind_run. destruct (Hm w) as [Hst Hex].
  destruct (m w) as [[a|e] w1]; cbn [fst snd] in *.
  - destruct (Hk a w1) as [Hst' Hex']. split; [congruence | exact Hex'].
  - split; [exact Hst |]. intros e' [= <-]. by apply Hex.
Qed.

Lemma quiet_ret {A} (a : A) : quiet (mret a : M A).
Proof. intros w. split; [reflexivity | discriminate]. Qed.

Lemma quiet_raise {A} (e : exn) : is_Exception e = true → quiet (raise e : M A).
Proof. intros He w. split; [reflexivity |]. by intros e' [= <-]. Qed.

Lemma quiet_lift {A} (r : outcome A) :
  (∀ e, r = Raise e → is_Exception e = true) → quiet (lift r).
Proof. intros Hr w. split; [reflexivity | exact Hr]. Qed.

Ltac quiet_prim :=
  let w := fresh "w" in
  intros w; destruct w as [h tg [tabs cat rej now user calls] c0 st p l tr];
  unfold app_state, frame_read, frame_alloc, frame_write, modify, get_world,
    session_call, update_tables;
  cbn [set_heap set_column_tags set_session set_cache set_state set_page
       set_log set_trace w_heap w_column_tags w_session w_cache
       w_state w_page w_log w_trace set_calls set_tables sess_tables
       sess_catalog sess_rejects sess_now sess_user sess_calls];
  repeat match goal with
         | |- context [match ?x with _ => _ end] => destruct x
         end;
  cbn [fst snd w_state w_page w_log w_trace];
  (split; [reflexivity | first [discriminate | intros ? [= <-]; reflexivity]]).

Lemma quiet_frame_read (r : loc) : quiet (frame_read r).
Proof. quiet_prim. Qed.

Lemma quiet_frame_alloc (d : DataFrame) : quiet (frame_alloc d).
Proof. quiet_prim. Qed.

Lemma quiet_frame_write (r : loc) (d : DataFrame) : quiet (frame_write r d).
Proof. quiet_prim. Qed.

Lemma quiet_get_world : quiet get_world.
Proof. quiet_prim. Qed.

Lemma quiet_session_call (c : StoreCall) : quiet (session_call c).
Proof. quiet_prim. Qed.

Lemma quiet_update_tables (f : gmap string Table → gmap string Table) :
  quiet (update_tables f).
Proof. quiet_prim. Qed.

Lemma quiet_set_cache (c : option DataFrame) : quiet (modify (set_cache c)).
Proof. quiet_prim. Qed.

Lemma quiet_tags_assign (col : string) (tag : ColumnTag) : quiet (tags_assign col tag).
Proof. unfold tags_assign. quiet_prim. Qed.

Create HintDb quiet.
#[local] Hint Resolve quiet_ret quiet_frame_read quiet_frame_alloc quiet_frame_write
  quiet_get_world quiet_session_call quiet_update_tables quiet_set_cache
  quiet_tags_assign : quiet.

Ltac quiet_seq :=
  repeat first
    [ solve [auto with quiet]
    | apply quiet_ret
    | apply quiet_raise; reflexivity
    | apply quiet_bind; [| intros ?]
    | match goal with
      | |- quiet (match ?x with _ => _ end) => destruct x
      | |- quiet (if ?b then _ else _) => destruct b
      end ].

Lemma quiet_frame_getitem (r : loc) (name : string) : quiet (frame_getitem r name).
Proof. unfold frame_getitem. quiet_seq. Qed.

Lemma quiet_frame_setitem (r : loc) (name : string) (t : dtype) (vs : list value) :
  quiet (frame_setitem r name t vs).
Proof. unfold frame_setitem. quiet_seq. Qed.

Lemma quiet_tags_update (col : string) (f : ColumnTag → ColumnTag) :
  quiet (tags_update col f).
Proof. unfold tags_update. quiet_seq. Qed.

#[local] Hint Resolve quiet_frame_getitem quiet_frame_setitem quiet_tags_update : quiet.

Lemma quiet_clean_column_names (r : loc) : quiet (clean_column_names r).
Proof. unfold clean_column_names. quiet_seq. Qed.

Section QuietEngine.

Variable K : Constants.
Variable strptime : string → string → option Timestamp.

Lemma quiet_convert_one (r : loc) (col : string) : quiet (convert_one strptime r col).
Proof. unfold convert_one. quiet_seq. Qed.

Lemma quiet_convert_loop (r : loc) (cols : list string) :
  quiet (convert_loop strptime r cols).
Proof.
  induction cols as [|col rest IH]; cbn [convert_loop]; [apply quiet_ret |].
  apply quiet_bind; [apply quiet_convert_one | intros _; exact IH].
Qed.

Lemma quiet_auto_convert_dtypes (r : loc) : quiet (auto_convert_dtypes strptime r).
Proof.
  unfold auto_convert_dtypes. pose proof quiet_convert_loop. quiet_seq.
Qed.

Lemma quiet_session_select_all (text table : string) :
  quiet (session_select_all text table).
Proof. unfold session_select_all. quiet_seq. Qed.

Lemma quiet_load_data_uncached : quiet (load_data_uncached K strptime).
Proof.
  unfold load_data_uncached.
  pose proof quiet_session_select_all. pose proof quiet_clean_column_names.
  pose proof quiet_auto_convert_dtypes. quiet_seq.
Qed.

Lemma quiet_load_data : quiet (load_data K strptime).
Proof. unfold load_data. pose proof quiet_load_data_uncached. quiet_seq. Qed.

Lemma number_loop_raises (col : string) (p s : Z) (values : list value)
    (errors : list string) (e : exn) :
  number_loop col p s values errors = Raise e → is_Exception e = true.
Proof. intros H. apply number_loop_type_error in H. by subst. Qed.

Lemma quiet_validate_column (r : loc) (metadata : list MetaRow) (col : string)
    (errors : list string) :
  quiet (validate_column r metadata col errors).
Proof.
  unfold validate_column. pose proof number_loop_raises.
  repeat first
    [ solve [auto with quiet]
    | apply quiet_ret
    | apply quiet_lift; eauto
    | apply quiet_bind; [| intros ?]
    | match goal with
      | |- quiet (match ?x with _ => _ end) => destruct x
      | |- quiet (if ?b then _ else _) => destruct b
      end ].
Qed.

Lemma quiet_validate_loop (r : loc) (metadata : list MetaRow) (cols : list string)
    (errors : list string) :
  quiet (validate_loop r metadata cols errors).
Proof.
  revert errors. induction cols as [|col rest IH]; intros errors; cbn [validate_loop].
  - apply quiet_ret.
  - apply quiet_bind; [apply quiet_validate_column | intros errors'; apply IH].
Qed.

Lemma quiet_validate_changes (r : loc) : quiet (validate_changes_against_schema K r).
Proof.
  unfold validate_changes_against_schema, get_table_schema_metadata,
    session_select_columns.
  pose proof quiet_validate_loop. quiet_seq.
Qed.

Lemma quiet_merge_changes (r : loc) : quiet (merge_changes K r).
Proof.
  unfold merge_changes, session_write_pandas, session_merge. quiet_seq.
Qed.

Lemma quiet_log_pending_changes (r : loc) : quiet (log_pending_changes K r).
Proof.
  unfold log_pending_changes, session_write_pandas, ensure_pending_table_exists,
    session_create_if_missing, session_insert_select.
  quiet_seq.
Qed.

(** X12. The functions of the model layer keep to themselves: none of the
    validator, the merge, the pending log, the load, the column tagger and
    the column renaming touches [st.session_state], the page or the
    write-back log, and none raises a script-control exception. *)
Theorem engine_keeps_to_itself (r : loc) :
  quiet (validate_changes_against_schema K r)
  ∧ quiet (merge_changes K r)
  ∧ quiet (log_pending_changes K r)
  ∧ quiet (load_data K strptime)
  ∧ quiet (auto_convert_dtypes strptime r)
  ∧ quiet (clean_column_names r).
Proof.
  repeat split.
  all: first [ apply quiet_validate_changes | apply quiet_merge_changes
             | apply quiet_log_pending_changes | apply quiet_load_data
             | apply quiet_auto_convert_dtypes | apply quiet_clean_column_names ].
Qed.

End QuietEngine.

(** ** The Save handler, continued *)

Lemma quiet_step {A B} (m : M A) (k : A → M B) (w : World)
    (P : outcome B * World → Prop) :
  quiet m →
  (∀ e w', is_Exception e = true → app_state w' = app_state w → P (Raise e, w')) →
  (∀ a w', app_state w' = app_state w → P (k a w')) →
  P ((m ≫= k) w).
Proof.
  intros Hq Hfail Hok. rewrite bind_run. destruct (Hq w) as [Hst Hex].
  destruct (m w) as [[a|e] w']; cbn [fst snd] in *.
  - by apply Hok.
  - apply Hfail; [by apply Hex | exact Hst].
Qed.

Section SaveMore.

Variable K : Constants.
Variable strptime : string → string → option Timestamp.
Variable get_changed_rows : DataFrame → DataFrame → DataFrame.
Variable build_change_log : DataFrame → DataFrame → DataFrame.


End SaveMore.

(** ** The page: row selection *)

Lemma keep_nil_r {A} (mask : list bool) : Pd.keep mask (@nil A) = [].
Proof. by destruct mask as [|[] ?]. Qed.

Lemma keep_both {A} (mask1 mask2 : list bool) (xs : list A) :
  Pd.keep (both mask1 mask2) xs = Pd.keep mask2 (Pd.keep mask1 xs).
Proof.
  revert mask2 xs. induction mask1 as [|b rest IH]; intros mask2 xs.
  - cbn. by rewrite keep_nil_r.
  - destruct xs as [|x xs].
    { by rewrite !keep_nil_r. }
    destruct b; cbn [both Pd.keep].
    + destruct mask2 as [|b2 mask2]; [reflexivity |].
      cbn [Pd.keep]. rewrite IH. by destruct b2.
    + apply IH.
Qed.

Lemma keep_length {A B} (mask : list bool) (xs : list A) (ys : list B) :
  length xs = length ys → length (Pd.keep mask xs) = length (Pd.keep mask ys).
Proof.
  revert xs ys. induction mask as [|b rest IH]; intros xs ys Hlen; [reflexivity |].
  destruct xs as [|x xs], ys as [|y ys]; try discriminate; [reflexivity |].
  injection Hlen as Hlen. cbn [Pd.keep]. destruct b; cbn [length]; by rewrite (IH xs ys).
Qed.

Lemma keep_sublist {A} (mask : list bool) (xs : list A) : Pd.keep mask xs `sublist_of` xs.
Proof.
  revert xs. induction mask as [|b rest IH]; intros xs.
  - apply sublist_nil_l.
  - destruct xs as [|x xs]; [by rewrite keep_nil_r |].
    cbn [Pd.keep]. destruct b; [by apply sublist_skip | by apply sublist_cons].
Qed.

Lemma keep_all {A} (n : nat) (xs : list A) :
  (length xs ≤ n)%nat → Pd.keep (replicate n true) xs = xs.
Proof.
  revert xs. induction n as [|n IH]; intros xs Hlen.
  - destruct xs; [reflexivity | cbn in Hlen; lia].
  - destruct xs as [|x xs]; [reflexivity |]. cbn [replicate Pd.keep].
    rewrite IH; [reflexivity | cbn in Hlen; lia].
Qed.

Lemma mask_rows_both (d : DataFrame) (mask1 mask2 : list bool) :
  Pd.mask_rows (Pd.mask_rows d mask1) mask2 = Pd.mask_rows d (both mask1 mask2).
Proof.
  unfold Pd.mask_rows. cbn [df_len df_cols]. f_equal.
  - rewrite keep_both. apply keep_length. by rewrite length_seq.
  - rewrite map_map. apply map_ext. intros c. cbn [col_name col_dtype col_values].
    by rewrite keep_both.
Qed.

Lemma mask_rows_all (d : DataFrame) : ∃ mask, Pd.mask_rows d mask = d.
Proof.
  set (N := (df_len d + sum_list_with (λ c, length (col_values c)) (df_cols d))%nat).
  exists (replicate N true).
  assert (Hall : Forall (λ c, (length (col_values c) ≤ N)%nat) (df_cols d)).
  { apply Forall_forall. intros c Hc.
    pose proof (sum_list_with_in _ (λ c, length (col_values c)) _ Hc). lia. }
  assert (Hlen : (df_len d ≤ N)%nat) by lia.
  clearbody N. destruct d as [n cols]. unfold Pd.mask_rows. cbn [df_len df_cols] in *.
  f_equal.
  - rewrite keep_all; [apply length_seq | by rewrite length_seq].
  - induction Hall as [|c rest Hc _ IH]; [reflexivity |].
    cbn [map]. rewrite IH, keep_all by done. by destruct c.
Qed.

Lemma mask_rows_columns (d : DataFrame) (mask : list bool) :
  Frame.columns (Pd.mask_rows d mask) = Frame.columns d.
Proof. unfold Frame.columns, Pd.mask_rows. cbn [df_cols]. by rewrite map_map. Qed.

Lemma mask_rows_len (d : DataFrame) (mask : list bool) :
  (df_len (Pd.mask_rows d mask) ≤ df_len d)%nat.
Proof.
  unfold Pd.mask_rows. cbn [df_len].
  pose proof (sublist_length _ _ (keep_sublist mask (seq 0 (df_len d)))) as H.
  by rewrite length_seq in H.
Qed.

Lemma mask_rows_cells (d : DataFrame) (mask : list bool) :
  Forall2 (λ c c', col_name c' = col_name c ∧ col_dtype c' = col_dtype c
                   ∧ col_values c' `sublist_of` col_values c)
          (df_cols d) (df_cols (Pd.mask_rows d mask)).
Proof.
  unfold Pd.mask_rows. cbn [df_cols]. apply Forall2_fmap_r, Forall_Forall2_diag, Forall_forall.
  intros c _. cbn. repeat split. apply keep_sublist.
Qed.

Lemma getitem_absent (d : DataFrame) (col : string) :
  Frame.getitem d col = None → col ∉ Frame.columns d.
Proof.
  intros Hnone Hin. destruct (getitem_in_columns d col Hin) as [c Hc]. congruence.
Qed.

Lemma getitem_present (d : DataFrame) (col : string) (c : Column) :
  Frame.getitem d col = Some c → col ∈ Frame.columns d.
Proof.
  intros H. destruct (getitem_name _ _ _ H) as [<- Hin].
  unfold Frame.columns. apply list_elem_of_fmap. eauto.
Qed.

(** ** The filters *)

Lemma lift_bind_run {A B} (r : outcome A) (k : A → M B) (w : World) :
  (lift r ≫= k) w = match r with Ok a => k a w | Raise e => (Raise e, w) end.
Proof. by destruct r. Qed.

Lemma ret_bind_run {A B} (a : A) (k : A → M B) (w : World) : (mret a ≫= k) w = k a w.
Proof. reflexivity. Qed.

Lemma raise_bind_run {A B} (e : exn) (k : A → M B) (w : World) :
  (raise e ≫= k) w = (Raise e, w).
Proof. reflexivity. Qed.

Lemma tag_ranges_default (tags : gmap string ColumnTag) :
  Forall (λ '(col, range), default_range tags col = Some range) (tag_ranges tags).
Proof.
  apply Forall_forall. intros [col range] Hin. unfold tag_ranges in Hin.
  apply list_elem_of_omap in Hin as ([col' tag] & Hentry & Hrange).
  apply elem_of_map_to_list in Hentry. unfold default_range.
  destruct (tag_min_date tag) as [lo|] eqn:Hlo; [| discriminate].
  destruct (tag_max_date tag) as [hi|] eqn:Hhi; [| discriminate].
  injection Hrange as <- <-. by rewrite Hentry, Hlo, Hhi.
Qed.

Lemma all_choices_all (cols : list string) :
  Forall (λ choice : string * value, snd choice = VText "All") (all_choices cols).
Proof. unfold all_choices. apply Forall_forall. by intros ? (c & -> & _)%list_elem_of_fmap. Qed.

Section Filters.

Variable to_datetime_coerce : list value → list (option Timestamp).

Lemma choice_filters_selects (filters : list (string * value)) (d d' : DataFrame) :
  choice_filters filters d = Ok d' → ∃ mask, d' = Pd.mask_rows d mask.
Proof.
  revert d. induction filters as [|[col val] rest IH]; intros d; cbn [choice_filters].
  - intros [= <-]. destruct (mask_rows_all d) as [mask H]. eauto.
  - case_bool_decide; [| apply IH].
    destruct (Frame.getitem d col) as [series|]; [| discriminate].
    intros Hrest. apply IH in Hrest as [mask ->]. rewrite mask_rows_both. eauto.
Qed.

Lemma choice_filters_raises (filters : list (string * value)) (d : DataFrame) (e : exn) :
  choice_filters filters d = Raise e → ∃ col, e = KeyError col ∧ col ∉ Frame.columns d.
Proof.
  revert d. induction filters as [|[col val] rest IH]; intros d; cbn [choice_filters];
    [discriminate |].
  case_bool_decide; [| apply IH].
  destruct (Frame.getitem d col) as [series|] eqn:Hget.
  - intros Hrest. apply IH in Hrest as (c & -> & Hc).
    rewrite mask_rows_columns in Hc. eauto.
  - intros [= <-]. exists col. split; [reflexivity | by apply getitem_absent].
Qed.

Lemma choice_filters_missing (filters : list (string * value)) (d : DataFrame)
    (choice : string * value) :
  choice ∈ filters → active choice → fst choice ∉ Frame.columns d →
  ∃ col, choice_filters filters d = Raise (KeyError col) ∧ col ∉ Frame.columns d.
Proof.
  revert d. induction filters as [|[col val] rest IH]; intros d Hin Hact Habs.
  { by apply elem_of_nil in Hin. }
  cbn [choice_filters]. apply elem_of_cons in Hin as [-> | Hin].
  - unfold active in Hact. cbn [fst snd] in *. rewrite bool_decide_eq_true_2 by done.
    destruct (Frame.getitem d col) as [series|] eqn:Hget.
    + exfalso. apply Habs. by apply getitem_present in Hget.
    + eauto.
  - case_bool_decide; [| by apply IH].
    destruct (Frame.getitem d col) as [series|] eqn:Hget.
    + destruct (IH (Pd.mask_rows d (map (Pd.eq_cell val) (col_values series))) Hin Hact)
        as (c & Hrun & Hc); [by rewrite mask_rows_columns |].
      rewrite mask_rows_columns in Hc. eauto.
    + exists col. split; [reflexivity | by apply getitem_absent].
Qed.

Lemma choice_filters_present (filters : list (string * value)) (d : DataFrame) :
  Forall (λ choice, fst choice ∈ Frame.columns d) filters →
  ∃ d', choice_filters filters d = Ok d'.
Proof.
  revert d. induction filters as [|[col val] rest IH]; intros d Hall; [by eexists |].
  apply Forall_cons in Hall as [Hcol Hrest]. cbn [choice_filters fst] in *.
  case_bool_decide; [| by apply IH].
  destruct (getitem_in_columns d col Hcol) as [c ->].
  apply IH. by rewrite mask_rows_columns.
Qed.

Lemma choice_filters_all (filters : list (string * value)) (d : DataFrame) :
  Forall (λ choice, snd choice = VText "All") filters →
  choice_filters filters d = Ok d.
Proof.
  induction 1 as [|[col val] rest Hval _ IH]; [reflexivity |].
  cbn [choice_filters]. cbn [snd] in Hval. subst val.
  by rewrite bool_decide_eq_false_2 by (intros H; by apply H).
Qed.

Lemma timestamp_filters_selects (tags : gmap string ColumnTag)
    (filters : list (string * (value * value))) (d : DataFrame) :
  ∃ mask, timestamp_filters to_datetime_coerce tags filters d = Ok (Pd.mask_rows d mask).
Proof.
  revert d. induction filters as [|[col range] rest IH]; intros d; cbn [timestamp_filters].
  - destruct (mask_rows_all d) as [mask H]. exists mask. by rewrite H.
  - case_bool_decide as Hcol; [apply IH |].
    case_bool_decide; [apply IH |].
    destruct (Frame.getitem d col) as [series|] eqn:Hget.
    + destruct (forallb _ _); [apply IH |]. cbv zeta.
      destruct (IH (Pd.mask_rows d (range_mask (to_datetime_coerce (col_values series))
                                               range))) as [mask ->].
      rewrite mask_rows_both. eauto.
    + exfalso. by apply (getitem_absent _ _ Hget).
Qed.

Lemma timestamp_filters_neutral (tags : gmap string ColumnTag)
    (filters : list (string * (value * value))) (d : DataFrame) :
  Forall (λ '(col, range),
            (col ∉ Frame.columns d) ∨ default_range tags col = Some range) filters →
  timestamp_filters to_datetime_coerce tags filters d = Ok d.
Proof.
  induction 1 as [|[col range] rest Hhead _ IH]; [reflexivity |].
  cbn [timestamp_filters]. case_bool_decide as Hcol; [exact IH |].
  destruct Hhead as [Habs | Hdef]; [done |].
  by rewrite bool_decide_eq_true_2.
Qed.

Lemma apply_filters_run (ui : FilterState) (df : loc) (w : World) (d : DataFrame)
    (fs fb : list (string * value)) (ft : list (string * (value * value))) :
  w_heap w !! df = Some d →
  filters_string ui = Some fs →
  filters_boolean ui = Some fb →
  filters_timestamp ui = Some ft →
  apply_filters to_datetime_coerce ui df w =
  match
    filtered ← choice_filters fs d;
    filtered ← choice_filters fb filtered;
    timestamp_filters to_datetime_coerce (w_column_tags w) ft filtered
  with
  | Ok d' => (Ok (fresh (dom (w_heap w))),
              set_heap (<[fresh (dom (w_heap w)) := d']> (w_heap w)) w)
  | Raise e => (Raise e, w)
  end.
Proof.
  intros Hd Hs Hb Ht. unfold apply_filters.
  rewrite (bind_ok _ _ _ _ _ (frame_read_ok _ _ _ Hd)), Hs, Hb, Ht.
  unfold state_entry. rewrite ret_bind_run, lift_bind_run.
  destruct (choice_filters fs d) as [d1|e]; [| reflexivity].
  rewrite ret_bind_run, lift_bind_run. cbn [mbind outcome_bind].
  destruct (choice_filters fb d1) as [d2|e]; [| reflexivity].
  cbn [mbind outcome_bind]. rewrite ret_bind_run. unfold get_world. rewrite bind_run, lift_bind_run.
  destruct (timestamp_filters _ _ ft d2) as [d3|e]; reflexivity.
Qed.

(** X14. What [apply_filters] returns, whenever it returns: a new frame
    object holding a selection of the rows of the frame it was given, the
    same rows in every column, in their order, under the same labels and
    dtypes, so never more rows than before; the frame it was given, like
    everything else but the new frame, is as it was. *)
Theorem apply_filters_selects_rows (ui : FilterState) (df r' : loc) (w w' : World)
    (d : DataFrame) :
  w_heap w !! df = Some d →
  apply_filters to_datetime_coerce ui df w = (Ok r', w') →
  ∃ mask : list bool,
    let d' := Pd.mask_rows d mask in
    w' = set_heap (<[r' := d']> (w_heap w)) w
    ∧ w_heap w !! r' = None
    ∧ w_heap w' !! r' = Some d'
    ∧ w_heap w' !! df = Some d
    ∧ Frame.columns d' = Frame.columns d
    ∧ (df_len d' ≤ df_len d)%nat
    ∧ Forall2 (λ c c', col_name c' = col_name c ∧ col_dtype c' = col_dtype c
                       ∧ col_values c' `sublist_of` col_values c)
              (df_cols d) (df_cols d').
Proof.
  intros Hd Hrun.
  assert (Hfresh : w_heap w !! fresh (dom (w_heap w)) = None)
    by apply not_elem_of_dom, is_fresh.
  destruct (filters_string ui) as [fs|] eqn:Hs.
  2: { exfalso. revert Hrun. unfold apply_filters.
       rewrite (bind_ok _ _ _ _ _ (frame_read_ok _ _ _ Hd)), Hs.
       unfold state_entry. by rewrite raise_bind_run. }
  destruct (filters_boolean ui) as [fb|] eqn:Hb.
  2: { exfalso. revert Hrun. unfold apply_filters.
       rewrite (bind_ok _ _ _ _ _ (frame_read_ok _ _ _ Hd)), Hs, Hb.
       unfold state_entry. rewrite ret_bind_run, lift_bind_run.
       destruct (choice_filters fs d); [by rewrite raise_bind_run | discriminate]. }
  destruct (filters_timestamp ui) as [ft|] eqn:Ht.
  2: { exfalso. revert Hrun. unfold apply_filters.
       rewrite (bind_ok _ _ _ _ _ (frame_read_ok _ _ _ Hd)), Hs, Hb, Ht.
       unfold state_entry. rewrite ret_bind_run, lift_bind_run.
       destruct (choice_filters fs d); [| discriminate].
       rewrite ret_bind_run, lift_bind_run.
       destruct (choice_filters fb _); [by rewrite raise_bind_run | discriminate]. }
  rewrite (apply_filters_run ui df w d fs fb ft Hd Hs Hb Ht) in Hrun.
  destruct (choice_filters fs d) as [d1|e] eqn:H1; cbn [mbind outcome_bind] in Hrun;
    [| discriminate].
  destruct (choice_filters fb d1) as [d2|e] eqn:H2; cbn [mbind outcome_bind] in Hrun;
    [| discriminate].
  apply choice_filters_selects in H1 as [m1 ->].
  apply choice_filters_selects in H2 as [m2 ->].
  destruct (timestamp_filters_selects (w_column_tags w) ft
              (Pd.mask_rows (Pd.mask_rows d m1) m2)) as [m3 H3].
  rewrite H3, !mask_rows_both in Hrun. injection Hrun as <- <-.
  eexists. cbv zeta.
  split; [reflexivity |]. split; [exact Hfresh |].
  split; [destruct w; apply lookup_insert_eq |].
  split.
  { destruct w as [h tg s c0 st p l tr]. cbn [w_heap set_heap] in *.
    rewrite lookup_insert_ne; [exact Hd | congruence]. }
  split; [apply mask_rows_columns |].
  split; [apply mask_rows_len | apply mask_rows_cells].
Qed.


End Filters.

Lemma reset_filters_run (df : loc) (ui : FilterState) (w : World) (d : DataFrame) :
  w_heap w !! df = Some d →
  ∃ ws,
    reset_filters df ui w
    = (Ok (mkFilters (Some (all_choices (Pd.select_dtypes DString d)))
                     (Some (all_choices (Pd.select_dtypes DBool d)))
                     (Some (tag_ranges (w_column_tags w))) ws),
       set_state (mkState (ss_df (w_state w)) (ss_original_df (w_state w)) (Some df)
                          (ss_edit_mode (w_state w))
                          (ss_reset_filters_pending (w_state w))) w).
Proof.
  intros Hd. eexists. unfold reset_filters.
  rewrite (bind_ok _ _ _ _ _ (frame_read_ok _ _ _ Hd)).
  unfold get_world. rewrite bind_run. cbv zeta. reflexivity.
Qed.

Section FiltersReset.

Variable to_datetime_coerce : list value → list (option Timestamp).

Lemma apply_filters_neutral (ui : FilterState) (df : loc) (w : World) (d : DataFrame) :
  w_heap w !! df = Some d →
  neutral (w_column_tags w) d ui →
  apply_filters to_datetime_coerce ui df w
  = (Ok (fresh (dom (w_heap w))),
     set_heap (<[fresh (dom (w_heap w)) := d]> (w_heap w)) w).
Proof.
  intros Hd (fs & fb & ft & Hs & Hb & Ht & Hfs & Hfb & Hft).
  rewrite (apply_filters_run _ ui df w d fs fb ft Hd Hs Hb Ht).
  rewrite (choice_filters_all fs d Hfs). cbn [mbind outcome_bind].
  rewrite (choice_filters_all fb d Hfb). cbn [mbind outcome_bind].
  by rewrite (timestamp_filters_neutral _ _ ft d Hft).
Qed.

(** X16. After [reset_filters] the whole table is shown: it sets every
    string and boolean filter of the frame to ["All"] and every date filter
    to the range of its tag, makes [filtered_df] the frame itself, and
    touches neither the frames nor the store; and [apply_filters] on the
    filters so set returns a new frame with the very content of the frame
    given. *)
Theorem reset_filters_shows_all (df : loc) (ui : FilterState) (w : World)
    (d : DataFrame) :
  w_heap w !! df = Some d →
  let out := reset_filters df ui w in
  ∃ ui' : FilterState,
    fst out = Ok ui'
    ∧ filters_string ui' = Some (all_choices (Pd.select_dtypes DString d))
    ∧ filters_boolean ui' = Some (all_choices (Pd.select_dtypes DBool d))
    ∧ filters_timestamp ui' = Some (tag_ranges (w_column_tags w))
    ∧ ss_filtered_df (w_state (snd out)) = Some df
    ∧ ss_df (w_state (snd out)) = ss_df (w_state w)
    ∧ w_heap (snd out) = w_heap w
    ∧ w_session (snd out) = w_session w
    ∧ neutral (w_column_tags (snd out)) d ui'
    ∧ ∃ shown : loc,
        apply_filters to_datetime_coerce ui' df (snd out)
        = (Ok shown, set_heap (<[shown := d]> (w_heap w)) (snd out))
        ∧ w_heap w !! shown = None.
Proof.
  intros Hd out. destruct (reset_filters_run df ui w d Hd) as [ws Hrun].
  subst out. rewrite Hrun. cbn [fst snd]. eexists. split; [reflexivity |].
  cbn [filters_string filters_boolean filters_timestamp].
  set (w1 := set_state _ w).
  assert (Hn : neutral (w_column_tags w1) d
                 (mkFilters (Some (all_choices (Pd.select_dtypes DString d)))
                            (Some (all_choices (Pd.select_dtypes DBool d)))
                            (Some (tag_ranges (w_column_tags w))) ws)).
  { eexists _, _, _. repeat split; try apply all_choices_all.
    eapply Forall_impl; [apply tag_ranges_default |].
    intros [col range] Hdef. right. by destruct w. }
  assert (Hd1 : w_heap w1 !! df = Some d) by (by destruct w).
  do 3 (split; [reflexivity |]).
  do 4 (split; [by destruct w |]).
  split; [exact Hn |].
  exists (fresh (dom (w_heap w))). split.
  - rewrite (apply_filters_neutral _ df w1 d Hd1 Hn). by destruct w.
  - apply not_elem_of_dom, is_fresh.
Qed.

End FiltersReset.

(** ** The first run of the script *)

(** Computations that only read. *)


Lemma reads_bind {A B} (m : M A) (k : A → M B) :
  reads m → (∀ a, reads (k a)) → reads (m ≫= k).
Proof.
  intros Hm Hk w. rewrite bind_run. specialize (Hm w).
  destruct (m w) as [[a|e] w1]; cbn [snd] in *; subst w1; [apply Hk | reflexivity].
Qed.

Lemma reads_ret {A} (a : A) : reads (mret a : M A).
Proof. by intros w. Qed.

Lemma reads_raise {A} (e : exn) : reads (raise e : M A).
Proof. by intros w. Qed.

Lemma reads_lift {A} (r : outcome A) : reads (lift r).
Proof. by intros w. Qed.

Lemma reads_get_world : reads get_world.
Proof. by intros w. Qed.

Lemma reads_frame_read (r : loc) : reads (frame_read r).
Proof. intros w. unfold frame_read. by destruct (w_heap w !! r). Qed.

Lemma reads_state_df : reads state_df.
Proof.
  unfold state_df. apply reads_bind; [apply reads_get_world | intros w].
  destruct (ss_df (w_state w)); [apply reads_ret | apply reads_raise].
Qed.

Lemma state_df_run (w : World) (r : loc) :
  ss_df (w_state w) = Some r → state_df w = (Ok r, w).
Proof. intros H. unfold state_df, get_world. rewrite bind_run. by rewrite H. Qed.

Section Init.

Variable K : Constants.
Variable strptime : string → string → option Timestamp.

Lemma load_data_live (w w' : World) (r : loc) :
  load_data K strptime w = (Ok r, w') → is_Some (w_heap w' !! r).
Proof.
  rewrite load_data_run. destruct (w_cache w) as [d|].
  - intros [= <- <-]. exists d. destruct w. apply lookup_insert_eq.
  - destruct (load_data_uncached K strptime w) as [[df|e] w1]; [| discriminate].
    destruct (w_heap w1 !! df) as [d|] eqn:Hd; [| discriminate].
    intros [= <- <-]. exists d. by destruct w1.
Qed.

Lemma init_state_complete (ui : FilterState) (w : World) :
  is_Some (ss_df (w_state w)) →
  is_Some (ss_original_df (w_state w)) →
  is_Some (filters_string ui) →
  is_Some (filters_boolean ui) →
  is_Some (filters_timestamp ui) →
  init_state K strptime ui w = (Ok ui, w).
Proof.
  intros [r Hr] [r' Hr'] [fs Hs] [fb Hb] [ft Ht].
  unfold init_state, get_world. rewrite bind_run. cbv beta iota. rewrite Hr.
  rewrite ret_bind_run, bind_run. cbv beta iota. rewrite Hr', ret_bind_run, Hs, Hb, Ht.
  rewrite !ret_bind_run. by destruct ui; simplify_eq/=.
Qed.

Lemma load_data_grows (w w' : World) (r r0 : loc) :
  load_data K strptime w = (Ok r, w') →
  w_heap w' !! r0 = None → w_heap w !! r0 = None.
Proof.
  rewrite load_data_run. destruct (w_cache w) as [d|].
  { intros [= <- <-]. destruct w as [h tg s c0 st p l tr]. cbn [w_heap set_heap].
    intros H. by apply lookup_insert_None in H as [? _]. }
  destruct (sess_rejects (w_session w) (CallSql (select_all_text K))) eqn:Hrej.
  { rewrite (load_data_uncached_fails K strptime w (or_introl Hrej)). discriminate. }
  destruct (sess_tables (w_session w) !! qualified (DATABASE K) (SCHEMA K) (TABLE K))
    as [t|] eqn:Ht.
  2: { rewrite (load_data_uncached_fails K strptime w (or_intror Ht)). discriminate. }
  destruct (load_data_uncached_run K strptime w t Hrej Ht) as (d' & tags' & Hrun & _).
  cbv zeta in Hrun. rewrite Hrun. clear Hrun.
  destruct w as [h tg s c0 st p l tr]. run_cbv.
  rewrite lookup_insert_eq. intros [= <- <-].
  intros H. apply lookup_insert_None in H as [H _].
  by apply lookup_insert_None in H as [? _].
Qed.

(** X17. [init_state] does its work once per session. After a run that
    returned, a second run changes nothing: no store call, no new frame,
    the same filters. The run leaves [df] and [original_df] set; when
    [original_df] was not set before, it is a new frame object, different
    from [df], with the content of [df]. When [df] was set already, the
    store is not called (nor [column_tags] or the cache changed). Entries
    that were set are kept: [df], [original_df], each filter entry, the
    widget states, the edit mode and the filtered view. *)
Theorem init_state_once (ui ui' : FilterState) (w w' : World) :
  init_state K strptime ui w = (Ok ui', w') →
  init_state K strptime ui' w' = (Ok ui', w')
  ∧ (∃ r r',
       ss_df (w_state w') = Some r
       ∧ ss_original_df (w_state w') = Some r'
       ∧ (ss_original_df (w_state w) = None →
          ∃ d, r' ≠ r ∧ w_heap w !! r' = None
               ∧ w_heap w' !! r = Some d ∧ w_heap w' !! r' = Some d))
  ∧ (∀ r, ss_df (w_state w) = Some r →
          ss_df (w_state w') = Some r ∧ w_session w' = w_session w
          ∧ w_column_tags w' = w_column_tags w ∧ w_cache w' = w_cache w)
  ∧ (∀ r', ss_original_df (w_state w) = Some r' →
           ss_original_df (w_state w') = Some r')
  ∧ (∀ fs, filters_string ui = Some fs → filters_string ui' = Some fs)
  ∧ (∀ fb, filters_boolean ui = Some fb → filters_boolean ui' = Some fb)
  ∧ (∀ ft, filters_timestamp ui = Some ft → filters_timestamp ui' = Some ft)
  ∧ widgets ui' = widgets ui
  ∧ ss_edit_mode (w_state w') = ss_edit_mode (w_state w)
  ∧ ss_filtered_df (w_state w') = ss_filtered_df (w_state w).
Proof.
  intros Hrun. unfold init_state in Hrun.
  set (filters := (match filters_string ui with Some _ => _ | None => _ end ≫= _))
    in Hrun.
  (* the filter entries: nothing but reads *)
  assert (Hfilters : ∀ wx, filters wx = (Ok ui', w') →
            w' = wx
            ∧ is_Some (filters_string ui') ∧ is_Some (filters_boolean ui')
            ∧ is_Some (filters_timestamp ui')
            ∧ (∀ fs, filters_string ui = Some fs → filters_string ui' = Some fs)
            ∧ (∀ fb, filters_boolean ui = Some fb → filters_boolean ui' = Some fb)
            ∧ (∀ ft, filters_timestamp ui = Some ft → filters_timestamp ui' = Some ft)
            ∧ widgets ui' = widgets ui).
  { intros wx Hx. subst filters.
    set (m1 := match filters_string ui with Some _ => _ | None => _ end) in Hx.
    assert (R1 : reads m1).
    { subst m1. destruct (filters_string ui); [apply reads_ret |].
      apply reads_bind; [apply reads_state_df | intros r].
      apply reads_bind; [apply reads_frame_read | intros d]. apply reads_ret. }
    rewrite bind_run in Hx. pose proof (R1 wx) as Hw1.
    destruct (m1 wx) as [[fs|e] w1] eqn:Hm1; [| discriminate]. cbn [snd] in Hw1. subst w1.
    set (m2 := match filters_boolean ui with Some _ => _ | None => _ end) in Hx.
    assert (R2 : reads m2).
    { subst m2. destruct (filters_boolean ui); [apply reads_ret |].
      apply reads_bind; [apply reads_state_df | intros r].
      apply reads_bind; [apply reads_frame_read | intros d]. apply reads_ret. }
    rewrite bind_run in Hx. pose proof (R2 wx) as Hw2.
    destruct (m2 wx) as [[fb|e] w2] eqn:Hm2; [| discriminate]. cbn [snd] in Hw2. subst w2.
    set (m3 := match filters_timestamp ui with Some _ => _ | None => _ end) in Hx.
    assert (R3 : reads m3).
    { subst m3. destruct (filters_timestamp ui); [apply reads_ret |].
      apply reads_bind; [apply reads_get_world | intros w0]. apply reads_lift. }
    rewrite bind_run in Hx. pose proof (R3 wx) as Hw3.
    destruct (m3 wx) as [[ft|e] w3] eqn:Hm3; [| discriminate]. cbn [snd] in Hw3. subst w3.
    injection Hx as <- <-. cbn [filters_string filters_boolean filters_timestamp widgets].
    split; [reflexivity |]. do 3 (split; [by eexists |]).
    split; [intros x Hs; subst m1; rewrite Hs in Hm1; by injection Hm1 as <- |].
    split; [intros x Hs; subst m2; rewrite Hs in Hm2; by injection Hm2 as <- |].
    split; [intros x Hs; subst m3; rewrite Hs in Hm3; by injection Hm3 as <- |].
    reflexivity. }
  (* the original snapshot *)
  assert (Hsnapshot : ∀ wa r,
            ss_df (w_state wa) = Some r →
            ((get_world ≫= λ w0 : World,
                match ss_original_df (w_state w0) with
                | Some _ => mret ()
                | None =>
                    state_df ≫= λ df, frame_read df ≫= λ d, frame_alloc d ≫= λ copy,
                    modify_state (λ s, mkState (ss_df s) (Some copy) (ss_filtered_df s)
                                               (ss_edit_mode s)
                                               (ss_reset_filters_pending s))
                end ≫= λ _, filters) wa = (Ok ui', w')) →
            ∃ r',
              ss_df (w_state w') = Some r
              ∧ ss_original_df (w_state w') = Some r'
              ∧ (ss_original_df (w_state wa) = None →
                 ∃ d, r' ≠ r ∧ w_heap wa !! r' = None
                      ∧ w_heap w' !! r = Some d ∧ w_heap w' !! r' = Some d)
              ∧ (∀ x, ss_original_df (w_state wa) = Some x → x = r')
              ∧ w_session w' = w_session wa
              ∧ w_column_tags w' = w_column_tags wa
              ∧ w_cache w' = w_cache wa
              ∧ ss_edit_mode (w_state w') = ss_edit_mode (w_state wa)
              ∧ ss_filtered_df (w_state w') = ss_filtered_df (w_state wa)
              ∧ ∃ wx, filters wx = (Ok ui', w')).
  { intros wa r Hr Hx. rewrite bind_run in Hx.
    change (get_world wa) with (Ok wa, wa) in Hx. cbv beta iota in Hx.
    destruct (ss_original_df (w_state wa)) as [r'|] eqn:Horig.
    - rewrite ret_bind_run in Hx. pose proof Hx as Hx0.
      destruct (Hfilters wa Hx) as (-> & _).
      exists r'. repeat split; try done; [by intros x [= ->] | by exists wa].
    - rewrite bind_run, (bind_ok _ _ _ _ _ (state_df_run wa r Hr)) in Hx.
      rewrite bind_run in Hx. unfold frame_read at 1 in Hx.
      destruct (w_heap wa !! r) as [d|] eqn:Hd; [| discriminate].
      rewrite bind_run in Hx. unfold frame_alloc at 1, modify_state, modify in Hx.
      cbv beta iota zeta in Hx. pose proof Hx as Hx0.
      apply Hfilters in Hx as (-> & _).
      assert (Hfresh : w_heap wa !! fresh (dom (w_heap wa)) = None)
        by apply not_elem_of_dom, is_fresh.
      exists (fresh (dom (w_heap wa))).
      destruct wa as [h tg s c0 st p l tr].
      cbn [w_state w_heap w_session w_column_tags w_cache set_state set_heap
           ss_df ss_original_df ss_edit_mode ss_filtered_df] in *.
      assert (Hne : fresh (dom h) ≠ r) by congruence.
      repeat split; try done; [| by eexists]. intros _. exists d.
      rewrite lookup_insert_eq, lookup_insert_ne by done. by repeat split. }
  assert (Hdone : ∀ wx, filters wx = (Ok ui', w') →
            is_Some (ss_df (w_state w')) → is_Some (ss_original_df (w_state w')) →
            init_state K strptime ui' w' = (Ok ui', w')).
  { intros wx Hx Hdf Horig. destruct (Hfilters wx Hx) as (_ & Hs & Hb & Ht & _).
    by apply init_state_complete. }
  rewrite bind_run in Hrun. change (get_world w) with (Ok w, w) in Hrun.
  cbv beta iota in Hrun.
  destruct (ss_df (w_state w)) as [r|] eqn:Hdf.
  - (* the data is there *)
    rewrite ret_bind_run in Hrun.
    destruct (Hsnapshot w r Hdf Hrun)
      as (r' & Hr & Hr' & Hnew & Hold & Hsess & Htags & Hcache & Hmode & Hfilt & wx & Hx).
    destruct (Hfilters wx Hx) as (_ & _ & _ & _ & Hs & Hb & Ht & Hw).
    split; [apply (Hdone wx Hx); by eexists |].
    split; [by exists r, r' |].
    split; [by intros ? [= <-] |].
    split; [intros x Hx'; by rewrite (Hold x Hx') |].
    by repeat split.
  - (* first load *)
    rewrite bind_run in Hrun. rewrite bind_run in Hrun.
    destruct (quiet_load_data K strptime w) as [Hquiet _].
    destruct (load_data K strptime w) as [[df|e] wl] eqn:Hload; [| discriminate].
    cbn [snd] in Hquiet. unfold app_state in Hquiet. injection Hquiet as Hst _ _ _.
    unfold modify_state, modify in Hrun. cbv beta iota in Hrun.
    set (wa := set_state _ wl) in Hrun.
    assert (Hdfa : ss_df (w_state wa) = Some df) by (by destruct wl).
    assert (Hsta : ss_original_df (w_state wa) = ss_original_df (w_state w)
                   ∧ ss_edit_mode (w_state wa) = ss_edit_mode (w_state w)
                   ∧ ss_filtered_df (w_state wa) = ss_filtered_df (w_state w)).
    { subst wa. rewrite <- Hst. by destruct wl. }
    destruct Hsta as (Horig & Hmode0 & Hfilt0).
    assert (Hheap : w_heap wa = w_heap wl) by (by destruct wl).
    destruct (Hsnapshot wa df Hdfa Hrun)
      as (r' & Hr & Hr' & Hnew & Hold & Hsess & Htags & Hcache & Hmode & Hfilt & wx & Hx).
    destruct (Hfilters wx Hx) as (_ & _ & _ & _ & Hs & Hb & Ht & Hw).
    split; [apply (Hdone wx Hx); by eexists |].
    split.
    { exists df, r'. split; [exact Hr | split; [exact Hr' |]].
      intros Hnone. rewrite <- Horig in Hnone.
      destruct (Hnew Hnone) as (d & Hne & Hfresh & Hd & Hd').
      exists d. repeat split; try done.
      rewrite Hheap in Hfresh. by apply (load_data_grows w wl df r' Hload). }
    split; [intros ? [=] |].
    split; [intros x Hx'; rewrite <- Horig in Hx'; by rewrite (Hold x Hx') |].
    repeat split; try done; congruence.
Qed.

End Init.

(** ** The buttons and the display *)

Section Buttons.

Variable K : Constants.
Variable strptime : string → string → option Timestamp.
Variable to_datetime_coerce : list value → list (option Timestamp).

(** X18. "Edit Table" takes a snapshot that later edits cannot reach: the
    click makes [original_df] a new frame object, different from [df],
    with the content [df] has at that moment, switches edit mode on and
    reruns the script; [df], the filtered view and the store are
    untouched; and an in-place change of any other frame leaves the
    snapshot as it is. *)
Theorem edit_table_takes_snapshot (w : World) (r : loc) (d : DataFrame) :
  ss_df (w_state w) = Some r →
  w_heap w !! r = Some d →
  let out := edit_table_clicked w in
  ∃ copy : loc,
    fst out = Raise RerunException
    ∧ ss_original_df (w_state (snd out)) = Some copy
    ∧ ss_edit_mode (w_state (snd out)) = true
    ∧ ss_df (w_state (snd out)) = Some r
    ∧ ss_filtered_df (w_state (snd out)) = ss_filtered_df (w_state w)
    ∧ copy ≠ r
    ∧ w_heap w !! copy = None
    ∧ w_heap (snd out) !! copy = Some d
    ∧ w_heap (snd out) !! r = Some d
    ∧ w_session (snd out) = w_session w
    ∧ ∀ (r0 : loc) (d0 : DataFrame),
        r0 ≠ copy →
        w_heap (snd (frame_write r0 d0 (snd out))) !! copy = Some d.
Proof.
  intros Hr Hd out. subst out. unfold edit_table_clicked.
  rewrite (bind_ok _ _ _ _ _ (state_df_run w r Hr)).
  rewrite (bind_ok _ _ _ _ _ (frame_read_ok _ _ _ Hd)).
  assert (Hfresh : w_heap w !! fresh (dom (w_heap w)) = None)
    by apply not_elem_of_dom, is_fresh.
  exists (fresh (dom (w_heap w))).
  destruct w as [h tg s c0 [sdf sorig sfilt smode spend] p l tr].
  unfold modify_state, frame_write. run_cbv.
  cbn [w_heap w_state ss_df ss_original_df ss_edit_mode ss_filtered_df] in *.
  assert (Hne : fresh (dom h) ≠ r) by congruence.
  rewrite lookup_insert_eq, lookup_insert_ne by done.
  repeat split; try done.
  intros r0 d0 Hr0. by rewrite lookup_insert_ne, lookup_insert_eq.
Qed.

Lemma head_len (n : nat) (d : DataFrame) :
  (df_len (Pd.head n d) ≤ n)%nat ∧ (df_len (Pd.head n d) ≤ df_len d)%nat.
Proof. unfold Pd.head. cbn [df_len]. lia. Qed.

Lemma head_cells (n : nat) (d : DataFrame) :
  Forall2 (λ c c', col_name c' = col_name c ∧ col_dtype c' = col_dtype c
                   ∧ col_values c' = take n (col_values c))
          (df_cols d) (df_cols (Pd.head n d)).
Proof.
  unfold Pd.head. cbn [df_cols]. apply Forall2_fmap_r, Forall_Forall2_diag, Forall_forall.
  by intros c _.
Qed.

Lemma df_to_show_run (w : World) (r : loc) (d : DataFrame) :
  ss_df (w_state w) = Some r →
  w_heap w !! default r (ss_filtered_df (w_state w)) = Some d →
  df_to_show K w
  = (Ok (fresh (dom (w_heap w))),
     set_heap (<[fresh (dom (w_heap w)) := Pd.head (MAX_ROWS K) d]> (w_heap w)) w).
Proof.
  intros Hr Hd. unfold df_to_show.
  rewrite (bind_ok _ _ _ _ _ (state_df_run w r Hr)).
  unfold get_world. rewrite bind_run. cbv beta iota.
  by rewrite (bind_ok _ _ _ _ _ (frame_read_ok _ _ _ Hd)).
Qed.

Lemma refresh_data_loaded (w w1 : World) :
  refresh_data K strptime w = (Ok (), w1) →
  ∃ r d,
    ss_reset_filters_pending (w_state w1) = true
    ∧ ss_df (w_state w1) = Some r
    ∧ w_heap w1 !! r = Some d
    ∧ w_cache w1 = Some d.
Proof.
  rewrite refresh_data_run, load_data_run. cbn [w_cache set_cache].
  destruct (load_data_uncached K strptime (set_cache None w)) as [[df|e] w'];
    [| discriminate].
  destruct (w_heap w' !! df) as [d|] eqn:Hd; [| discriminate].
  intros [= <-]. exists df, d. by destruct w'.
Qed.

(** X19. A pending filter reset puts the table on display. With the reset
    pending, the top of the script resets the filters, clears the flag and
    makes [filtered_df] the very frame that [df] names, without touching
    any frame; the filters are then neutral, and what is displayed is a
    new frame holding the first [MAX_ROWS] rows of that table, never more.
    Without a pending reset that step does nothing. A refresh that
    succeeded and a click on "Reset Filters" both leave the reset
    pending. *)
Theorem pending_reset_shows_table (ui : FilterState) (w : World) :
  (∀ r d,
     ss_reset_filters_pending (w_state w) = true →
     ss_df (w_state w) = Some r →
     w_heap w !! r = Some d →
     ∃ (ui' : FilterState) (w' : World) (shown : loc),
       reset_if_pending ui w = (Ok ui', w')
       ∧ ss_reset_filters_pending (w_state w') = false
       ∧ ss_filtered_df (w_state w') = Some r
       ∧ ss_df (w_state w') = Some r
       ∧ w_heap w' = w_heap w
       ∧ neutral (w_column_tags w') d ui'
       ∧ df_to_show K w'
         = (Ok shown, set_heap (<[shown := Pd.head (MAX_ROWS K) d]> (w_heap w')) w')
       ∧ w_heap w' !! shown = None
       ∧ (df_len (Pd.head (MAX_ROWS K) d) ≤ MAX_ROWS K)%nat
       ∧ Forall2 (λ c c', col_name c' = col_name c
                          ∧ col_values c' = take (MAX_ROWS K) (col_values c))
                 (df_cols d) (df_cols (Pd.head (MAX_ROWS K) d)))
  ∧ (ss_reset_filters_pending (w_state w) = false → reset_if_pending ui w = (Ok ui, w))
  ∧ (∀ w1, refresh_data K strptime w = (Ok (), w1) →
           ∃ r d, ss_reset_filters_pending (w_state w1) = true
                  ∧ ss_df (w_state w1) = Some r ∧ w_heap w1 !! r = Some d)
  ∧ (fst (reset_filters_clicked w) = Raise RerunException
     ∧ ss_reset_filters_pending (w_state (snd (reset_filters_clicked w))) = true
     ∧ ss_df (w_state (snd (reset_filters_clicked w))) = ss_df (w_state w)
     ∧ w_heap (snd (reset_filters_clicked w)) = w_heap w).
Proof.
  split; [| split; [| split]].
  - intros r d Hpend Hr Hd.
    destruct (reset_filters_run r ui w d Hd) as [ws Hreset].
    set (ui' := mkFilters _ _ _ ws) in Hreset.
    set (w1 := set_state _ w) in Hreset.
    set (w' := set_state (mkState (ss_df (w_state w1)) (ss_original_df (w_state w1))
                                  (ss_filtered_df (w_state w1))
                                  (ss_edit_mode (w_state w1)) false) w1).
    assert (Hrun : reset_if_pending ui w = (Ok ui', w')).
    { unfold reset_if_pending, get_world. rewrite bind_run. cbv beta iota.
      rewrite Hpend, (bind_ok _ _ _ _ _ (state_df_run w r Hr)).
      by rewrite (bind_ok _ _ _ _ _ Hreset). }
    assert (Hr' : ss_df (w_state w') = Some r)
      by (subst w' w1; destruct w as [h tg s c0 [] p l tr]; exact Hr).
    assert (Hview : w_heap w' !! default r (ss_filtered_df (w_state w')) = Some d)
      by (subst w' w1; destruct w as [h tg s c0 [] p l tr]; exact Hd).
    exists ui', w', (fresh (dom (w_heap w'))).
    split; [exact Hrun |].
    split; [by destruct w as [h tg s c0 [] p l tr] |].
    split; [by destruct w as [h tg s c0 [] p l tr] |].
    split; [exact Hr' |].
    split; [by destruct w as [h tg s c0 [] p l tr] |].
    split.
    { eexists _, _, _. repeat split; try apply all_choices_all.
      eapply Forall_impl; [apply tag_ranges_default |].
      intros [col range] Hdef. right. by destruct w as [h tg s c0 [] p l tr]. }
    split; [by apply (df_to_show_run w' r d) |].
    split; [apply not_elem_of_dom, is_fresh |].
    split; [apply head_len |].
    eapply Forall2_impl; [apply head_cells |]. by intros c c' (? & _ & ?).
  - intros Hpend. unfold reset_if_pending, get_world. rewrite bind_run. cbv beta iota.
    by rewrite Hpend.
  - intros w1 Hrefresh.
    destruct (refresh_data_loaded w w1 Hrefresh) as (r & d & ? & ? & ? & _). eauto.
  - by destruct w as [h tg s c0 [] p l tr].
Qed.

Lemma filters_cases (tags : gmap string ColumnTag) (fs fb : list (string * value))
    (ft : list (string * (value * value))) (d : DataFrame) :
  let filtered :=
    filtered ← choice_filters fs d;
    filtered ← choice_filters fb filtered;
    timestamp_filters to_datetime_coerce tags ft filtered in
  (∃ mask, filtered = Ok (Pd.mask_rows d mask))
  ∨ (∃ col, filtered = Raise (KeyError col) ∧ col ∉ Frame.columns d).
Proof.
  cbv zeta. destruct (choice_filters fs d) as [d1|e] eqn:H1; cbn [mbind outcome_bind].
  2: { right. apply choice_filters_raises in H1 as (col & -> & Hcol). eauto. }
  apply choice_filters_selects in H1 as [m1 ->].
  destruct (choice_filters fb _) as [d2|e] eqn:H2; cbn [mbind outcome_bind].
  2: { right. apply choice_filters_raises in H2 as (col & -> & Hcol).
       rewrite mask_rows_columns in Hcol. eauto. }
  apply choice_filters_selects in H2 as [m2 ->].
  destruct (timestamp_filters_selects to_datetime_coerce tags ft
              (Pd.mask_rows (Pd.mask_rows d m1) m2)) as [m3 ->].
  left. rewrite !mask_rows_both. eauto.
Qed.


End Buttons.

(** ** The further properties at work on the reference configuration *)

Lemma validate_nothing_to_check_witness :
  fst (validate_changes_against_schema Sample.K 1%positive Scenario.w_notes) = Ok []
  ∧ sess_calls (w_session
                  (snd (validate_changes_against_schema Sample.K 1%positive
                          Scenario.w_notes)))
    = [CallSql (schema_metadata_text Sample.K)].
Proof.
  destruct (validate_nothing_to_check Sample.K 1%positive Scenario.w_notes
              Scenario.notes eq_refl) as (_ & _ & Hpass).
  rewrite Hpass; [split; reflexivity | reflexivity | reflexivity |].
  repeat constructor.
Defined.

Lemma validate_one_message_per_column_witness :
  (length ["Amount: value '1.234' has scale 3 but max is 2";
           "Order Status: max length is 1, received 'AB'"]
   ≤ length (df_cols Sample.changes))%nat.
Proof.
  apply (validate_one_message_per_column Sample.K 1%positive Sample.w_changes
           (snd (validate_changes_against_schema Sample.K 1%positive Sample.w_changes))
           Sample.changes).
  - reflexivity.
  - by vm_compute.
Defined.

Lemma non_finite_number_raises_witness :
  fst (validate_changes_against_schema Sample.K 1%positive Scenario.w_infinite)
  = Raise TypeError.
Proof.
  assert (Hgood : Forall (λ u, check_number 10 2 u = Ok NumberOk) [VText "12.34"])
    by (repeat constructor).
  apply (proj2 (non_finite_number_raises Sample.K 1%positive Scenario.w_infinite
                  (mkFrame 2 [Scenario.infinite_amount]) Scenario.infinite_amount
                  (mkMeta "AMOUNT" "NUMBER" None (Some 10) (Some 2)) 10
                  [VText "12.34"] [] (VText "Infinity")
                  (Decimal.mk false [0%nat] Decimal.ExpF)
                  eq_refl eq_refl eq_refl eq_refl eq_refl eq_refl
                  Hgood eq_refl eq_refl));
    reflexivity.
Defined.

Lemma check_number_widening_witness :
  check_number 12 4 (VText "12.34") = Ok NumberOk.
Proof.
  apply (check_number_widening 10 2 12 4 (VText "12.34")); [by vm_compute | lia | lia].
Defined.




Lemma merge_changes_failure_witness :
  sess_tables (w_session (snd (merge_changes Sample.K 1%positive Scenario.w_refused)))
  = {[ Sample.orders_key := Sample.orders ]}
  ∧ length (sess_calls
              (w_session (snd (merge_changes Sample.K 1%positive Scenario.w_refused))))
    = 1%nat.
Proof.
  destruct (proj1 (merge_changes_failure Sample.K 1%positive Scenario.w_refused
                     Sample.matching_change eq_refl eq_refl) eq_refl)
    as (_ & Htables & Hcalls).
  split; [exact Htables | by rewrite Hcalls].
Defined.


Lemma load_data_serves_from_cache_witness :
  ∃ d,
    w_cache (snd (load_data Sample.K Sample.strptime Scenario.w_start)) = Some d
    ∧ sess_calls
        (w_session
           (snd (load_data Sample.K Sample.strptime
                   (snd (load_data Sample.K Sample.strptime Scenario.w_start)))))
      = [CallSql (select_all_text Sample.K)].
Proof.
  destruct (load_data_serves_from_cache Sample.K Sample.strptime Scenario.w_start
              (snd (load_data Sample.K Sample.strptime Scenario.w_start)) 2%positive
              eq_refl)
    as (d & _ & Hcache & Hlater); [by vm_compute |].
  exists d. split; [exact Hcache |].
  destruct (Hlater _ Hcache) as (r2 & _ & _ & _ & _ & Hsess & _).
  rewrite Hsess. by vm_compute.
Defined.



Lemma write_back_works_on_copies_witness :
  w_heap (snd (merge_changes Sample.K 1%positive Sample.w_matching)) !! 1%positive
  = Some Sample.matching_change
  ∧ w_heap (snd (log_pending_changes Sample.K 1%positive Sample.w_matching)) !! 1%positive
    = Some Sample.matching_change.
Proof.
  apply (proj1 (write_back_works_on_copies Sample.K 1%positive Sample.w_matching
                  Sample.matching_change eq_refl)).
  reflexivity.
Defined.

Lemma apply_filters_selects_rows_witness :
  ∃ mask,
    w_heap (snd (apply_filters Scenario.to_datetime Scenario.open_since_february
                   1%positive Scenario.w_listing)) !! 2%positive
    = Some (Pd.mask_rows Scenario.listing mask)
    ∧ (df_len (Pd.mask_rows Scenario.listing mask) ≤ 3)%nat.
Proof.
  destruct (apply_filters_selects_rows Scenario.to_datetime Scenario.open_since_february
              1%positive 2%positive Scenario.w_listing
              (snd (apply_filters Scenario.to_datetime Scenario.open_since_february
                      1%positive Scenario.w_listing))
              Scenario.listing eq_refl)
    as (mask & _ & _ & Hview & _ & _ & Hlen & _); [by vm_compute |].
  exists mask. split; [exact Hview | exact Hlen].
Defined.


Lemma reset_filters_shows_all_witness :
  ∃ ui' shown,
    fst (reset_filters 1%positive Scenario.open_since_february Scenario.w_listing)
    = Ok ui'
    ∧ filters_string ui' = Some [("Status", VText "All")]
    ∧ filters_boolean ui' = Some [("Paid", VText "All")]
    ∧ w_heap
        (snd (apply_filters Scenario.to_datetime ui' 1%positive
                (snd (reset_filters 1%positive Scenario.open_since_february
                        Scenario.w_listing))))
      !! shown = Some Scenario.listing.
Proof.
  destruct (reset_filters_shows_all Scenario.to_datetime 1%positive
              Scenario.open_since_february Scenario.w_listing Scenario.listing eq_refl)
    as (ui' & Hret & Hs & Hb & _ & _ & _ & _ & _ & _ & shown & Hrun & _).
  exists ui', shown. split; [exact Hret |]. split; [exact Hs |]. split; [exact Hb |].
  rewrite Hrun. cbn [snd].
  destruct (snd (reset_filters 1%positive Scenario.open_since_february
                   Scenario.w_listing)).
  apply lookup_insert_eq.
Defined.

Lemma init_state_once_witness :
  init_state Sample.K Sample.strptime Scenario.ui_first (snd Scenario.first_run)
  = (Ok Scenario.ui_first, snd Scenario.first_run)
  ∧ ∃ r r',
      ss_df (w_state (snd Scenario.first_run)) = Some r
      ∧ ss_original_df (w_state (snd Scenario.first_run)) = Some r'
      ∧ r' ≠ r.
Proof.
  destruct (init_state_once Sample.K Sample.strptime Scenario.no_filters
              Scenario.ui_first Scenario.w_start (snd Scenario.first_run))
    as (Hagain & (r & r' & Hr & Hr' & Hnew) & _); [by vm_compute |].
  split; [exact Hagain |]. exists r, r'. split; [exact Hr | split; [exact Hr' |]].
  destruct (Hnew eq_refl) as (d & Hne & _). exact Hne.
Defined.

Lemma edit_table_takes_snapshot_witness :
  ∃ copy,
    fst (edit_table_clicked Scenario.w_listing) = Raise RerunException
    ∧ ss_original_df (w_state (snd (edit_table_clicked Scenario.w_listing))) = Some copy
    ∧ copy ≠ 1%positive
    ∧ w_heap (snd (edit_table_clicked Scenario.w_listing)) !! copy
      = Some Scenario.listing.
Proof.
  destruct (edit_table_takes_snapshot Scenario.w_listing 1%positive Scenario.listing
              eq_refl eq_refl)
    as (copy & Hret & Horig & _ & _ & _ & Hne & _ & Hcopy & _).
  exists copy. repeat split; assumption.
Defined.

Lemma pending_reset_shows_table_witness :
  ∃ ui' w' shown,
    reset_if_pending Scenario.open_since_february Scenario.w_listing = (Ok ui', w')
    ∧ ss_reset_filters_pending (w_state w') = false
    ∧ ss_filtered_df (w_state w') = Some 1%positive
    ∧ fst (df_to_show Sample.K w') = Ok shown.
Proof.
  destruct (proj1 (pending_reset_shows_table Sample.K Sample.strptime
                     Scenario.open_since_february Scenario.w_listing)
              1%positive Scenario.listing eq_refl eq_refl eq_refl)
    as (ui' & w' & shown & Hrun & Hpend & Hview & _ & _ & _ & Hshow & _).
  exists ui', w', shown. repeat split; try assumption. by rewrite Hshow.
Defined.


(** The open orders created from February on, of the three of the
    listing: the third. *)
Example open_since_february_view :
  w_heap (snd (apply_filters Scenario.to_datetime Scenario.open_since_february
                 1%positive Scenario.w_listing)) !! 2%positive
  = Some (mkFrame 1
            [mkColumn "Order ID" DInt64 [VInt 3];
             mkColumn "Status" DString [VText "open"];
             mkColumn "Paid" DBool [VNull];
             mkColumn "Created" DObject [VDate (mkDate 2024 3 1)]]).
Proof. by vm_compute. Qed.
